(** * Demand forecasting notebook: a shallow embedding and its properties

    The development follows the code cells of
    [5_agents/sagemaker-endpoint-to-agentcore/1-demand_forecasting.ipynb].

    Conventions of the embedding:
    - a Python [float] that is a number is a real number of [R] and
      arithmetic on numbers is exact: rounding and the infinities are not
      modelled.  NaN in a cell
      (pandas' missing value, NaT for a date) is [None] in a cell of type
      [option R]; a float argument that need not be a number has the type
      [WithNaN.pyfloat].  An integer cell holds its value and a timestamp
      cell its day number;
    - a Python [str] is a string of ASCII characters;
    - a pandas [DataFrame] is its row labels together with the ordered list
      of its named columns; a [Series] carries its name, labels and values;
    - a Python exception is a value of [exn]; a function that can raise
      returns a [result];
    - statements that mutate the caller's frame ([df[name] = ...]) are
      modelled by state passing: the function returns the final state of
      the object it was given together with its return value;
    - pandas, numpy and scikit-learn operations follow their documented
      behaviour on the inputs the notebook gives them;
    - SDK calls, [input] and the random generator are external: their
      outcomes come from a world that every statement quantifies over. *)

From Stdlib Require Import String Ascii List Bool Arith ZArith Lia.
From Stdlib Require Import DecimalString.
From Stdlib Require Import Reals Lra.
Import ListNotations.

Local Open Scope string_scope.
Local Open Scope list_scope.
Local Open Scope nat_scope.

(** ** Exceptions and results *)

Inductive exn : Type :=
| KeyError (key : string)
| ValueError (msg : string)
| IndexError
| OutOfBoundsDatetime
| ExternalError (name : string).

Inductive result (A : Type) : Type :=
| Ok (a : A)
| Err (e : exn).

Arguments Ok {A} a.
Arguments Err {A} e.

Definition rbind {A B : Type} (r : result A) (k : A -> result B) : result B :=
  match r with
  | Ok a => k a
  | Err e => Err e
  end.

Notation "x <- e ;; k" := (rbind e (fun x => k))
  (at level 61, e at next level, right associativity).

(** A [for] loop whose body updates a state and may raise. *)
Fixpoint for_each {A S : Type} (l : list A) (body : A -> S -> result S) (s : S)
  : result S :=
  match l with
  | [] => Ok s
  | a :: l' => s' <- body a s ;; for_each l' body s'
  end.

(** [str(n)] for a non-negative integer, as an f-string interpolates it. *)
Definition str (n : nat) : string := NilEmpty.string_of_uint (Nat.to_uint n).

(** ** pandas: series and frames *)

(** A cell: a number, or [None] when the value is missing. *)
Abbreviation cell := (option R).

Record Series : Type := mkSeries {
  sname : string;
  sindex : list Z;
  svalues : list cell
}.

Record DataFrame : Type := mkFrame {
  index : list Z;
  columns : list (string * list cell)
}.

Definition nrows (df : DataFrame) : nat := length (index df).

Definition column_names (df : DataFrame) : list string := map fst (columns df).

Fixpoint lookup_col (cols : list (string * list cell)) (key : string)
  : option (list cell) :=
  match cols with
  | [] => None
  | (k, c) :: rest => if String.eqb k key then Some c else lookup_col rest key
  end.

Fixpoint set_col (cols : list (string * list cell)) (key : string) (v : list cell)
  : list (string * list cell) :=
  match cols with
  | [] => [(key, v)]
  | (k, c) :: rest =>
      if String.eqb k key then (key, v) :: rest else (k, c) :: set_col rest key v
  end.

(** [df[key]] for a label that one column bears: the column as a series
    sharing the frame's labels.  (For a label that several columns bear
    pandas returns a frame instead, which the assignments of
    [prepare_features] refuse; the first such column stands for it here.) *)
Definition getitem (df : DataFrame) (key : string) : result Series :=
  match lookup_col (columns df) key with
  | Some c => Ok (mkSeries key (index df) c)
  | None => Err (KeyError key)
  end.

(** [df[key] = s] for a series [s] carrying the frame's own labels: the
    column is replaced in place when it exists and appended otherwise. *)
Definition setitem (df : DataFrame) (key : string) (s : Series) : DataFrame :=
  mkFrame (index df) (set_col (columns df) key (svalues s)).

(** [l[a:b]] for [0 <= a]. *)
Definition slice {A : Type} (a b : nat) (l : list A) : list A :=
  firstn (b - a) (skipn a l).

(** [s.shift(periods)] for [periods >= 0]: values move down, the holes at the
    top are missing, the length is kept. *)
Definition shift (periods : nat) (s : Series) : Series :=
  mkSeries (sname s) (sindex s)
    (firstn (length (svalues s)) (repeat None periods ++ svalues s)).

(** [s.rolling(window=w)]: a fixed trailing window; [min_periods] defaults to
    the window size. *)
Record Rolling : Type := mkRolling {
  obj : Series;
  window : nat;
  min_periods : nat
}.

Definition rolling (s : Series) (w : nat) : Rolling := mkRolling s w w.

(** The non-missing observations of a run of cells. *)
Definition observations (l : list cell) : list R :=
  flat_map (fun c => match c with Some x => [x] | None => [] end) l.

(** The window that ends at position [i] covers positions
    [max 0 (i + 1 - window)] to [i]; the statistic is missing when fewer than
    [min_periods] observations fall in it. *)
Definition rolling_apply (r : Rolling) (agg : list R -> cell) : Series :=
  let vals := svalues (obj r) in
  mkSeries (sname (obj r)) (sindex (obj r))
    (map (fun i =>
            let obs := observations (slice (i + 1 - window r) (i + 1) vals) in
            if length obs <? min_periods r then None else agg obs)
         (seq 0 (length vals))).

Definition Rsum (l : list R) : R := fold_right Rplus 0%R l.

Definition mean_of (l : list R) : R := (Rsum l / INR (length l))%R.

(** Sum of squared deviations from the mean. *)
Definition ssqdm (l : list R) : R :=
  Rsum (map (fun x => ((x - mean_of l) * (x - mean_of l))%R) l).

(** The mean and the sample standard deviation of a window, as exact
    numbers.  pandas computes both in double precision by updating running
    sums as the window moves, so its cells approximate these values; which
    cells are missing does not depend on that. *)
Definition agg_mean (obs : list R) : cell :=
  match obs with
  | [] => None
  | _ => Some (mean_of obs)
  end.

(** Sample standard deviation ([ddof = 1]). *)
Definition agg_std (obs : list R) : cell :=
  if length obs <=? 1 then None
  else Some (sqrt (ssqdm obs / INR (length obs - 1))).

Definition rolling_mean (r : Rolling) : Series := rolling_apply r agg_mean.
Definition rolling_std (r : Rolling) : Series := rolling_apply r agg_std.

Definition is_null (c : option cell) : bool :=
  match c with
  | Some (Some _) => false
  | _ => true
  end.

Definition row_has_null (df : DataFrame) (i : nat) : bool :=
  existsb (fun c => is_null (nth_error (snd c) i)) (columns df).

(** Keep the entries of [l] whose flag is set. *)
Fixpoint select {A : Type} (mask : list bool) (l : list A) : list A :=
  match mask, l with
  | b :: mask', x :: l' => if b then x :: select mask' l' else select mask' l'
  | _, _ => []
  end.

(** [df.dropna()]: a new frame with the rows that have no missing cell; the
    surviving rows keep their labels. *)
Definition dropna (df : DataFrame) : DataFrame :=
  let mask := map (fun i => negb (row_has_null df i)) (seq 0 (nrows df)) in
  mkFrame (select mask (index df))
          (map (fun c => (fst c, select mask (snd c))) (columns df)).

(** ** Feature engineering *)

(** [prepare_features(df)]: the first component is the caller's frame after
    the in-place column assignments, the second the frame returned. *)
Definition prepare_features (df : DataFrame) : result (DataFrame * DataFrame) :=
  df <- for_each [1; 7; 14; 30]%nat
          (fun lag df =>
             demand <- getitem df "demand" ;;
             Ok (setitem df ("lag_" ++ str lag)%string (shift lag demand))) df ;;
  df <- for_each [7; 14; 30]%nat
          (fun w df =>
             demand <- getitem df "demand" ;;
             let df := setitem df ("rolling_mean_" ++ str w)%string
                         (rolling_mean (rolling demand w)) in
             demand <- getitem df "demand" ;;
             Ok (setitem df ("rolling_std_" ++ str w)%string
                   (rolling_std (rolling demand w)))) df ;;
  Ok (df, dropna df).

(** Every column has one cell per row label. *)
Definition frame_wf (df : DataFrame) : bool :=
  forallb (fun c => length (snd c) =? nrows df) (columns df).

(** No cell of the frame is missing. *)
Definition has_no_nulls (df : DataFrame) : bool :=
  forallb (fun c => forallb (fun x => negb (is_null (Some x))) (snd c)) (columns df).

(** The ten columns that the two loops of [prepare_features] assign, in
    order, when the demand column is [d]. *)
Definition feature_columns (d : Series) : list (string * Series) :=
  [("lag_1", shift 1 d); ("lag_7", shift 7 d);
   ("lag_14", shift 14 d); ("lag_30", shift 30 d);
   ("rolling_mean_7", rolling_mean (rolling d 7));
   ("rolling_std_7", rolling_std (rolling d 7));
   ("rolling_mean_14", rolling_mean (rolling d 14));
   ("rolling_std_14", rolling_std (rolling d 14));
   ("rolling_mean_30", rolling_mean (rolling d 30));
   ("rolling_std_30", rolling_std (rolling d 30))].

(** The frame after the two loops, as one chain of assignments. *)
Definition augment (df : DataFrame) (d : Series) : DataFrame :=
  fold_left (fun acc kv => setitem acc (fst kv) (snd kv)) (feature_columns d) df.

(** ** scikit-learn: [train_test_split] without shuffling *)

(** A fractional [test_size], kept exact: [0.3] is [3/10] and [0.5] is [1/2].
    For these two fractions the binary product [test_size * n_samples] and
    the exact one have the same ceiling. *)
Record fraction : Type := mkFraction { numer : nat; denom : nat }.

Definition ceil_mul (f : fraction) (n : nat) : nat :=
  (numer f * n + denom f - 1) / denom f.

Definition iloc_frame (a b : nat) (df : DataFrame) : DataFrame :=
  mkFrame (slice a b (index df))
          (map (fun c => (fst c, slice a b (snd c))) (columns df)).

Definition iloc_series (a b : nat) (s : Series) : Series :=
  mkSeries (sname s) (slice a b (sindex s)) (slice a b (svalues s)).

(** [train_test_split(X, y, test_size=f, shuffle=False)]: the test part has
    [ceil (f * n)] rows and the training part the rest; an empty training
    part is refused, and so are arrays of different lengths and a fraction
    outside (0, 1). *)
Definition train_test_split (X : DataFrame) (y : Series) (test_size : fraction)
  : result (DataFrame * DataFrame * Series * Series) :=
  let n_samples := nrows X in
  if negb (length (svalues y) =? n_samples) then
    Err (ValueError "Found input variables with inconsistent numbers of samples")
  else if negb ((0 <? numer test_size) && (numer test_size <? denom test_size)) then
    Err (ValueError "test_size should be in the (0, 1) range")
  else
    let n_test := ceil_mul test_size n_samples in
    let n_train := n_samples - n_test in
    if n_train =? 0 then
      Err (ValueError "the resulting train set will be empty")
    else
      Ok (iloc_frame 0 n_train X, iloc_frame n_train (n_train + n_test) X,
          iloc_series 0 n_train y, iloc_series n_train (n_train + n_test) y).

(** The columns that bear the label [k], in the frame's order: more than one
    when the label is repeated. *)
Definition columns_labelled (cols : list (string * list cell)) (k : string)
  : list (string * list cell) :=
  filter (fun c => String.eqb (fst c) k) cols.

(** [df[keys]] for a list of column labels: for each key in turn, every
    column that bears it (with a repeated label, pandas selects each of its
    columns once per occurrence of the key); a key that no column bears is a
    KeyError. *)
Fixpoint take_columns (cols : list (string * list cell)) (keys : list string)
  : result (list (string * list cell)) :=
  match keys with
  | [] => Ok []
  | k :: keys' =>
      match columns_labelled cols k with
      | [] => Err (KeyError k)
      | found => rest <- take_columns cols keys' ;; Ok (found ++ rest)
      end
  end.

Definition getitem_list (df : DataFrame) (keys : list string) : result DataFrame :=
  cols <- take_columns (columns df) keys ;; Ok (mkFrame (index df) cols).

Definition mem_string (s : string) (l : list string) : bool :=
  existsb (String.eqb s) l.

(** ** Train / validation / test split *)

Definition feature_names (df : DataFrame) : list string :=
  filter (fun col => negb (mem_string col ["date"; "demand"])) (column_names df).

Definition split_data (df : DataFrame)
  : result (DataFrame * Series * DataFrame * Series * DataFrame * Series) :=
  let features := feature_names df in
  X <- getitem_list df features ;;
  y <- getitem df "demand" ;;
  r1 <- train_test_split X y (mkFraction 3 10) ;;
  let '(X_train, X_temp, y_train, y_temp) := r1 in
  r2 <- train_test_split X_temp y_temp (mkFraction 1 2) ;;
  let '(X_val, X_test, y_val, y_test) := r2 in
  Ok (X_train, y_train, X_val, y_val, X_test, y_test).

(** The rows of a frame, in order: the label and the cells of each row. *)
Definition row_at (df : DataFrame) (i : nat) : Z * list (option cell) :=
  (nth i (index df) 0%Z, map (fun c => nth_error (snd c) i) (columns df)).

Definition rows (df : DataFrame) : list (Z * list (option cell)) :=
  map (row_at df) (seq 0 (nrows df)).

(** ** numpy: scalars, one-dimensional arrays and broadcasting *)

Inductive ndarray : Type :=
| Scalar (x : R)
| Arr (l : list R).

Fixpoint zip_with {A B C : Type} (f : A -> B -> C) (l1 : list A) (l2 : list B)
  : list C :=
  match l1, l2 with
  | x :: l1', y :: l2' => f x y :: zip_with f l1' l2'
  | _, _ => []
  end.

(** Element-wise binary operation; a scalar is broadcast over an array.  Two
    arrays are combined position by position (every array built below has
    [n_periods] elements). *)
Definition broadcast2 (f : R -> R -> R) (a b : ndarray) : ndarray :=
  match a, b with
  | Scalar x, Scalar y => Scalar (f x y)
  | Scalar x, Arr l => Arr (map (fun v => f x v) l)
  | Arr l, Scalar y => Arr (map (fun v => f v y) l)
  | Arr l1, Arr l2 => Arr (zip_with f l1 l2)
  end.

Definition np_add : ndarray -> ndarray -> ndarray := broadcast2 Rplus.
Definition np_mul : ndarray -> ndarray -> ndarray := broadcast2 Rmult.
Definition np_div : ndarray -> ndarray -> ndarray := broadcast2 Rdiv.
Definition np_maximum : ndarray -> ndarray -> ndarray := broadcast2 Rmax.

Definition np_sin (a : ndarray) : ndarray :=
  match a with
  | Scalar x => Scalar (sin x)
  | Arr l => Arr (map sin l)
  end.

Definition np_arange (n : nat) : ndarray := Arr (map INR (seq 0 n)).

(** The element at position [t]; a scalar stands for every position. *)
Definition np_get (a : ndarray) (t : nat) : option R :=
  match a with
  | Scalar x => Some x
  | Arr l => nth_error l t
  end.

(** The values of an array used as a frame column of [n] rows. *)
Definition column_of (n : nat) (a : ndarray) : list cell :=
  match a with
  | Scalar x => repeat (Some x) n
  | Arr l => map Some l
  end.

(** ** Calendar: days since 1970-01-01 and civil dates *)

Local Open Scope Z_scope.

Definition days_from_civil (y m d : Z) : Z :=
  let y := if m <=? 2 then y - 1 else y in
  let era := y / 400 in
  let yoe := y - era * 400 in
  let mp := if 2 <? m then m - 3 else m + 9 in
  let doy := (153 * mp + 2) / 5 + d - 1 in
  let doe := yoe * 365 + yoe / 4 - yoe / 100 + doy in
  era * 146097 + doe - 719468.

(** Year, month and day of month of a day number. *)
Definition civil_from_days (z : Z) : Z * Z * Z :=
  let z := z + 719468 in
  let era := z / 146097 in
  let doe := z - era * 146097 in
  let yoe := (doe - doe / 1460 + doe / 36524 - doe / 146096) / 365 in
  let y := yoe + era * 400 in
  let doy := doe - (365 * yoe + yoe / 4 - yoe / 100) in
  let mp := (5 * doy + 2) / 153 in
  let d := doy - (153 * mp + 2) / 5 + 1 in
  let m := if mp <? 10 then mp + 3 else mp - 9 in
  ((if m <=? 2 then y + 1 else y), m, d).

Definition year_of (z : Z) : Z := fst (fst (civil_from_days z)).
Definition month_of (z : Z) : Z := snd (fst (civil_from_days z)).
Definition day_of (z : Z) : Z := snd (civil_from_days z).
Definition quarter_of (z : Z) : Z := (month_of z - 1) / 3 + 1.
(** Monday is 0; 1970-01-01 was a Thursday. *)
Definition dayofweek_of (z : Z) : Z := (z + 3) mod 7.

(** [pd.date_range(start, periods=n)] at daily frequency, as day numbers.
    With timestamps kept as signed 64-bit counts of nanoseconds (pandas
    before version 3) a range whose last day does not fit is refused; from
    2021-01-01 that is a range of more than 88124 days.  Later versions
    return longer ranges too: what is stated below about the dates is stated
    for ranges that fit. *)
Definition ns_per_day : Z := 86400 * 1000000000.
Definition int64_max : Z := 9223372036854775807.

Definition date_range (start : Z) (periods : nat) : result (list Z) :=
  match periods with
  | O => Ok []
  | S k =>
      if (start + Z.of_nat k) * ns_per_day <=? int64_max
      then Ok (map (fun i => start + Z.of_nat i) (seq 0 periods))
      else Err OutOfBoundsDatetime
  end.

Local Close Scope Z_scope.

(** A timestamp cell holds its day number; the [.dt] accessors read it back. *)
Definition timestamp_cell (day : Z) : cell := Some (IZR day).

Definition dt_accessor (f : Z -> Z) (s : Series) : Series :=
  mkSeries (sname s) (sindex s)
    (map (fun c => match c with
                   | Some x => Some (IZR (f (Int_part x)))
                   | None => None
                   end) (svalues s)).

(** [pd.DataFrame({...})] from columns of equal length, with the default
    labels [0 .. n-1]. *)
Definition range_index (n : nat) : list Z := map Z.of_nat (seq 0 n).

Definition DataFrame_of_dict (n : nat) (cols : list (string * list cell)) : DataFrame :=
  mkFrame (range_index n) cols.

(** ** Synthetic demand *)

Section Generation.

(** [normal_sample loc scale k]: the [k]-th sample that the call
    [np.random.normal(loc, scale, size)] returns, for a scale that is a
    number (see [WithNaN] for NaN and the negative zero). *)
Variable normal_sample : R -> R -> nat -> R.

Definition np_random_normal (loc scale : R) (size : nat) : result ndarray :=
  if Rlt_dec scale 0 then Err (ValueError "scale < 0")
  else Ok (Arr (map (normal_sample loc scale) (seq 0 size))).

Definition generate_demand_data (n_periods : nat) (seasonality trend : bool)
    (noise_level : R) : result DataFrame :=
  let time_idx := np_arange n_periods in
  let base_demand := 100%R in
  let trend_component :=
    if trend then np_mul time_idx (Scalar 0.1%R) else Scalar 0%R in
  let seasonality_component :=
    if seasonality then
      let weekly :=
        np_mul (Scalar 10%R)
          (np_sin (np_div (np_mul (Scalar (2 * PI)%R) time_idx) (Scalar 7%R))) in
      let monthly :=
        np_mul (Scalar 20%R)
          (np_sin (np_div (np_mul (Scalar (2 * PI)%R) time_idx) (Scalar 30%R))) in
      let yearly :=
        np_mul (Scalar 50%R)
          (np_sin (np_div (np_mul (Scalar (2 * PI)%R) time_idx) (Scalar 365%R))) in
      np_add (np_add weekly monthly) yearly
    else Scalar 0%R in
  noise <- np_random_normal 0%R (noise_level * base_demand)%R n_periods ;;
  let demand :=
    np_add (np_add (np_add (Scalar base_demand) trend_component)
                   seasonality_component) noise in
  let demand := np_maximum demand (Scalar 0%R) in
  dates <- date_range (days_from_civil 2021 1 1) n_periods ;;
  let df := DataFrame_of_dict n_periods
              [("date", map timestamp_cell dates);
               ("demand", column_of n_periods demand)] in
  date <- getitem df "date" ;;
  let df := setitem df "dayofweek" (dt_accessor dayofweek_of date) in
  date <- getitem df "date" ;;
  let df := setitem df "month" (dt_accessor month_of date) in
  date <- getitem df "date" ;;
  let df := setitem df "day" (dt_accessor day_of date) in
  date <- getitem df "date" ;;
  let df := setitem df "year" (dt_accessor year_of date) in
  date <- getitem df "date" ;;
  let df := setitem df "quarter" (dt_accessor quarter_of date) in
  Ok df.

End Generation.

(** ** Synthetic demand when the noise level is not a number

    [generate_demand_data] takes its [noise_level] as a Python float.  Two
    floats do not behave as the real number they would stand for: NaN, which
    numpy accepts as a scale and which every later operation propagates, and
    the negative zero, which numpy refuses as a scale by its sign bit.  The
    module repeats the numpy operations and the function on cells that may
    be NaN ([None], as in a frame); on a number it computes what the
    definitions above compute. *)

Module WithNaN.

(** A float argument: a number ([Num 0] is the positive zero), the negative
    zero, or NaN.  The infinities are left out. *)
Inductive pyfloat : Type :=
| Num (x : R)
| NegZero
| NaN.

(** [a * k] for a positive integer [k]: the sign is kept. *)
Definition times (a : pyfloat) (k : R) : pyfloat :=
  match a with
  | Num x => Num (x * k)
  | NegZero => NegZero
  | NaN => NaN
  end.

(** What numpy refuses as a scale: a float whose sign bit is set, unless it
    is NaN. *)
Definition negative (a : pyfloat) : Prop :=
  match a with
  | Num x => (x < 0)%R
  | NegZero => True
  | NaN => False
  end.

Inductive ndarray : Type :=
| Scalar (x : cell)
| Arr (l : list cell).

(** An arithmetic operation on two floats: NaN when either is. *)
Definition lift2 (f : R -> R -> R) (a b : cell) : cell :=
  match a, b with
  | Some x, Some y => Some (f x y)
  | _, _ => None
  end.

Definition broadcast2 (f : cell -> cell -> cell) (a b : ndarray) : ndarray :=
  match a, b with
  | Scalar x, Scalar y => Scalar (f x y)
  | Scalar x, Arr l => Arr (map (fun v => f x v) l)
  | Arr l, Scalar y => Arr (map (fun v => f v y) l)
  | Arr l1, Arr l2 => Arr (zip_with f l1 l2)
  end.

Definition np_add : ndarray -> ndarray -> ndarray := broadcast2 (lift2 Rplus).
Definition np_mul : ndarray -> ndarray -> ndarray := broadcast2 (lift2 Rmult).
Definition np_div : ndarray -> ndarray -> ndarray := broadcast2 (lift2 Rdiv).
(** [np.maximum] propagates NaN. *)
Definition np_maximum : ndarray -> ndarray -> ndarray := broadcast2 (lift2 Rmax).

Definition np_sin (a : ndarray) : ndarray :=
  match a with
  | Scalar x => Scalar (option_map sin x)
  | Arr l => Arr (map (option_map sin) l)
  end.

Definition np_arange (n : nat) : ndarray := Arr (map Some (map INR (seq 0 n))).

Definition column_of (n : nat) (a : ndarray) : list cell :=
  match a with
  | Scalar x => repeat x n
  | Arr l => l
  end.

(** A scalar, or an array of [n] elements. *)
Definition sized (n : nat) (a : ndarray) : Prop :=
  match a with
  | Scalar _ => True
  | Arr l => length l = n
  end.

Section Generation.

Variable normal_sample : R -> R -> nat -> R.

(** [np.random.normal(loc, scale, size)]: a scale with the sign bit set is
    refused; with a NaN scale every sample [loc + scale * z] is NaN. *)
Definition np_random_normal (loc : R) (scale : pyfloat) (size : nat)
  : result ndarray :=
  match scale with
  | Num s =>
      if Rlt_dec s 0 then Err (ValueError "scale < 0")
      else Ok (Arr (map Some (map (normal_sample loc s) (seq 0 size))))
  | NegZero => Err (ValueError "scale < 0")
  | NaN => Ok (Arr (repeat None size))
  end.

Definition generate_demand_data (n_periods : nat) (seasonality trend : bool)
    (noise_level : pyfloat) : result DataFrame :=
  let time_idx := np_arange n_periods in
  let base_demand := 100%R in
  let trend_component :=
    if trend then np_mul time_idx (Scalar (Some 0.1%R)) else Scalar (Some 0%R) in
  let seasonality_component :=
    if seasonality then
      let weekly :=
        np_mul (Scalar (Some 10%R))
          (np_sin (np_div (np_mul (Scalar (Some (2 * PI)%R)) time_idx)
                     (Scalar (Some 7%R)))) in
      let monthly :=
        np_mul (Scalar (Some 20%R))
          (np_sin (np_div (np_mul (Scalar (Some (2 * PI)%R)) time_idx)
                     (Scalar (Some 30%R)))) in
      let yearly :=
        np_mul (Scalar (Some 50%R))
          (np_sin (np_div (np_mul (Scalar (Some (2 * PI)%R)) time_idx)
                     (Scalar (Some 365%R)))) in
      np_add (np_add weekly monthly) yearly
    else Scalar (Some 0%R) in
  noise <- np_random_normal 0%R (times noise_level base_demand) n_periods ;;
  let demand :=
    np_add (np_add (np_add (Scalar (Some base_demand)) trend_component)
                   seasonality_component) noise in
  let demand := np_maximum demand (Scalar (Some 0%R)) in
  dates <- date_range (days_from_civil 2021 1 1) n_periods ;;
  let df := DataFrame_of_dict n_periods
              [("date", map timestamp_cell dates);
               ("demand", column_of n_periods demand)] in
  date <- getitem df "date" ;;
  let df := setitem df "dayofweek" (dt_accessor dayofweek_of date) in
  date <- getitem df "date" ;;
  let df := setitem df "month" (dt_accessor month_of date) in
  date <- getitem df "date" ;;
  let df := setitem df "day" (dt_accessor day_of date) in
  date <- getitem df "date" ;;
  let df := setitem df "year" (dt_accessor year_of date) in
  date <- getitem df "date" ;;
  let df := setitem df "quarter" (dt_accessor quarter_of date) in
  Ok df.

End Generation.

End WithNaN.

(** An array of numbers among the arrays that may hold NaN. *)
Definition embed (a : ndarray) : WithNaN.ndarray :=
  match a with
  | Scalar x => WithNaN.Scalar (Some x)
  | Arr l => WithNaN.Arr (map Some l)
  end.

(** ** scikit-learn: error metrics

    The two means are exact; scikit-learn returns them rounded to double
    precision. *)

Definition check_targets (y_true y_pred : list R) : result unit :=
  if negb (length y_true =? length y_pred) then
    Err (ValueError "Found input variables with inconsistent numbers of samples")
  else if length y_true =? 0 then
    Err (ValueError "Found array with 0 sample(s)")
  else Ok tt.

Definition mean_absolute_error (y_true y_pred : list R) : result R :=
  _ <- check_targets y_true y_pred ;;
  Ok (mean_of (zip_with (fun a p => Rabs (a - p)) y_true y_pred)).

Definition mean_squared_error (y_true y_pred : list R) : result R :=
  _ <- check_targets y_true y_pred ;;
  Ok (mean_of (zip_with (fun a p => ((a - p) * (a - p))%R) y_true y_pred)).

(** ** The outside world: SDK calls, console and their outcomes *)

Definition handle : Type := nat.

Inductive pyval : Type :=
| PyInt (z : Z)
| PyFloat (x : R)
| PyStr (s : string).

Inductive serializer : Type := JSONSerializer | CSVSerializer.
Inductive deserializer : Type := JSONDeserializer.

(** The keyword arguments of the [XGBoost] estimator constructor. *)
Record estimator_config : Type := mkEstimatorConfig {
  entry_point : string;
  source_dir : string;
  framework_version : string;
  hyperparameters : list (string * pyval);
  role : string;
  instance_count : nat;
  train_instance_type : string;
  output_path : string;
  keep_alive_period_in_seconds : nat
}.

(** A deployed predictor and the name of its endpoint. *)
Record Predictor : Type := mkPredictor {
  predictor_id : handle;
  endpoint_name : string
}.

(** One constructor per external operation of the notebook, indexed by the
    type of what it returns. *)
Inductive call : Type -> Type :=
| SagemakerSession : call handle
| DefaultBucket (session : handle) : call string
| Boto3RegionName : call (option string)
| GetExecutionRole : call string
| Input (prompt : string) : call string
| Makedirs (path : string) (exist_ok : bool) : call unit
| ToCsv (data : DataFrame) (path : string) (with_index : bool) : call unit
| UploadData (session : handle) (path bucket key_prefix : string) : call string
| XGBoostNew (cfg : estimator_config) : call handle
| Fit (estimator : handle) (inputs : list (string * string)) : call unit
| Boto3Client (service : string) : call handle
| DeleteEndpointConfig (client : handle) (config_name : string) : call unit
| Deploy (estimator : handle) (name : string) (initial_instance_count : nat)
         (instance_type : string) (ser : serializer) (de : deserializer)
    : call Predictor
| JsonDumps (data : list (list R)) : call string
| InvokeEndpoint (client : handle) (name body content_type accept : string)
    : call string
| JsonLoads (text : string) : call (list R)
| Predict (p : Predictor) (data : list (list R)) : call (list R)
| PipInstall (arguments : string) : call unit
| KernelShutdown (restart : bool) : call unit
| Import (module : string) : call unit
| PltFigure (width height : nat) : call unit
| PltPlot (x y : list cell) (label : option string) : call unit
| PltTitle (text : string) : call unit
| PltXlabel (text : string) : call unit
| PltYlabel (text : string) : call unit
| PltLegend : call unit
| PltGrid (visible : bool) : call unit
| PltTightLayout : call unit
| Store (names : list string) : call unit.

Inductive outcome (T : Type) : Type :=
| Returned (v : T)
| Raised (e : exn).

Arguments Returned {T} v.
Arguments Raised {T} e.

(** A piece of a printed f-string: text, or a float shown with [:.2f]. *)
Inductive piece : Type :=
| Text (s : string)
| Fixed2 (x : R).

(** What a run leaves behind: the calls with their outcomes, the exceptions
    raised by the notebook's own code, and the printed lines. *)
Inductive event : Type :=
| Called {T : Type} (c : call T) (o : outcome T)
| Thrown (e : exn)
| Printed (line : list piece).

Section World.

(** The world answers every call and moves to its next state. *)
Variable W : Type.
Variable exec : forall T : Type, call T -> W -> outcome T * W.

(** A computation runs from a world state to the final state, the events it
    produced in order, and its result. *)
Definition M (A : Type) : Type := W -> W * list event * result A.

Definition ret {A : Type} (a : A) : M A := fun w => (w, [], Ok a).

Definition bind {A B : Type} (m : M A) (k : A -> M B) : M B :=
  fun w =>
    match m w with
    | (w1, t1, Ok a) =>
        match k a w1 with
        | (w2, t2, r) => (w2, t1 ++ t2, r)
        end
    | (w1, t1, Err e) => (w1, t1, Err e)
    end.

(** A computation of the notebook's own code: its exception, if any, is
    recorded. *)
Definition lift {A : Type} (r : result A) : M A :=
  fun w =>
    match r with
    | Ok a => (w, [], Ok a)
    | Err e => (w, [Thrown e], Err e)
    end.

Definition do_call {T : Type} (c : call T) : M T :=
  fun w =>
    match exec T c w with
    | (Returned v, w') => (w', [Called c (Returned v)], Ok v)
    | (Raised e, w') => (w', [Called c (Raised e)], Err e)
    end.

Definition print (line : list piece) : M unit :=
  fun w => (w, [Printed line], Ok tt).

(** [try: body / except: handler]: a bare [except] catches every exception. *)
Definition try_except {A : Type} (body : M A) (handler : exn -> M A) : M A :=
  fun w =>
    match body w with
    | (w1, t1, Ok a) => (w1, t1, Ok a)
    | (w1, t1, Err e) =>
        match handler e w1 with
        | (w2, t2, r) => (w2, t1 ++ t2, r)
        end
    end.

Notation "x <~ e ;; k" := (bind e (fun x => k))
  (at level 61, e at next level, right associativity).

Fixpoint for_range {A : Type} (l : list A) (body : A -> M unit) : M unit :=
  match l with
  | [] => ret tt
  | a :: l' => _ <~ body a ;; for_range l' body
  end.

Definition trace_of {A : Type} (r : W * list event * result A) : list event :=
  snd (fst r).

Definition result_of {A : Type} (r : W * list event * result A) : result A :=
  snd r.

Definition final_world {A : Type} (r : W * list event * result A) : W :=
  fst (fst r).

End World.

Arguments ret {W A} a.
Arguments bind {W A B} m k.
Arguments lift {W A} r.
Arguments do_call {W} exec {T} c.
Arguments print {W} line.
Arguments try_except {W A} body handler.
Arguments for_range {W A} l body.
Arguments trace_of {W A} r.
Arguments result_of {W A} r.
Arguments final_world {W A} r.

Notation "x <~ e ;; k" := (bind e (fun x => k))
  (at level 61, e at next level, right associativity).

(** ** Python strings *)

(** White space among the ASCII characters, as [str.isspace] sees it.
    (Python counts further characters beyond ASCII as white space.) *)
Definition is_space (a : ascii) : bool :=
  let n := nat_of_ascii a in
  ((9 <=? n) && (n <=? 13)) || ((28 <=? n) && (n <=? 32)).

Fixpoint lstrip (s : string) : string :=
  match s with
  | String a s' => if is_space a then lstrip s' else s
  | EmptyString => EmptyString
  end.

Definition reverse_string (s : string) : string :=
  string_of_list_ascii (rev (list_ascii_of_string s)).

(** [s.strip()] for a string of ASCII characters. *)
Definition strip (s : string) : string :=
  reverse_string (lstrip (reverse_string (lstrip s))).

(** [str(x)] for an optional string ([None] prints as its name). *)
Definition str_option (o : option string) : string :=
  match o with
  | Some s => s
  | None => "None"
  end.

(** [l[i]] on a sequence. *)
Definition list_index (l : list R) (i : nat) : result R :=
  match nth_error l i with
  | Some x => Ok x
  | None => Err IndexError
  end.

(** [pd.concat([X, y], axis=1)] for a frame and a series with the same
    labels: the series becomes the last column. *)
Definition concat_axis1 (X : DataFrame) (y : Series) : DataFrame :=
  mkFrame (index X) (columns X ++ [(sname y, svalues y)]).

(** ** The cells that talk to the outside world *)

Section Notebook.

Variable W : Type.
Variable exec : forall T : Type, call T -> W -> outcome T * W.

Local Abbreviation call_ c := (do_call exec c).

(** The session cell. *)
Definition init_session : M W (handle * string * option string * string) :=
  session <~ call_ SagemakerSession ;;
  bucket <~ call_ (DefaultBucket session) ;;
  region <~ call_ Boto3RegionName ;;
  role <~ try_except
            (call_ GetExecutionRole)
            (fun _ =>
               role <~ call_ (Input "> Enter the role ARN for your SageMaker execution role: ") ;;
               ret (strip role)) ;;
  _ <~ print [Text ("SageMaker session initialized in region: " ++ str_option region)%string] ;;
  _ <~ print [Text ("Using S3 bucket: " ++ bucket)%string] ;;
  _ <~ print [Text ("Using IAM role: " ++ role)%string] ;;
  ret (session, bucket, region, role).

Definition save_data_to_s3 (X_train : DataFrame) (y_train : Series)
    (X_val : DataFrame) (y_val : Series) (X_test : DataFrame) (y_test : Series)
    (session : handle) (bucket : string) : M W (string * string * string) :=
  _ <~ call_ (Makedirs "data" true) ;;
  let train_data := concat_axis1 X_train y_train in
  let val_data := concat_axis1 X_val y_val in
  let test_data := concat_axis1 X_test y_test in
  _ <~ call_ (ToCsv train_data "data/train.csv" false) ;;
  _ <~ call_ (ToCsv val_data "data/validation.csv" false) ;;
  _ <~ call_ (ToCsv test_data "data/test.csv" false) ;;
  train_s3_path <~ call_ (UploadData session "data/train.csv" bucket "demand-forecast/data") ;;
  val_s3_path <~ call_ (UploadData session "data/validation.csv" bucket "demand-forecast/data") ;;
  test_s3_path <~ call_ (UploadData session "data/test.csv" bucket "demand-forecast/data") ;;
  ret (train_s3_path, val_s3_path, test_s3_path).

Definition xgb_hyperparameters : list (string * pyval) :=
  [("max_depth", PyInt 6);
   ("eta", PyFloat 0.2%R);
   ("gamma", PyInt 4);
   ("min_child_weight", PyInt 6);
   ("subsample", PyFloat 0.8%R);
   ("objective", PyStr "reg:squarederror");
   ("num_round", PyInt 100);
   ("verbosity", PyInt 1)].

Definition train_model (train_s3_path val_s3_path role bucket instance_type : string)
  : M W handle :=
  let hyperparameters := xgb_hyperparameters in
  xgb_estimator <~ call_ (XGBoostNew
    (mkEstimatorConfig "training_script.py" "utils" "1.5-1" hyperparameters role 1
       instance_type ("s3://" ++ bucket ++ "/demand-forecast/output")%string 3600)) ;;
  _ <~ print [Text "Training XGBoost model..."] ;;
  _ <~ call_ (Fit xgb_estimator [("train", train_s3_path); ("validation", val_s3_path)]) ;;
  ret xgb_estimator.

(** [deploy_model(predictor, instance_type)].  The body deploys the notebook's
    global [xgb_estimator]; the parameter [predictor] is only rebound. *)
Definition deploy_model (xgb_estimator : handle) (predictor : handle)
    (instance_type : string) : M W Predictor :=
  _ <~ try_except
         (sagemaker_client <~ call_ (Boto3Client "sagemaker") ;;
          _ <~ call_ (DeleteEndpointConfig sagemaker_client "ml-models-as-tools") ;;
          ret tt)
         (fun _ => ret tt) ;;
  _ <~ print [Text "Deploying model to SageMaker endpoint..."] ;;
  predictor <~ call_ (Deploy xgb_estimator "ml-models-as-tools" 1 instance_type
                        JSONSerializer JSONDeserializer) ;;
  let endpoint_name := endpoint_name predictor in
  _ <~ print [Text ("Model deployed to endpoint: " ++ endpoint_name)%string] ;;
  ret predictor.

Definition generate_prediction_with_boto3 (endpoint_name : string)
    (test_sample : list (list R)) : M W (list R) :=
  sagemaker_runtime <~ call_ (Boto3Client "sagemaker-runtime") ;;
  body <~ call_ (JsonDumps test_sample) ;;
  response <~ call_ (InvokeEndpoint sagemaker_runtime endpoint_name body
                       "application/json" "application/json") ;;
  predictions <~ call_ (JsonLoads response) ;;
  ret predictions.

Definition test_endpoint (predictor : Predictor) (test_sample : list (list R))
    (actual : list R) : M W (R * R) :=
  _ <~ print [Text "Testing the endpoint with sample data..."] ;;
  predictions <~ call_ (Predict predictor test_sample) ;;
  let predicted := predictions in
  _ <~ print [Text "Sample predictions:"] ;;
  _ <~ for_range (seq 0 (length actual))
         (fun i =>
            a <~ lift (list_index actual i) ;;
            p <~ lift (list_index predicted i) ;;
            print [Text "Actual: "; Fixed2 a; Text ", Predicted: "; Fixed2 p]) ;;
  mae <~ lift (mean_absolute_error actual predicted) ;;
  mse <~ lift (mean_squared_error actual predicted) ;;
  let rmse := sqrt mse in
  _ <~ print [Text "Mean Absolute Error: "; Fixed2 mae] ;;
  _ <~ print [Text "Root Mean Squared Error: "; Fixed2 rmse] ;;
  ret (mae, rmse).

End Notebook.

Arguments init_session {W} exec.
Arguments save_data_to_s3 {W} exec.
Arguments train_model {W} exec.
Arguments deploy_model {W} exec.
Arguments generate_prediction_with_boto3 {W} exec.
Arguments test_endpoint {W} exec.

(** ** The other cells

    Each remaining code cell, with the variables it reads as arguments. *)

(** [X.values.tolist()]: the rows as lists of cells. *)
Definition values_tolist (df : DataFrame) : list (list cell) :=
  map (fun i => map (fun c => nth i (snd c) None) (columns df)) (seq 0 (nrows df)).

Section OtherCells.

Variable W : Type.
Variable exec : forall T : Type, call T -> W -> outcome T * W.

Local Abbreviation call_ c := (do_call exec c).

(** The first three cells: install the SDK, restart the kernel, import. *)
Definition setup_cells : M W unit :=
  _ <~ call_ (PipInstall "sagemaker -qU") ;;
  _ <~ call_ (Import "IPython") ;;
  _ <~ call_ (KernelShutdown true) ;;
  for_range ["boto3"; "sagemaker"; "pandas"; "numpy";
             "sagemaker.xgboost.estimator"; "sagemaker.serializers";
             "sagemaker.deserializers"; "matplotlib.pyplot"; "sklearn.metrics";
             "sklearn.model_selection"; "os"]
    (fun module => call_ (Import module)).

(** [visualize_data(df)]; the module [plt] that it returns carries no data. *)
Definition visualize_data (df : DataFrame) : M W unit :=
  _ <~ call_ (PltFigure 12 6) ;;
  date <~ lift (getitem df "date") ;;
  demand <~ lift (getitem df "demand") ;;
  _ <~ call_ (PltPlot (svalues date) (svalues demand) None) ;;
  _ <~ call_ (PltTitle "Synthetic Demand Data") ;;
  _ <~ call_ (PltXlabel "Date") ;;
  _ <~ call_ (PltYlabel "Demand") ;;
  _ <~ call_ (PltGrid true) ;;
  _ <~ call_ PltTightLayout ;;
  ret tt.

(** The cell that saves the data sets and reports the three locations. *)
Definition save_cell (X_train : DataFrame) (y_train : Series) (X_val : DataFrame)
    (y_val : Series) (X_test : DataFrame) (y_test : Series) (session : handle)
    (bucket : string) : M W (string * string * string) :=
  paths <~ save_data_to_s3 exec X_train y_train X_val y_val X_test y_test
             session bucket ;;
  let '(train_s3_path, val_s3_path, test_s3_path) := paths in
  _ <~ print [Text ("Training data uploaded to: " ++ train_s3_path)%string] ;;
  _ <~ print [Text ("Validation data uploaded to: " ++ val_s3_path)%string] ;;
  _ <~ print [Text ("Test data uploaded to: " ++ test_s3_path)%string] ;;
  ret paths.

Definition train_cell (train_s3_path val_s3_path role bucket : string) : M W handle :=
  let instance_type := "ml.m5.4xlarge" in
  train_model exec train_s3_path val_s3_path role bucket instance_type.

(** The deployment cell passes the estimator as [predictor]. *)
Definition deploy_cell (xgb_estimator : handle) : M W Predictor :=
  _ <~ call_ (Import "sagemaker.serializers") ;;
  _ <~ call_ (Import "boto3") ;;
  let deploy_instance_type := "ml.m5.xlarge" in
  deploy_model exec xgb_estimator xgb_estimator deploy_instance_type.

(** The first five test rows and their targets. *)
Definition sample_cell (X_test : DataFrame) (y_test : Series)
  : M W (list (list cell) * list cell) :=
  let test_sample := values_tolist (iloc_frame 0 5 X_test) in
  let actual := svalues (iloc_series 0 5 y_test) in
  ret (test_sample, actual).

Definition predict_cell (test_sample : list (list R)) : M W (list R) :=
  _ <~ call_ (Import "boto3") ;;
  _ <~ call_ (Import "json") ;;
  generate_prediction_with_boto3 exec "ml-models-as-tools" test_sample.

Definition test_cell (predictor : Predictor) (test_sample : list (list R))
    (actual : list R) : M W (R * R) :=
  test_endpoint exec predictor test_sample actual.

(** The cell that plots predictions against targets; [test_samples] and
    [actual] are the first fifty rows of X_test and of y_test. *)
Definition plot_cell (predictor : Predictor) (test_samples : list (list R))
    (actual : list R) : M W unit :=
  predictions <~ call_ (Predict predictor test_samples) ;;
  _ <~ call_ (PltFigure 12 6) ;;
  _ <~ call_ (PltPlot (map (fun i => Some (INR i)) (seq 0 (length actual)))
                (map Some actual) (Some "Actual")) ;;
  _ <~ call_ (PltPlot (map (fun i => Some (INR i)) (seq 0 (length predictions)))
                (map Some predictions) (Some "Predicted")) ;;
  _ <~ call_ (PltTitle "Actual vs Predicted Demand") ;;
  _ <~ call_ (PltXlabel "Sample Index") ;;
  _ <~ call_ (PltYlabel "Demand") ;;
  _ <~ call_ PltLegend ;;
  _ <~ call_ (PltGrid true) ;;
  call_ PltTightLayout.

Definition store_cell (predictor : Predictor) : M W string :=
  let ENDPOINT_NAME := endpoint_name predictor in
  _ <~ call_ (Store ["ENDPOINT_NAME"; "test_sample"; "actual"]) ;;
  ret ENDPOINT_NAME.

End OtherCells.

Arguments setup_cells {W} exec.
Arguments visualize_data {W} exec.
Arguments save_cell {W} exec.
Arguments train_cell {W} exec.
Arguments deploy_cell {W} exec.
Arguments sample_cell {W}.
Arguments predict_cell {W} exec.
Arguments test_cell {W} exec.
Arguments plot_cell {W} exec.
Arguments store_cell {W} exec.

(** The calls guarded by the [try] of the session cell and of [deploy_model]. *)
Definition is_get_execution_role (T : Type) (c : call T) : bool :=
  match c with
  | GetExecutionRole => true
  | _ => false
  end.

Definition in_delete_block (T : Type) (c : call T) : bool :=
  match c with
  | Boto3Client service => String.eqb service "sagemaker"
  | DeleteEndpointConfig _ config_name => String.eqb config_name "ml-models-as-tools"
  | _ => false
  end.

(** A world without an execution role: [get_execution_role] raises and the
    user types the role at the prompt. *)
Definition no_role_world (T : Type) (c : call T) (w : unit) : outcome T * unit :=
  match c in call T0 return outcome T0 * unit with
  | SagemakerSession => (Returned 0, tt)
  | DefaultBucket _ => (Returned "sagemaker-demo-bucket", tt)
  | Boto3RegionName => (Returned (Some "us-east-1"), tt)
  | GetExecutionRole => (Raised (ExternalError "ValueError"), tt)
  | Input _ => (Returned "  arn:aws:iam::123456789012:role/demo ", tt)
  | Makedirs _ _ => (Returned tt, tt)
  | ToCsv _ _ _ => (Returned tt, tt)
  | UploadData _ path bucket key_prefix =>
      (Returned ("s3://" ++ bucket ++ "/" ++ key_prefix)%string, tt)
  | XGBoostNew _ => (Returned 1, tt)
  | Fit _ _ => (Returned tt, tt)
  | Boto3Client _ => (Returned 2, tt)
  | DeleteEndpointConfig _ _ => (Raised (ExternalError "ClientError"), tt)
  | Deploy _ name _ _ _ _ => (Returned (mkPredictor 3 name), tt)
  | JsonDumps _ => (Returned "[]", tt)
  | InvokeEndpoint _ _ _ _ _ => (Returned "[]", tt)
  | JsonLoads _ => (Returned [], tt)
  | Predict _ _ => (Returned [], tt)
  | PipInstall _ => (Returned tt, tt)
  | KernelShutdown _ => (Returned tt, tt)
  | Import _ => (Returned tt, tt)
  | PltFigure _ _ => (Returned tt, tt)
  | PltPlot _ _ _ => (Returned tt, tt)
  | PltTitle _ => (Returned tt, tt)
  | PltXlabel _ => (Returned tt, tt)
  | PltYlabel _ => (Returned tt, tt)
  | PltLegend => (Returned tt, tt)
  | PltGrid _ => (Returned tt, tt)
  | PltTightLayout => (Returned tt, tt)
  | Store _ => (Returned tt, tt)
  end.

(** [d.get(k)] on a dictionary kept as an association list. *)
Fixpoint dict_get (d : list (string * pyval)) (k : string) : option pyval :=
  match d with
  | [] => None
  | (k0, v) :: rest => if String.eqb k0 k then Some v else dict_get rest k
  end.

(** The exception an event carries, when it records one being raised. *)
Definition event_raised (ev : event) : option exn :=
  match ev with
  | Called _ (Raised e) => Some e
  | Thrown e => Some e
  | _ => None
  end.

(** Whether an event is a call of the set [caught]. *)
Definition event_within (caught : forall T : Type, call T -> bool) (ev : event)
  : bool :=
  match ev with
  | Called c _ => caught _ c
  | Thrown _ => false
  | Printed _ => true
  end.

(** Every exception a computation can raise comes from a call of [caught]. *)
Definition calls_within {W A : Type} (caught : forall T : Type, call T -> bool)
    (m : M W A) : Prop :=
  forall w ev, In ev (trace_of (m w)) -> event_within caught ev = true.

(** An exception raised outside the calls of [caught] ends the computation
    with that very exception: nothing intercepts it. *)
Definition propagates_outside {W A : Type} (caught : forall T : Type, call T -> bool)
    (m : M W A) : Prop :=
  forall (w : W) (ev : event) (e : exn),
    In ev (trace_of (m w)) ->
    event_raised ev = Some e ->
    event_within caught ev = false ->
    result_of (m w) = Err e.

Definition propagates {W A : Type} (m : M W A) : Prop :=
  propagates_outside (fun _ _ => false) m.

(** Whether an event is a call of [caught] that raised. *)
Definition guarded_failure (caught : forall T : Type, call T -> bool) (ev : event)
  : bool :=
  match ev with
  | Called c (Raised _) => caught _ c
  | _ => false
  end.

(** ** Sample inputs *)

(** Forty days of demand 100, 101, ... with their dates and no missing cell. *)
Definition sample_demand : list cell :=
  map (fun t => Some (100 + INR t)%R) (seq 0 40).

Definition sample_frame : DataFrame :=
  mkFrame (range_index 40)
    [("date", map (fun t => timestamp_cell (18628 + Z.of_nat t)) (seq 0 40));
     ("demand", sample_demand)].

Definition sample_series : Series :=
  mkSeries "demand" (range_index 40) sample_demand.

(** Ten rows that already carry two predictor columns. *)
Definition engineered_frame : DataFrame :=
  mkFrame (map Z.of_nat (seq 30 10))
    [("date", map (fun t => timestamp_cell (18658 + Z.of_nat t)) (seq 0 10));
     ("demand", map (fun t => Some (130 + INR t)%R) (seq 0 10));
     ("dayofweek", map (fun t => Some (IZR (dayofweek_of (18658 + Z.of_nat t)))) (seq 0 10));
     ("lag_1", map (fun t => Some (129 + INR t)%R) (seq 0 10))].

Definition engineered_demand : Series :=
  mkSeries "demand" (map Z.of_nat (seq 30 10))
    (map (fun t => Some (130 + INR t)%R) (seq 0 10)).

(** The labels of the ten feature columns, in the order of assignment. *)
Definition feature_labels : list string :=
  ["lag_1"; "lag_7"; "lag_14"; "lag_30";
   "rolling_mean_7"; "rolling_std_7"; "rolling_mean_14"; "rolling_std_14";
   "rolling_mean_30"; "rolling_std_30"].

(** Thirty-five days of demand with one missing observation, on day 32. *)
Definition gappy_frame : DataFrame :=
  mkFrame (range_index 35)
    [("date", map (fun t => timestamp_cell (18628 + Z.of_nat t)) (seq 0 35));
     ("demand", map (fun t => if t =? 32 then None else Some (100 + INR t)%R)
                    (seq 0 35))].

Definition gappy_series : Series :=
  mkSeries "demand" (range_index 35)
    (map (fun t => if t =? 32 then None else Some (100 + INR t)%R) (seq 0 35)).

(** Five days only: fewer rows than the longest lag. *)
Definition short_frame : DataFrame :=
  mkFrame (range_index 5)
    [("date", map (fun t => timestamp_cell (18628 + Z.of_nat t)) (seq 0 5));
     ("demand", map (fun t => Some (100 + INR t)%R) (seq 0 5))].

Definition short_series : Series :=
  mkSeries "demand" (range_index 5) (map (fun t => Some (100 + INR t)%R) (seq 0 5)).

(** Three engineered rows: too few to split. *)
Definition tiny_frame : DataFrame :=
  mkFrame (map Z.of_nat (seq 30 3))
    [("date", map (fun t => timestamp_cell (18658 + Z.of_nat t)) (seq 0 3));
     ("demand", map (fun t => Some (130 + INR t)%R) (seq 0 3));
     ("lag_1", map (fun t => Some (129 + INR t)%R) (seq 0 3))].

Definition tiny_demand : Series :=
  mkSeries "demand" (map Z.of_nat (seq 30 3))
    (map (fun t => Some (130 + INR t)%R) (seq 0 3)).

(** Four rows in which two columns bear the label a. *)
Definition twin_frame : DataFrame :=
  mkFrame (range_index 4)
    [("a", [Some 1; Some 2; Some 3; Some 4]%R);
     ("a", [Some 5; Some 6; Some 7; Some 8]%R);
     ("demand", [Some 10; Some 20; Some 30; Some 40]%R)].

(** ** The data cells *)

(** [str(df.shape)]: rows and columns as Python prints the pair. *)
Definition shape_text (df : DataFrame) : string :=
  ("(" ++ str (nrows df) ++ ", " ++ str (length (columns df)) ++ ")")%string.

Section DataCells.

Variable W : Type.
Variable normal_sample : R -> R -> nat -> R.

(** The three cells that build the data sets, in notebook order: generate
    with the default arguments, engineer the features, split.  (The plotting
    cell between the first two only reads the frame.) *)
Definition data_cells
  : M W (DataFrame * (DataFrame * Series * DataFrame * Series * DataFrame * Series)) :=
  _ <~ print [Text "Generating synthetic demand forecasting data..."] ;;
  df <~ lift (generate_demand_data normal_sample (365 * 2) true true 0.2%R) ;;
  _ <~ print [Text ("Dataset shape: " ++ shape_text df)%string] ;;
  r <~ lift (prepare_features df) ;;
  let df := snd r in
  _ <~ print [Text ("Dataset shape after feature engineering: "
                    ++ shape_text df)%string] ;;
  parts <~ lift (split_data df) ;;
  let '(X_train, y_train, X_val, y_val, X_test, y_test) := parts in
  _ <~ print [Text ("Training set: " ++ shape_text X_train)%string] ;;
  _ <~ print [Text ("Validation set: " ++ shape_text X_val)%string] ;;
  _ <~ print [Text ("Test set: " ++ shape_text X_test)%string] ;;
  ret (df, parts).

End DataCells.

Arguments data_cells {W} normal_sample.

(** Whether an event is a call of [session.upload_data]. *)
Definition is_upload (ev : event) : bool :=
  match ev with
  | Called (UploadData _ _ _ _) _ => true
  | _ => false
  end.

(** A world in which every call succeeds and the endpoint answers [preds]. *)
Definition answering_world (preds : list R) (T : Type) (c : call T) (w : unit)
  : outcome T * unit :=
  match c in call T0 return outcome T0 * unit with
  | SagemakerSession => (Returned 0, tt)
  | DefaultBucket _ => (Returned "sagemaker-demo-bucket", tt)
  | Boto3RegionName => (Returned (Some "us-east-1"), tt)
  | GetExecutionRole => (Returned "arn:aws:iam::123456789012:role/notebook", tt)
  | Input _ => (Returned "", tt)
  | Makedirs _ _ => (Returned tt, tt)
  | ToCsv _ _ _ => (Returned tt, tt)
  | UploadData _ path bucket key_prefix =>
      (Returned ("s3://" ++ bucket ++ "/" ++ key_prefix)%string, tt)
  | XGBoostNew _ => (Returned 1, tt)
  | Fit _ _ => (Returned tt, tt)
  | Boto3Client _ => (Returned 2, tt)
  | DeleteEndpointConfig _ _ => (Returned tt, tt)
  | Deploy _ name _ _ _ _ => (Returned (mkPredictor 3 name), tt)
  | JsonDumps _ => (Returned "[]", tt)
  | InvokeEndpoint _ _ _ _ _ => (Returned "[]", tt)
  | JsonLoads _ => (Returned preds, tt)
  | Predict _ _ => (Returned preds, tt)
  | PipInstall _ => (Returned tt, tt)
  | KernelShutdown _ => (Returned tt, tt)
  | Import _ => (Returned tt, tt)
  | PltFigure _ _ => (Returned tt, tt)
  | PltPlot _ _ _ => (Returned tt, tt)
  | PltTitle _ => (Returned tt, tt)
  | PltXlabel _ => (Returned tt, tt)
  | PltYlabel _ => (Returned tt, tt)
  | PltLegend => (Returned tt, tt)
  | PltGrid _ => (Returned tt, tt)
  | PltTightLayout => (Returned tt, tt)
  | Store _ => (Returned tt, tt)
  end.

(** The line that [test_endpoint] prints for one sample. *)
Definition sample_line (a p : R) : event :=
  Printed [Text "Actual: "; Fixed2 a; Text ", Predicted: "; Fixed2 p].

(** The first and last characters of a string, and whether it is free of
    white space at both ends (the empty string is). *)
Definition first_char (s : string) : option ascii :=
  match s with
  | String a _ => Some a
  | EmptyString => None
  end.

Definition last_char (s : string) : option ascii := first_char (reverse_string s).

Definition is_stripped (s : string) : bool :=
  match first_char s, last_char s with
  | Some a, Some b => negb (is_space a) && negb (is_space b)
  | _, _ => true
  end.

(** Whether a string holds ASCII characters only. *)
Definition is_ascii (s : string) : bool :=
  forallb (fun a => nat_of_ascii a <? 128) (list_ascii_of_string s).

(** [lstrip] on the list of characters. *)
Fixpoint lstrip_list (l : list ascii) : list ascii :=
  match l with
  | a :: l' => if is_space a then lstrip_list l' else l
  | [] => []
  end.

(** * Properties *)

(** ** Sanity checks of the embedding *)

Example start_day : days_from_civil 2021 1 1 = 18628%Z.
Proof. reflexivity. Qed.

Example civil_start : civil_from_days 18628 = (2021, 1, 1)%Z.
Proof. reflexivity. Qed.

Example civil_leap : civil_from_days (18628 + 1154) = (2024, 2, 29)%Z.
Proof. reflexivity. Qed.

Example dayofweek_start : dayofweek_of 18628 = 4%Z.
Proof. reflexivity. Qed.

Example str_30 : str 30 = "30".
Proof. reflexivity. Qed.

Example lag_name : ("lag_" ++ str 14)%string = "lag_14".
Proof. reflexivity. Qed.

Example shift_small :
  svalues (shift 2 (mkSeries "demand" [0; 1; 2; 3]%Z
                      [Some 5; Some 6; Some 7; Some 8]%R))
  = [None; None; Some 5; Some 6]%R.
Proof. reflexivity. Qed.

Example rolling_mean_small :
  svalues (rolling_mean (rolling (mkSeries "demand" [0; 1; 2; 3]%Z
                                    [Some 1; Some 2; None; Some 6]%R) 2))
  = [None; Some (mean_of [1; 2]); None; None]%R.
Proof. reflexivity. Qed.

Example mean_small : mean_of [1; 2; 6]%R = 3%R.
Proof. unfold mean_of, Rsum. cbn [fold_right length INR]. lra. Qed.

Example std_small : agg_std [1; 3]%R = Some (sqrt 2).
Proof.
  unfold agg_std, ssqdm, mean_of, Rsum.
  cbn [length Nat.leb Nat.sub map fold_right INR].
  do 2 f_equal. lra.
Qed.

Example dropna_small :
  dropna (mkFrame [10; 11; 12]%Z
            [("a", [Some 1; None; Some 3]%R); ("b", [Some 4; Some 5; Some 6]%R)])
  = mkFrame [10; 12]%Z [("a", [Some 1; Some 3]%R); ("b", [Some 4; Some 6]%R)].
Proof. reflexivity. Qed.

Example split_sizes_700 :
  (700 - ceil_mul (mkFraction 3 10) 700 = 490 /\
   ceil_mul (mkFraction 3 10) 700 = 210 /\
   ceil_mul (mkFraction 1 2) 210 = 105)%nat.
Proof. repeat split; reflexivity. Qed.

Example strip_role : strip "  arn:aws:iam::1:role/x  " = "arn:aws:iam::1:role/x".
Proof. reflexivity. Qed.

Lemma Int_part_IZR (z : Z) : Int_part (IZR z) = z.
Proof.
  symmetry. apply Int_part_spec. split; [|apply Rle_refl]. lra.
Qed.

(** The [.dt] accessors read the day number stored in a timestamp cell. *)
Lemma dt_accessor_timestamps (f : Z -> Z) (name : string) (labels days : list Z) :
  svalues (dt_accessor f (mkSeries name labels (map timestamp_cell days)))
  = map (fun day => Some (IZR (f day))) days.
Proof.
  unfold dt_accessor, timestamp_cell. cbn [svalues]. rewrite map_map.
  apply map_ext. intros day. now rewrite Int_part_IZR.
Qed.

(** ** Frames: lookup and assignment *)

Lemma lookup_set_same (cols : list (string * list cell)) (k : string) (v : list cell) :
  lookup_col (set_col cols k v) k = Some v.
Proof.
  induction cols as [|[k0 c0] rest IH]; simpl.
  - now rewrite String.eqb_refl.
  - destruct (String.eqb k0 k) eqn:E; simpl.
    + now rewrite String.eqb_refl.
    + now rewrite E.
Qed.

Lemma lookup_set_other (cols : list (string * list cell)) (k k' : string)
    (v : list cell) :
  String.eqb k k' = false ->
  lookup_col (set_col cols k v) k' = lookup_col cols k'.
Proof.
  intros Hk. induction cols as [|[k0 c0] rest IH]; simpl.
  - now rewrite Hk.
  - destruct (String.eqb k0 k) eqn:E; simpl.
    + apply String.eqb_eq in E. subst k0. now rewrite Hk.
    + destruct (String.eqb k0 k'); [reflexivity | exact IH].
Qed.

Lemma set_col_In (cols : list (string * list cell)) (k : string) (v : list cell)
    (x : string * list cell) :
  In x (set_col cols k v) -> In x cols \/ x = (k, v).
Proof.
  induction cols as [|[k0 c0] rest IH]; simpl.
  - intros [H|[]]; auto.
  - destruct (String.eqb k0 k); simpl; intros [H|H]; auto.
    destruct (IH H); auto.
Qed.

Lemma lookup_col_In (cols : list (string * list cell)) (k : string) (c : list cell) :
  lookup_col cols k = Some c -> In (k, c) cols.
Proof.
  induction cols as [|[k0 c0] rest IH]; simpl; [discriminate|].
  destruct (String.eqb k0 k) eqn:E.
  - apply String.eqb_eq in E. intros [= ->]. left. now subst.
  - auto.
Qed.

Lemma getitem_values (df : DataFrame) (k : string) (d : Series) :
  getitem df k = Ok d ->
  lookup_col (columns df) k = Some (svalues d) /\ sindex d = index df /\ sname d = k.
Proof.
  unfold getitem. destruct (lookup_col (columns df) k); [|discriminate].
  intros [= <-]. auto.
Qed.

Lemma getitem_setitem_other (df : DataFrame) (k k' : string) (s : Series) :
  String.eqb k k' = false ->
  getitem (setitem df k s) k' = getitem df k'.
Proof.
  intros Hk. unfold getitem, setitem. simpl. now rewrite lookup_set_other.
Qed.

Lemma getitem_setitem_same (df : DataFrame) (k : string) (s : Series) :
  getitem (setitem df k s) k = Ok (mkSeries k (index df) (svalues s)).
Proof.
  unfold getitem, setitem. simpl. now rewrite lookup_set_same.
Qed.

(** The loops of [prepare_features] are the chain of assignments [augment]. *)
Lemma prepare_features_augment (df : DataFrame) (d : Series) :
  getitem df "demand" = Ok d ->
  prepare_features df = Ok (augment df d, dropna (augment df d)).
Proof.
  intros Hd. unfold prepare_features, augment, feature_columns.
  cbn [for_each fold_left fst snd].
  repeat (rewrite ?getitem_setitem_other by reflexivity;
          rewrite Hd; cbn [rbind]).
  reflexivity.
Qed.

(** Without a demand column the first assignment already raises. *)
Lemma prepare_features_no_demand (df : DataFrame) :
  lookup_col (columns df) "demand" = None ->
  prepare_features df = Err (KeyError "demand").
Proof.
  intros Hd. unfold prepare_features. cbn [for_each].
  unfold getitem at 1. now rewrite Hd.
Qed.

Ltac lookup_feature :=
  unfold augment, feature_columns, setitem; cbn [fold_left fst snd columns index];
  repeat (rewrite lookup_set_other by reflexivity);
  try apply lookup_set_same.

Lemma augment_index (df : DataFrame) (d : Series) :
  index (augment df d) = index df.
Proof. reflexivity. Qed.

Lemma augment_demand (df : DataFrame) (d : Series) :
  getitem (augment df d) "demand" = getitem df "demand".
Proof.
  unfold getitem. rewrite augment_index.
  replace (lookup_col (columns (augment df d)) "demand")
    with (lookup_col (columns df) "demand"); [reflexivity|].
  symmetry. lookup_feature. reflexivity.
Qed.

Lemma augment_lag (df : DataFrame) (d : Series) (N : nat) :
  In N [1; 7; 14; 30] ->
  getitem (augment df d) ("lag_" ++ str N)
  = Ok (mkSeries ("lag_" ++ str N) (index df) (svalues (shift N d))).
Proof.
  intros HN. unfold getitem. rewrite augment_index.
  replace (lookup_col (columns (augment df d)) ("lag_" ++ str N))
    with (Some (svalues (shift N d))); [reflexivity|].
  symmetry.
  simpl in HN. destruct HN as [<-|[<-|[<-|[<-|[]]]]]; lookup_feature.
Qed.

(** ** Shifting *)

Lemma shift_length (N : nat) (d : Series) :
  length (svalues (shift N d)) = length (svalues d).
Proof.
  unfold shift. cbn [svalues]. rewrite length_firstn, length_app, repeat_length.
  apply Nat.min_l. lia.
Qed.

Lemma shift_nth_top (N : nat) (d : Series) (i : nat) :
  i < length (svalues d) -> i < N ->
  nth_error (svalues (shift N d)) i = Some None.
Proof.
  intros Hi HN. unfold shift. cbn [svalues].
  rewrite nth_error_firstn.
  destruct (Nat.ltb_spec i (length (svalues d))); [|lia].
  rewrite nth_error_app1 by (rewrite repeat_length; lia).
  now apply nth_error_repeat.
Qed.

Lemma shift_nth_below (N : nat) (d : Series) (i : nat) :
  i < length (svalues d) -> N <= i ->
  nth_error (svalues (shift N d)) i = nth_error (svalues d) (i - N).
Proof.
  intros Hi HN. unfold shift. cbn [svalues].
  rewrite nth_error_firstn.
  destruct (Nat.ltb_spec i (length (svalues d))); [|lia].
  rewrite nth_error_app2 by (rewrite repeat_length; lia).
  now rewrite repeat_length.
Qed.

(** C1.  When the frame has a demand column, [prepare_features] succeeds and
    leaves the caller's frame with the demand column untouched and, for every
    lag N of 1, 7, 14 and 30, a column [lag_N] over the same rows whose cell
    at position i is missing when i < N and is the demand cell of position
    i - N when i >= N; the frame returned is that frame without its rows
    that have a missing cell. *)
Theorem prepare_features_lag (df : DataFrame) (d : Series) :
  getitem df "demand" = Ok d ->
  exists aug ret : DataFrame,
    prepare_features df = Ok (aug, ret) /\
    ret = dropna aug /\
    index aug = index df /\
    getitem aug "demand" = Ok d /\
    forall N : nat, In N [1; 7; 14; 30] ->
      exists lagN : Series,
        getitem aug ("lag_" ++ str N) = Ok lagN /\
        sindex lagN = index df /\
        length (svalues lagN) = length (svalues d) /\
        forall i : nat, i < length (svalues d) ->
          (i < N -> nth_error (svalues lagN) i = Some None) /\
          (N <= i -> nth_error (svalues lagN) i = nth_error (svalues d) (i - N)).
Proof.
  intros Hd. exists (augment df d), (dropna (augment df d)).
  split; [now apply prepare_features_augment|].
  split; [reflexivity|]. split; [apply augment_index|].
  split; [now rewrite augment_demand|].
  intros N HN. eexists. split; [now apply augment_lag|].
  cbn [sindex svalues]. split; [reflexivity|].
  split; [apply shift_length|].
  intros i Hi. split; intros HiN.
  - now apply shift_nth_top.
  - now apply shift_nth_below.
Qed.

(** ** Rolling windows *)

Lemma slice_nth {A : Type} (a b : nat) (l : list A) (k : nat) :
  nth_error (slice a b l) k = if k <? b - a then nth_error l (a + k) else None.
Proof.
  unfold slice. rewrite nth_error_firstn.
  destruct (k <? b - a); [apply nth_error_skipn | reflexivity].
Qed.

Lemma slice_length_le {A : Type} (a b : nat) (l : list A) :
  length (slice a b l) <= b - a.
Proof. unfold slice. apply firstn_le_length. Qed.

Lemma observations_length_le (l : list cell) :
  length (observations l) <= length l.
Proof.
  induction l as [|[x|] l IH]; simpl; lia.
Qed.

Lemma observations_length_lt (l : list cell) :
  In None l -> length (observations l) < length l.
Proof.
  induction l as [|[x|] l IH]; simpl.
  - intros [].
  - intros [H|H]; [discriminate|]. specialize (IH H). lia.
  - intros _. pose proof (observations_length_le l). lia.
Qed.

Lemma observations_map_Some (xs : list R) :
  observations (map Some xs) = xs.
Proof.
  induction xs as [|x xs IH]; simpl; [reflexivity | now rewrite IH].
Qed.

(** The window ending at [i], when its [w] cells hold the numbers [xs]. *)
Lemma window_values (l : list cell) (w i : nat) (xs : list R) :
  w <= i + 1 -> length xs = w ->
  (forall k, k < w -> nth_error l (i + 1 - w + k) = Some (Some (nth k xs 0%R))) ->
  slice (i + 1 - w) (i + 1) l = map Some xs.
Proof.
  intros Hw Hlen Hx. apply nth_error_ext. intros k.
  rewrite slice_nth. replace (i + 1 - (i + 1 - w)) with w by lia.
  destruct (Nat.ltb_spec k w) as [Hk|Hk].
  - rewrite (Hx k Hk). symmetry. apply map_nth_error.
    apply nth_error_nth'. lia.
  - symmetry. apply nth_error_None. rewrite length_map. lia.
Qed.

Lemma rolling_apply_length (r : Rolling) (agg : list R -> cell) :
  length (svalues (rolling_apply r agg)) = length (svalues (obj r)).
Proof.
  unfold rolling_apply. cbn [svalues]. now rewrite length_map, length_seq.
Qed.

Lemma rolling_apply_nth (r : Rolling) (agg : list R -> cell) (i : nat) :
  i < length (svalues (obj r)) ->
  nth_error (svalues (rolling_apply r agg)) i
  = Some (if length (observations
                       (slice (i + 1 - window r) (i + 1) (svalues (obj r))))
             <? min_periods r
          then None
          else agg (observations
                      (slice (i + 1 - window r) (i + 1) (svalues (obj r))))).
Proof.
  intros Hi. unfold rolling_apply. cbn [svalues].
  rewrite nth_error_map, nth_error_seq.
  destruct (Nat.ltb_spec i (length (svalues (obj r)))); [|lia].
  reflexivity.
Qed.

(** Too few rows above, or a missing cell inside the window: no statistic. *)
Lemma rolling_apply_short (d : Series) (w : nat) (agg : list R -> cell) (i : nat) :
  i < length (svalues d) -> i + 1 < w ->
  nth_error (svalues (rolling_apply (rolling d w) agg)) i = Some None.
Proof.
  intros Hi Hw. rewrite rolling_apply_nth by exact Hi.
  cbn [rolling obj window min_periods].
  pose proof (observations_length_le (slice (i + 1 - w) (i + 1) (svalues d))).
  pose proof (slice_length_le (i + 1 - w) (i + 1) (svalues d)).
  destruct (Nat.ltb_spec
              (length (observations (slice (i + 1 - w) (i + 1) (svalues d)))) w);
    [reflexivity | lia].
Qed.

Lemma rolling_apply_null (d : Series) (w : nat) (agg : list R -> cell) (i k : nat) :
  i < length (svalues d) -> k < w ->
  nth_error (svalues d) (i + 1 - w + k) = Some None ->
  nth_error (svalues (rolling_apply (rolling d w) agg)) i = Some None.
Proof.
  intros Hi Hk Hnull. rewrite rolling_apply_nth by exact Hi.
  cbn [rolling obj window min_periods].
  pose proof (slice_length_le (i + 1 - w) (i + 1) (svalues d)).
  pose proof (observations_length_le (slice (i + 1 - w) (i + 1) (svalues d))).
  assert (length (observations (slice (i + 1 - w) (i + 1) (svalues d))) < w) as Hlt.
  { destruct (Nat.ltb_spec k (i + 1 - (i + 1 - w))) as [Hin|Hout]; [|lia].
    assert (In None (slice (i + 1 - w) (i + 1) (svalues d))) as HNone.
    { apply nth_error_In with (n := k). rewrite slice_nth.
      destruct (Nat.ltb_spec k (i + 1 - (i + 1 - w))); [exact Hnull | lia]. }
    apply observations_length_lt in HNone. lia. }
  destruct (Nat.ltb_spec
              (length (observations (slice (i + 1 - w) (i + 1) (svalues d)))) w);
    [reflexivity | lia].
Qed.

Lemma rolling_apply_full (d : Series) (w : nat) (agg : list R -> cell) (i : nat)
    (xs : list R) :
  i < length (svalues d) -> w <= i + 1 -> length xs = w ->
  (forall k, k < w ->
     nth_error (svalues d) (i + 1 - w + k) = Some (Some (nth k xs 0%R))) ->
  nth_error (svalues (rolling_apply (rolling d w) agg)) i = Some (agg xs).
Proof.
  intros Hi Hw Hlen Hx. rewrite rolling_apply_nth by exact Hi.
  cbn [rolling obj window min_periods].
  rewrite (window_values _ _ _ xs Hw Hlen Hx), observations_map_Some, Hlen.
  now rewrite Nat.ltb_irrefl.
Qed.

Lemma augment_rolling_mean (df : DataFrame) (d : Series) (w : nat) :
  In w [7; 14; 30] ->
  getitem (augment df d) ("rolling_mean_" ++ str w)
  = Ok (mkSeries ("rolling_mean_" ++ str w) (index df)
          (svalues (rolling_mean (rolling d w)))).
Proof.
  intros Hw. unfold getitem. rewrite augment_index.
  replace (lookup_col (columns (augment df d)) ("rolling_mean_" ++ str w))
    with (Some (svalues (rolling_mean (rolling d w)))); [reflexivity|].
  symmetry.
  simpl in Hw. destruct Hw as [<-|[<-|[<-|[]]]]; lookup_feature.
Qed.

Lemma augment_rolling_std (df : DataFrame) (d : Series) (w : nat) :
  In w [7; 14; 30] ->
  getitem (augment df d) ("rolling_std_" ++ str w)
  = Ok (mkSeries ("rolling_std_" ++ str w) (index df)
          (svalues (rolling_std (rolling d w)))).
Proof.
  intros Hw. unfold getitem. rewrite augment_index.
  replace (lookup_col (columns (augment df d)) ("rolling_std_" ++ str w))
    with (Some (svalues (rolling_std (rolling d w)))); [reflexivity|].
  symmetry.
  simpl in Hw. destruct Hw as [<-|[<-|[<-|[]]]]; lookup_feature.
Qed.

Lemma agg_mean_window (xs : list R) (w : nat) :
  length xs = w -> 1 <= w ->
  agg_mean xs = Some (Rsum xs / INR w)%R.
Proof.
  intros Hlen Hw. destruct xs as [|x xs]; [simpl in Hlen; lia|].
  unfold agg_mean, mean_of. now rewrite Hlen.
Qed.

Lemma agg_std_window (xs : list R) (w : nat) :
  length xs = w -> 2 <= w ->
  agg_std xs
  = Some (sqrt (Rsum (map (fun x => (x - Rsum xs / INR w) * (x - Rsum xs / INR w)) xs)
                / INR (w - 1)))%R.
Proof.
  intros Hlen Hw. unfold agg_std, ssqdm, mean_of. rewrite Hlen.
  destruct (Nat.leb_spec w 1); [lia | reflexivity].
Qed.


(** ** Dropping the rows with a missing cell *)

Lemma fold_setitem_index (feats : list (string * Series)) (df : DataFrame) :
  index (fold_left (fun acc kv => setitem acc (fst kv) (snd kv)) feats df) = index df.
Proof.
  revert df. induction feats as [|kv feats IH]; intros df; simpl; [reflexivity|].
  now rewrite IH.
Qed.

Lemma fold_setitem_In (feats : list (string * Series)) (df : DataFrame)
    (c : string * list cell) :
  In c (columns (fold_left (fun acc kv => setitem acc (fst kv) (snd kv)) feats df)) ->
  In c (columns df) \/ In c (map (fun kv => (fst kv, svalues (snd kv))) feats).
Proof.
  revert df. induction feats as [|kv feats IH]; intros df; simpl; [auto|].
  intros H. apply IH in H. destruct H as [H|H]; [|auto].
  unfold setitem in H. cbn [columns] in H.
  apply set_col_In in H. destruct H as [H|H]; auto.
Qed.

Lemma fold_setitem_lookup_other (feats : list (string * Series)) (df : DataFrame)
    (k : string) :
  ~ In k (map fst feats) ->
  lookup_col
    (columns (fold_left (fun acc kv => setitem acc (fst kv) (snd kv)) feats df)) k
  = lookup_col (columns df) k.
Proof.
  revert df. induction feats as [|kv feats IH]; intros df Hk; simpl; [reflexivity|].
  rewrite IH by (intros H; apply Hk; now right).
  unfold setitem. cbn [columns]. apply lookup_set_other.
  apply String.eqb_neq. intros Heq. apply Hk. now left.
Qed.

Lemma no_null_map_Some (l : list cell) :
  forallb (fun x => negb (is_null (Some x))) l = true ->
  exists ys : list R, l = map Some ys.
Proof.
  induction l as [|[x|] l IH]; simpl.
  - intros _. now exists [].
  - intros H. destruct (IH H) as [ys ->]. now exists (x :: ys).
  - discriminate.
Qed.

Lemma slice_map {A B : Type} (f : A -> B) (a b : nat) (l : list A) :
  slice a b (map f l) = map f (slice a b l).
Proof. unfold slice. now rewrite skipn_map, firstn_map. Qed.

Lemma slice_length {A : Type} (a b : nat) (l : list A) :
  b <= length l -> length (slice a b l) = b - a.
Proof.
  intros Hb. unfold slice. rewrite length_firstn, length_skipn. lia.
Qed.

(** On a demand column without missing cells, every feature column is
    defined from row 30 on. *)
Lemma shift_defined (d : Series) (ys : list R) (N i : nat) :
  svalues d = map Some ys -> N <= i -> i < length ys ->
  is_null (nth_error (svalues (shift N d)) i) = false.
Proof.
  intros Hd HN Hi.
  rewrite shift_nth_below by (rewrite ?Hd, ?length_map; lia).
  rewrite Hd, nth_error_map.
  destruct (nth_error ys (i - N)) eqn:E; [reflexivity|].
  apply nth_error_None in E. lia.
Qed.

Lemma rolling_defined (d : Series) (ys : list R) (w i : nat) (agg : list R -> cell) :
  svalues d = map Some ys -> w <= i + 1 -> i < length ys ->
  (forall xs, length xs = w -> agg xs <> None) ->
  is_null (nth_error (svalues (rolling_apply (rolling d w) agg)) i) = false.
Proof.
  intros Hd Hw Hi Hagg.
  rewrite rolling_apply_nth by (cbn [rolling obj]; rewrite Hd, length_map; lia).
  cbn [rolling obj window min_periods].
  rewrite Hd, slice_map, observations_map_Some.
  assert (length (slice (i + 1 - w) (i + 1) ys) = w) as Hlen
    by (rewrite slice_length; lia).
  rewrite Hlen, Nat.ltb_irrefl.
  specialize (Hagg _ Hlen).
  destruct (agg (slice (i + 1 - w) (i + 1) ys)); [reflexivity | congruence].
Qed.

Lemma agg_mean_defined (w : nat) (xs : list R) :
  1 <= w -> length xs = w -> agg_mean xs <> None.
Proof.
  intros Hw Hlen. rewrite (agg_mean_window xs w Hlen Hw). discriminate.
Qed.

Lemma agg_std_defined (w : nat) (xs : list R) :
  2 <= w -> length xs = w -> agg_std xs <> None.
Proof.
  intros Hw Hlen. rewrite (agg_std_window xs w Hlen Hw). discriminate.
Qed.

Lemma feature_columns_defined (d : Series) (ys : list R) (c : string * list cell) :
  svalues d = map Some ys ->
  In c (map (fun kv => (fst kv, svalues (snd kv))) (feature_columns d)) ->
  length (snd c) = length ys /\
  forall i, 30 <= i -> i < length ys -> is_null (nth_error (snd c) i) = false.
Proof.
  intros Hd Hc. unfold feature_columns in Hc. cbn [map fst snd In] in Hc.
  assert (length (svalues d) = length ys) as Hlen by (now rewrite Hd, length_map).
  repeat (destruct Hc as [<-|Hc]); try contradiction; cbn [snd];
    (split;
     [ first [ now rewrite shift_length
             | unfold rolling_mean, rolling_std; now rewrite rolling_apply_length ]
     | intros i Hi30 Hi;
       first [ apply (shift_defined d ys); (assumption || lia)
             | unfold rolling_mean; apply (rolling_defined d ys);
               try (assumption || lia);
               intros xs Hxs; eapply agg_mean_defined; [|exact Hxs]; lia
             | unfold rolling_std; apply (rolling_defined d ys);
               try (assumption || lia);
               intros xs Hxs; eapply agg_std_defined; [|exact Hxs]; lia ] ]).
Qed.

Lemma select_threshold {A : Type} (t : nat) (l : list A) (s : nat) :
  select (map (fun i => t <=? i) (seq s (length l))) l = skipn (t - s) l.
Proof.
  revert s. induction l as [|x l IH]; intros s; simpl.
  - now destruct (t - s).
  - rewrite IH. destruct (Nat.leb_spec t s) as [Hle|Hgt].
    + replace (t - s) with 0 by lia. replace (t - S s) with 0 by lia. reflexivity.
    + replace (t - s) with (S (t - S s)) by lia. reflexivity.
Qed.

(** When exactly the first [t] rows have a missing cell, [dropna] removes
    exactly those rows. *)
Lemma dropna_leading (df : DataFrame) (t : nat) :
  frame_wf df = true ->
  (forall i, i < nrows df -> row_has_null df i = (i <? t)) ->
  dropna df = mkFrame (skipn t (index df))
                      (map (fun c => (fst c, skipn t (snd c))) (columns df)).
Proof.
  intros Hwf Hrows. unfold dropna.
  assert (map (fun i => negb (row_has_null df i)) (seq 0 (nrows df))
          = map (fun i => t <=? i) (seq 0 (nrows df))) as Hmask.
  { apply map_ext_in. intros i Hi. apply in_seq in Hi.
    rewrite Hrows by lia.
    destruct (Nat.ltb_spec i t), (Nat.leb_spec t i); (reflexivity || lia). }
  cbv zeta. rewrite Hmask. f_equal.
  - unfold nrows. rewrite select_threshold. now rewrite Nat.sub_0_r.
  - apply map_ext_in. intros c Hc. f_equal.
    unfold frame_wf in Hwf. rewrite forallb_forall in Hwf.
    specialize (Hwf c Hc). apply Nat.eqb_eq in Hwf.
    rewrite <- Hwf, select_threshold. now rewrite Nat.sub_0_r.
Qed.

Lemma input_column_defined (df : DataFrame) (c : string * list cell) (i : nat) :
  frame_wf df = true -> has_no_nulls df = true ->
  In c (columns df) -> i < nrows df ->
  length (snd c) = nrows df /\ is_null (nth_error (snd c) i) = false.
Proof.
  intros Hwf Hnn Hc Hi.
  unfold frame_wf in Hwf. rewrite forallb_forall in Hwf.
  specialize (Hwf c Hc). apply Nat.eqb_eq in Hwf.
  unfold has_no_nulls in Hnn. rewrite forallb_forall in Hnn.
  specialize (Hnn c Hc). rewrite forallb_forall in Hnn.
  split; [exact Hwf|].
  destruct (nth_error (snd c) i) as [x|] eqn:E.
  - apply nth_error_In in E. specialize (Hnn x E).
    now apply negb_true_iff in Hnn.
  - apply nth_error_None in E. lia.
Qed.

(** In the augmented frame of an input without missing cells, the rows with
    a missing cell are exactly the first 30. *)
Lemma augment_rows (df : DataFrame) (d : Series) :
  frame_wf df = true -> has_no_nulls df = true ->
  getitem df "demand" = Ok d ->
  frame_wf (augment df d) = true /\
  forall i, i < nrows (augment df d) ->
    row_has_null (augment df d) i = (i <? 30).
Proof.
  intros Hwf Hnn Hd.
  destruct (getitem_values _ _ _ Hd) as [Hlook _].
  apply lookup_col_In in Hlook.
  assert (length (svalues d) = nrows df) as Hlen.
  { unfold frame_wf in Hwf. rewrite forallb_forall in Hwf.
    specialize (Hwf _ Hlook). now apply Nat.eqb_eq in Hwf. }
  assert (exists ys, svalues d = map Some ys) as [ys Hys].
  { apply no_null_map_Some.
    unfold has_no_nulls in Hnn. rewrite forallb_forall in Hnn.
    exact (Hnn _ Hlook). }
  assert (length ys = nrows df) as Hys_len
    by (rewrite <- Hlen, Hys, length_map; reflexivity).
  assert (nrows (augment df d) = nrows df) as Hn by reflexivity.
  assert (forall c, In c (columns (augment df d)) ->
            length (snd c) = nrows df /\
            forall i, 30 <= i -> i < nrows df ->
              is_null (nth_error (snd c) i) = false) as Hcols.
  { intros c Hc. apply fold_setitem_In in Hc. destruct Hc as [Hc|Hc].
    - split.
      + destruct (nrows df) eqn:En.
        * unfold frame_wf in Hwf. rewrite forallb_forall in Hwf.
          specialize (Hwf c Hc). apply Nat.eqb_eq in Hwf. now rewrite En in Hwf.
        * rewrite <- En.
          apply (input_column_defined df c 0 Hwf Hnn Hc). lia.
      + intros i _ Hi. now apply (input_column_defined df c i Hwf Hnn Hc).
    - destruct (feature_columns_defined d ys c Hys Hc) as [H1 H2].
      split; [lia|]. intros i H30 Hi. apply H2; lia. }
  split.
  - unfold frame_wf. apply forallb_forall. intros c Hc.
    apply Nat.eqb_eq. rewrite Hn. now apply Hcols.
  - intros i Hi. rewrite Hn in Hi. unfold row_has_null.
    destruct (Nat.ltb_spec i 30) as [Hlt|Hge].
    + apply existsb_exists.
      exists ("lag_30", svalues (shift 30 d)). split.
      * apply lookup_col_In. lookup_feature.
      * cbn [snd]. now rewrite shift_nth_top by lia.
    + apply not_true_is_false. intros H.
      apply existsb_exists in H. destruct H as [c [Hc Hnull]].
      destruct (Hcols c Hc) as [_ Hdef].
      rewrite Hdef in Hnull by lia. discriminate.
Qed.

Lemma map_seq_offset {A : Type} (f : nat -> A) (t len : nat) :
  map f (seq t len) = map (fun j => f (t + j)) (seq 0 len).
Proof.
  revert t. induction len as [|len IH]; intros t; simpl; [reflexivity|].
  rewrite Nat.add_0_r. f_equal.
  rewrite IH, <- seq_shift, map_map.
  apply map_ext. intros j. f_equal. lia.
Qed.

Lemma rows_skipn (df : DataFrame) (t : nat) :
  rows (mkFrame (skipn t (index df))
                (map (fun c => (fst c, skipn t (snd c))) (columns df)))
  = skipn t (rows df).
Proof.
  unfold rows, nrows. cbn [index].
  rewrite skipn_map, skipn_seq, length_skipn. cbn [Nat.add].
  rewrite (map_seq_offset (row_at df)).
  apply map_ext. intros j. unfold row_at. cbn [index columns]. f_equal.
  - now rewrite nth_skipn.
  - rewrite map_map. apply map_ext. intros c. cbn [snd].
    apply nth_error_skipn.
Qed.

(** C3.  For a well-formed input frame without missing cells that has a
    demand column, [prepare_features] succeeds; in the augmented frame the
    columns of the input other than the ten feature columns are untouched
    and the rows with a missing cell are exactly the first 30; the frame
    returned has
    the same columns, consists of the rows of the augmented frame from row 30
    on, unchanged and in order, and has no missing cell. *)
Theorem prepare_features_dropna (df : DataFrame) (d : Series) :
  frame_wf df = true ->
  has_no_nulls df = true ->
  getitem df "demand" = Ok d ->
  exists aug ret : DataFrame,
    prepare_features df = Ok (aug, ret) /\
    nrows aug = nrows df /\
    (forall k, ~ In k (map fst (feature_columns d)) ->
               lookup_col (columns aug) k = lookup_col (columns df) k) /\
    (forall i, i < nrows aug -> row_has_null aug i = (i <? 30)) /\
    column_names ret = column_names aug /\
    rows ret = skipn 30 (rows aug) /\
    nrows ret = nrows df - 30 /\
    has_no_nulls ret = true.
Proof.
  intros Hwf Hnn Hd.
  destruct (augment_rows df d Hwf Hnn Hd) as [Hwf' Hrows].
  exists (augment df d), (dropna (augment df d)).
  split; [now apply prepare_features_augment|].
  split; [reflexivity|].
  split; [intros k Hk; now apply fold_setitem_lookup_other|].
  split; [exact Hrows|].
  rewrite (dropna_leading _ 30 Hwf' Hrows).
  split; [|split; [|split]].
  - unfold column_names. cbn [columns]. rewrite map_map. reflexivity.
  - apply rows_skipn.
  - unfold nrows. cbn [index]. rewrite length_skipn. reflexivity.
  - unfold has_no_nulls. cbn [columns].
    apply forallb_forall. intros c Hc.
    apply in_map_iff in Hc. destruct Hc as [c0 [<- Hc0]]. cbn [snd].
    apply forallb_forall. intros x Hx.
    apply In_nth_error in Hx. destruct Hx as [j Hj].
    rewrite nth_error_skipn in Hj.
    assert (30 + j < nrows (augment df d)) as Hlt.
    { unfold frame_wf in Hwf'. rewrite forallb_forall in Hwf'.
      specialize (Hwf' c0 Hc0). apply Nat.eqb_eq in Hwf'.
      rewrite <- Hwf'. apply nth_error_Some. congruence. }
    specialize (Hrows (30 + j) Hlt).
    destruct (Nat.ltb_spec (30 + j) 30); [lia|].
    unfold row_has_null in Hrows.
    destruct (is_null (Some x)) eqn:E; [|reflexivity].
    exfalso. apply not_true_iff_false in Hrows. apply Hrows.
    apply existsb_exists. exists c0. split; [exact Hc0|]. now rewrite Hj.
Qed.

(** ** Splitting without shuffling *)

Lemma slice_app {A : Type} (a b : nat) (l : list A) :
  a <= b -> slice 0 a l ++ slice a b l = slice 0 b l.
Proof.
  intros Hab. unfold slice. cbn [skipn]. rewrite !Nat.sub_0_r.
  rewrite <- (firstn_skipn a (firstn b l)) at 1.
  rewrite firstn_firstn, skipn_firstn_comm.
  now replace (Nat.min a b) with a by lia.
Qed.

Lemma slice_all {A : Type} (n : nat) (l : list A) :
  n = length l -> slice 0 n l = l.
Proof.
  intros ->. unfold slice. cbn [skipn]. rewrite Nat.sub_0_r. apply firstn_all.
Qed.

Lemma slice_seq (a b n : nat) :
  b <= n -> slice a b (seq 0 n) = seq a (b - a).
Proof.
  intros Hb. apply nth_error_ext. intros k.
  rewrite slice_nth, !nth_error_seq.
  destruct (Nat.ltb_spec k (b - a)); [|reflexivity].
  destruct (Nat.ltb_spec (a + k) n); [reflexivity | lia].
Qed.

Lemma rows_iloc (a b : nat) (df : DataFrame) :
  b <= nrows df -> rows (iloc_frame a b df) = slice a b (rows df).
Proof.
  intros Hb. unfold rows at 2. rewrite slice_map, slice_seq by exact Hb.
  unfold rows, nrows, iloc_frame. cbn [index].
  rewrite slice_length by exact Hb.
  rewrite (map_seq_offset (row_at df)).
  apply map_ext_in. intros j Hj. apply in_seq in Hj.
  unfold row_at. cbn [index columns]. f_equal.
  - unfold slice. rewrite nth_firstn.
    destruct (Nat.ltb_spec j (b - a)); [|lia]. now rewrite nth_skipn.
  - rewrite map_map. apply map_ext. intros c. cbn [snd].
    rewrite slice_nth. destruct (Nat.ltb_spec j (b - a)); [reflexivity | lia].
Qed.

Lemma nrows_iloc (a b : nat) (df : DataFrame) :
  b <= nrows df -> nrows (iloc_frame a b df) = b - a.
Proof.
  intros Hb. unfold nrows, iloc_frame. cbn [index]. now apply slice_length.
Qed.

Lemma ceil_mul_3_10 (n : nat) : ceil_mul (mkFraction 3 10) n = (3 * n + 9) / 10.
Proof. unfold ceil_mul. cbn [numer denom]. f_equal. lia. Qed.

Lemma ceil_mul_1_2 (n : nat) : ceil_mul (mkFraction 1 2) n = (n + 1) / 2.
Proof. unfold ceil_mul. cbn [numer denom]. f_equal. lia. Qed.

(** A split succeeds as soon as the lengths agree and a training row is left. *)
Lemma train_test_split_ok (X : DataFrame) (y : Series) (f : fraction) :
  length (svalues y) = nrows X ->
  0 < numer f -> numer f < denom f ->
  ceil_mul f (nrows X) < nrows X ->
  train_test_split X y f
  = Ok (iloc_frame 0 (nrows X - ceil_mul f (nrows X)) X,
        iloc_frame (nrows X - ceil_mul f (nrows X))
                   (nrows X - ceil_mul f (nrows X) + ceil_mul f (nrows X)) X,
        iloc_series 0 (nrows X - ceil_mul f (nrows X)) y,
        iloc_series (nrows X - ceil_mul f (nrows X))
                    (nrows X - ceil_mul f (nrows X) + ceil_mul f (nrows X)) y).
Proof.
  intros Hlen Hnum Hden Hceil. unfold train_test_split.
  rewrite Hlen, Nat.eqb_refl. cbn [negb].
  destruct (Nat.ltb_spec 0 (numer f)); [|lia].
  destruct (Nat.ltb_spec (numer f) (denom f)); [|lia].
  cbn [andb negb].
  destruct (Nat.eqb_spec (nrows X - ceil_mul f (nrows X)) 0); [lia|].
  reflexivity.
Qed.

Lemma columns_labelled_In (cols : list (string * list cell)) (k : string)
    (c : string * list cell) :
  In c (columns_labelled cols k) <-> In c cols /\ fst c = k.
Proof.
  unfold columns_labelled. rewrite filter_In, String.eqb_eq. tauto.
Qed.

Lemma columns_labelled_found (cols : list (string * list cell)) (k : string) :
  In k (map fst cols) -> columns_labelled cols k <> [].
Proof.
  intros Hk Hnil. apply in_map_iff in Hk. destruct Hk as [c [Hc Hin]].
  assert (In c (columns_labelled cols k)) as H
    by (apply columns_labelled_In; auto).
  rewrite Hnil in H. destruct H.
Qed.

(** A selection by labels that the frame has never fails. *)
Lemma take_columns_ok (cols : list (string * list cell)) (keys : list string) :
  (forall k, In k keys -> In k (map fst cols)) ->
  take_columns cols keys = Ok (flat_map (columns_labelled cols) keys).
Proof.
  induction keys as [|k keys IH]; intros Hkeys; cbn [take_columns flat_map].
  - reflexivity.
  - rewrite IH by (intros; apply Hkeys; now right). cbn [rbind].
    destruct (columns_labelled cols k) as [|c found] eqn:E; [|reflexivity].
    exfalso. apply (columns_labelled_found cols k); [|exact E].
    apply Hkeys. now left.
Qed.

(** In a frame whose labels are pairwise distinct a label selects its one
    column, and a selection by a sub-list of the labels filters the columns. *)
Lemma columns_labelled_unique (cols : list (string * list cell))
    (c : string * list cell) :
  NoDup (map fst cols) -> In c cols -> columns_labelled cols (fst c) = [c].
Proof.
  induction cols as [|a cols IH]; intros Hnd Hin; [destruct Hin|].
  cbn [map] in Hnd. inversion Hnd as [|x l Hnotin Hnd']; subst.
  unfold columns_labelled in *. cbn [filter].
  destruct Hin as [->|Hin].
  - rewrite String.eqb_refl. f_equal.
    destruct (filter (fun c0 => String.eqb (fst c0) (fst c)) cols) as [|b rest] eqn:E;
      [reflexivity|].
    exfalso. apply Hnotin.
    assert (In b (filter (fun c0 => String.eqb (fst c0) (fst c)) cols)) as Hb
      by (rewrite E; now left).
    apply filter_In in Hb. destruct Hb as [Hb Heq].
    apply String.eqb_eq in Heq. rewrite <- Heq. now apply in_map.
  - destruct (String.eqb (fst a) (fst c)) eqn:Eq.
    + exfalso. apply Hnotin. apply String.eqb_eq in Eq. rewrite Eq.
      now apply in_map.
    + now apply IH.
Qed.

Lemma take_distinct_labels (cols : list (string * list cell)) (p : string -> bool) :
  NoDup (map fst cols) ->
  flat_map (columns_labelled cols) (filter p (map fst cols))
  = filter (fun c => p (fst c)) cols.
Proof.
  intros Hnd.
  assert (forall cs, (forall c, In c cs -> In c cols) ->
            flat_map (columns_labelled cols) (filter p (map fst cs))
            = filter (fun c => p (fst c)) cs) as H.
  { induction cs as [|c cs IH]; intros Hsub; [reflexivity|].
    cbn [map filter]. destruct (p (fst c)) eqn:Ep.
    - cbn [flat_map]. rewrite (columns_labelled_unique cols c Hnd)
        by (apply Hsub; now left).
      cbn [app]. f_equal. apply IH. intros; apply Hsub; now right.
    - apply IH. intros; apply Hsub; now right. }
  now apply H.
Qed.

Lemma getitem_list_features (df : DataFrame) :
  exists cols,
    getitem_list df (feature_names df) = Ok (mkFrame (index df) cols) /\
    cols = flat_map (columns_labelled (columns df)) (feature_names df) /\
    forall c, In c cols -> In c (columns df).
Proof.
  eexists. split; [|split; [reflexivity|]].
  - unfold getitem_list. rewrite take_columns_ok; [reflexivity|].
    intros k Hk. unfold feature_names in Hk. apply filter_In in Hk. apply Hk.
  - intros c Hc. apply in_flat_map in Hc. destruct Hc as [k [_ Hc]].
    now apply columns_labelled_In in Hc.
Qed.

(** [split_data] on a well-formed frame of at least four rows, in closed
    form: [t] rows go to the hold-out part of the first split, and that part
    is halved by the second. *)
Lemma split_data_parts (df : DataFrame) (d : Series) :
  frame_wf df = true ->
  getitem df "demand" = Ok d ->
  4 <= nrows df ->
  exists cols : list (string * list cell),
    cols = flat_map (columns_labelled (columns df)) (feature_names df) /\
    (forall c, In c cols -> In c (columns df)) /\
    getitem_list df (feature_names df) = Ok (mkFrame (index df) cols) /\
    length (svalues d) = nrows df /\
    sindex d = index df /\
    let X := mkFrame (index df) cols in
    let n := nrows df in
    let t := (3 * n + 9) / 10 in
    let X_temp := iloc_frame (n - t) (n - t + t) X in
    let y_temp := iloc_series (n - t) (n - t + t) d in
    let t' := (t + 1) / 2 in
    split_data df
    = Ok (iloc_frame 0 (n - t) X, iloc_series 0 (n - t) d,
          iloc_frame 0 (t - t') X_temp, iloc_series 0 (t - t') y_temp,
          iloc_frame (t - t') (t - t' + t') X_temp,
          iloc_series (t - t') (t - t' + t') y_temp).
Proof.
  intros Hwf Hd Hn.
  destruct (getitem_list_features df) as [cols [HX [Hnames Hin]]].
  exists cols. split; [exact Hnames|]. split; [exact Hin|]. split; [exact HX|].
  destruct (getitem_values _ _ _ Hd) as [Hlook [Hidx _]].
  assert (length (svalues d) = nrows df) as Hlen.
  { apply lookup_col_In in Hlook.
    unfold frame_wf in Hwf. rewrite forallb_forall in Hwf.
    specialize (Hwf _ Hlook). now apply Nat.eqb_eq in Hwf. }
  split; [exact Hlen|]. split; [exact Hidx|].
  cbv zeta. unfold split_data. rewrite HX, Hd. cbn [rbind].
  assert (nrows (mkFrame (index df) cols) = nrows df) as HnX by reflexivity.
  pose proof (Nat.div_mod_eq (3 * nrows df + 9) 10) as Hdiv.
  pose proof (Nat.mod_upper_bound (3 * nrows df + 9) 10) as Hmod.
  rewrite train_test_split_ok;
    rewrite ?HnX, ?ceil_mul_3_10; cbn [numer denom]; try lia.
  cbn [rbind].
  set (t := (3 * nrows df + 9) / 10) in *.
  assert (nrows (iloc_frame (nrows df - t) (nrows df - t + t)
                   (mkFrame (index df) cols)) = t) as HnT.
  { rewrite nrows_iloc; rewrite ?HnX; lia. }
  pose proof (Nat.div_mod_eq (t + 1) 2) as Hdiv2.
  pose proof (Nat.mod_upper_bound (t + 1) 2) as Hmod2.
  rewrite train_test_split_ok;
    rewrite ?HnT, ?ceil_mul_1_2; cbn [numer denom]; try lia.
  - reflexivity.
  - unfold iloc_series. cbn [svalues]. rewrite slice_length; lia.
Qed.

(** With fewer than four rows one of the two splits has an empty training
    part and [split_data] raises. *)
Lemma split_data_small (df : DataFrame) (d : Series) :
  frame_wf df = true ->
  getitem df "demand" = Ok d ->
  nrows df < 4 ->
  split_data df = Err (ValueError "the resulting train set will be empty").
Proof.
  intros Hwf Hd Hn.
  destruct (getitem_list_features df) as [cols [HX [Hnames Hin]]].
  destruct (getitem_values _ _ _ Hd) as [Hlook _].
  assert (length (svalues d) = nrows df) as Hlen.
  { apply lookup_col_In in Hlook.
    unfold frame_wf in Hwf. rewrite forallb_forall in Hwf.
    specialize (Hwf _ Hlook). now apply Nat.eqb_eq in Hwf. }
  unfold split_data. rewrite HX, Hd. cbn [rbind].
  unfold train_test_split at 1.
  change (nrows (mkFrame (index df) cols)) with (nrows df).
  rewrite Hlen, Nat.eqb_refl. cbn [negb numer denom Nat.ltb Nat.leb andb].
  rewrite ceil_mul_3_10.
  destruct (nrows df) as [|[|[|[|n]]]] eqn:En; try lia; try reflexivity;
    cbn [Nat.mul Nat.add Nat.div Nat.divmod fst snd Nat.sub Nat.eqb rbind];
    unfold train_test_split;
    rewrite nrows_iloc by (change (nrows (mkFrame (index df) cols)) with (nrows df);
                           lia);
    unfold iloc_series; cbn [svalues];
    rewrite slice_length by lia;
    reflexivity.
Qed.

Lemma three_way_split {A : Type} (l : list A) (n t t' : nat) :
  n = length l -> t <= n -> t' <= t ->
  slice 0 (n - t) l
  ++ slice 0 (t - t') (slice (n - t) (n - t + t) l)
  ++ slice (t - t') (t - t' + t') (slice (n - t) (n - t + t) l)
  = l.
Proof.
  intros Hn Ht Ht'.
  rewrite slice_app by lia.
  replace (t - t' + t') with t by lia.
  rewrite (slice_all t) by (rewrite slice_length; lia).
  rewrite slice_app by lia.
  apply slice_all. lia.
Qed.

Lemma rows_length (df : DataFrame) : length (rows df) = nrows df.
Proof. unfold rows. now rewrite length_map, length_seq. Qed.

(** C9.  On a well-formed frame with a demand column and at least four rows,
    [split_data] succeeds without reordering: the rows of X_train, X_val and
    X_test, in that order, are the rows of the feature matrix, and the values
    and labels of y_train, y_val and y_test are those of the demand column.
    With n rows, the training part has floor(7n/10) rows, validation
    floor(ceil(3n/10)/2) and test ceil(ceil(3n/10)/2): each is within one row
    of 70%, 15% and 15% of n. *)
Theorem split_data_chronological (df : DataFrame) (d : Series) :
  frame_wf df = true ->
  getitem df "demand" = Ok d ->
  4 <= nrows df ->
  exists (X X_train : DataFrame) (y_train : Series) (X_val : DataFrame)
         (y_val : Series) (X_test : DataFrame) (y_test : Series),
    getitem_list df (feature_names df) = Ok X /\
    split_data df = Ok (X_train, y_train, X_val, y_val, X_test, y_test) /\
    rows X_train ++ rows X_val ++ rows X_test = rows X /\
    svalues y_train ++ svalues y_val ++ svalues y_test = svalues d /\
    sindex y_train ++ sindex y_val ++ sindex y_test = sindex d /\
    nrows X_train = 7 * nrows df / 10 /\
    nrows X_val = (3 * nrows df + 9) / 10 / 2 /\
    nrows X_test = ((3 * nrows df + 9) / 10 + 1) / 2 /\
    length (svalues y_train) = nrows X_train /\
    length (svalues y_val) = nrows X_val /\
    length (svalues y_test) = nrows X_test /\
    (10 * nrows X_train <= 7 * nrows df < 10 * nrows X_train + 10) /\
    (20 * nrows X_val <= 3 * nrows df + 9 /\ 3 * nrows df < 20 * nrows X_val + 20) /\
    (3 * nrows df <= 20 * nrows X_test < 3 * nrows df + 20).
Proof.
  intros Hwf Hd Hn.
  destruct (split_data_parts df d Hwf Hd Hn)
    as [cols [Hnames [_ [HX [Hlen [Hidx Hsplit]]]]]].
  cbv zeta in Hsplit.
  set (X := mkFrame (index df) cols) in *.
  set (n := nrows df) in *.
  pose proof (Nat.div_mod_eq (3 * n + 9) 10) as Hdiv.
  pose proof (Nat.mod_upper_bound (3 * n + 9) 10) as Hmod.
  pose proof (Nat.div_mod_eq (7 * n) 10) as Hdiv7.
  pose proof (Nat.mod_upper_bound (7 * n) 10) as Hmod7.
  set (t := (3 * n + 9) / 10) in *.
  pose proof (Nat.div_mod_eq (t + 1) 2) as Hdiv2.
  pose proof (Nat.mod_upper_bound (t + 1) 2) as Hmod2.
  pose proof (Nat.div_mod_eq t 2) as Hdiv2'.
  pose proof (Nat.mod_upper_bound t 2) as Hmod2'.
  set (t' := (t + 1) / 2) in *.
  assert (nrows X = n) as HnX by reflexivity.
  assert (nrows (iloc_frame (n - t) (n - t + t) X) = t) as HnT
    by (rewrite nrows_iloc; lia).
  assert (n - t = 7 * n / 10) as Htrain by lia.
  assert (t - t' = t / 2) as Hval by lia.
  do 7 eexists. split; [exact HX|]. split; [exact Hsplit|].
  split; [|split; [|split]].
  - rewrite !rows_iloc by lia.
    apply three_way_split; rewrite ?rows_length; lia.
  - unfold iloc_series. cbn [svalues]. apply three_way_split; lia.
  - unfold iloc_series. cbn [sindex]. apply three_way_split; try lia.
    rewrite Hidx. reflexivity.
  - rewrite !nrows_iloc by lia.
    unfold iloc_series. cbn [svalues].
    rewrite !slice_length by (rewrite ?slice_length; lia).
    repeat split; lia.
Qed.

Lemma column_names_iloc (a b : nat) (df : DataFrame) :
  column_names (iloc_frame a b df) = column_names df.
Proof.
  unfold column_names, iloc_frame. cbn [columns]. now rewrite map_map.
Qed.

Lemma feature_names_filter (df : DataFrame) :
  feature_names df
  = filter (fun k => negb (String.eqb k "date" || String.eqb k "demand"))
           (column_names df).
Proof.
  unfold feature_names. apply filter_ext. intros k.
  unfold mem_string. cbn [existsb]. now rewrite orb_false_r.
Qed.

Lemma feature_names_In (df : DataFrame) (k : string) :
  In k (feature_names df) <->
  In k (column_names df) /\ k <> "date" /\ k <> "demand".
Proof.
  rewrite feature_names_filter, filter_In.
  rewrite negb_true_iff, orb_false_iff, !String.eqb_neq. tauto.
Qed.

Lemma slice_slice {A : Type} (a b a' b' : nat) (l : list A) :
  a + b' <= b -> slice a' b' (slice a b l) = slice (a + a') (a + b') l.
Proof.
  intros Hb. apply nth_error_ext. intros k. rewrite !slice_nth.
  replace (a + b' - (a + a')) with (b' - a') by lia.
  destruct (Nat.ltb_spec k (b' - a')); [|reflexivity].
  destruct (Nat.ltb_spec (a' + k) (b - a)); [|lia].
  f_equal. lia.
Qed.

Lemma columns_iloc_iloc (a b a' b' : nat) (X : DataFrame) :
  a + b' <= b ->
  columns (iloc_frame a' b' (iloc_frame a b X))
  = map (fun c => (fst c, slice (a + a') (a + b') (snd c))) (columns X).
Proof.
  intros Hb. unfold iloc_frame. cbn [columns]. rewrite map_map.
  apply map_ext. intros c. cbn [fst snd]. now rewrite slice_slice.
Qed.

(** C10, as the code has it.  On a well-formed frame with a demand column
    and at least four rows, [split_data] succeeds.  The feature matrix
    [df[features]] holds, for each label other than date and demand in turn,
    every input column bearing it: so its columns are exactly the input
    columns labelled neither date nor demand, each at least once, and, when
    the input's labels are pairwise distinct, each once and in the input's
    order.  X_train, X_val and X_test are the three consecutive row ranges of
    that matrix, cell for cell, and none has a column labelled demand or
    date. *)
Theorem split_data_feature_columns (df : DataFrame) (d : Series) :
  frame_wf df = true ->
  getitem df "demand" = Ok d ->
  4 <= nrows df ->
  exists (X X_train : DataFrame) (y_train : Series) (X_val : DataFrame)
         (y_val : Series) (X_test : DataFrame) (y_test : Series),
    getitem_list df (feature_names df) = Ok X /\
    split_data df = Ok (X_train, y_train, X_val, y_val, X_test, y_test) /\
    columns X = flat_map (columns_labelled (columns df)) (feature_names df) /\
    (forall c, In c (columns X) <->
               In c (columns df) /\ fst c <> "date" /\ fst c <> "demand") /\
    (NoDup (column_names df) ->
     columns X
     = filter (fun c => negb (mem_string (fst c) ["date"; "demand"])) (columns df)) /\
    (let n := nrows df in
     let a := 7 * n / 10 in
     let b := a + (3 * n + 9) / 10 / 2 in
     columns X_train = map (fun c => (fst c, slice 0 a (snd c))) (columns X) /\
     columns X_val = map (fun c => (fst c, slice a b (snd c))) (columns X) /\
     columns X_test = map (fun c => (fst c, slice b n (snd c))) (columns X)) /\
    (forall P, In P [X_train; X_val; X_test] ->
               ~ In "demand" (column_names P) /\ ~ In "date" (column_names P)).
Proof.
  intros Hwf Hd Hn.
  destruct (split_data_parts df d Hwf Hd Hn)
    as [cols [Hcols [Hin [HX [_ [_ Hsplit]]]]]].
  cbv zeta in Hsplit.
  set (X := mkFrame (index df) cols) in *.
  assert (forall c, In c cols <->
                    In c (columns df) /\ fst c <> "date" /\ fst c <> "demand")
    as Hiff.
  { intros c. rewrite Hcols, in_flat_map. split.
    - intros [k [Hk Hc]]. apply columns_labelled_In in Hc.
      destruct Hc as [Hc <-]. apply feature_names_In in Hk. tauto.
    - intros [Hc [H1 H2]]. exists (fst c). split.
      + apply feature_names_In. split; [now apply in_map | tauto].
      + now apply columns_labelled_In. }
  assert (forall k, In k (column_names X) -> k <> "demand" /\ k <> "date")
    as Hlabels.
  { intros k Hk. apply in_map_iff in Hk. destruct Hk as [c [<- Hc]].
    apply Hiff in Hc. tauto. }
  pose proof (Nat.div_mod_eq (3 * nrows df + 9) 10) as Hdiv.
  pose proof (Nat.mod_upper_bound (3 * nrows df + 9) 10) as Hmod.
  pose proof (Nat.div_mod_eq (7 * nrows df) 10) as Hdiv7.
  pose proof (Nat.mod_upper_bound (7 * nrows df) 10) as Hmod7.
  set (t := (3 * nrows df + 9) / 10) in *.
  pose proof (Nat.div_mod_eq (t + 1) 2) as Hdiv2.
  pose proof (Nat.mod_upper_bound (t + 1) 2) as Hmod2.
  pose proof (Nat.div_mod_eq t 2) as Hdiv2'.
  pose proof (Nat.mod_upper_bound t 2) as Hmod2'.
  set (t' := (t + 1) / 2) in *.
  assert (nrows df - t = 7 * nrows df / 10) as Htrain by lia.
  assert (t - t' = t / 2) as Hval by lia.
  do 7 eexists. split; [exact HX|]. split; [exact Hsplit|].
  split; [exact Hcols|]. split; [exact Hiff|].
  split.
  { intros Hnd. cbn [columns X]. rewrite Hcols. unfold feature_names.
    now apply take_distinct_labels. }
  split.
  { cbv zeta. change ((3 * nrows df + 9) / 10) with t.
    rewrite <- Htrain, <- Hval.
    split; [reflexivity|]. split.
    - rewrite columns_iloc_iloc by lia. apply map_ext. intros c.
      do 2 f_equal. lia.
    - rewrite columns_iloc_iloc by lia. apply map_ext. intros c.
      f_equal. f_equal; lia. }
  intros P HP. cbn [In] in HP.
  assert (column_names P = column_names X) as ->.
  { destruct HP as [<-|[<-|[<-|[]]]]; now rewrite !column_names_iloc. }
  split; intros H; apply Hlabels in H; tauto.
Qed.

(** ** Arrays: element-wise reading of the numpy operations *)

Lemma zip_with_nth {A B C : Type} (f : A -> B -> C) (l1 : list A) (l2 : list B)
    (t : nat) :
  nth_error (zip_with f l1 l2) t
  = match nth_error l1 t, nth_error l2 t with
    | Some x, Some y => Some (f x y)
    | _, _ => None
    end.
Proof.
  revert l2 t. induction l1 as [|x l1 IH]; intros [|y l2] [|t]; simpl;
    try reflexivity.
  - now destruct (nth_error l1 t).
  - apply IH.
Qed.

Lemma broadcast2_get (f : R -> R -> R) (a b : ndarray) (t : nat) :
  np_get (broadcast2 f a b) t
  = match np_get a t, np_get b t with
    | Some x, Some y => Some (f x y)
    | _, _ => None
    end.
Proof.
  destruct a as [x|l1], b as [y|l2]; cbn [broadcast2 np_get].
  - reflexivity.
  - rewrite nth_error_map. now destruct (nth_error l2 t).
  - rewrite nth_error_map. now destruct (nth_error l1 t).
  - apply zip_with_nth.
Qed.

Lemma np_sin_get (a : ndarray) (t : nat) :
  np_get (np_sin a) t = option_map sin (np_get a t).
Proof.
  destruct a as [x|l]; cbn [np_sin np_get option_map]; [reflexivity|].
  apply nth_error_map.
Qed.

Lemma np_arange_get (n t : nat) :
  t < n -> np_get (np_arange n) t = Some (INR t).
Proof.
  intros Ht. unfold np_arange. cbn [np_get].
  rewrite nth_error_map, nth_error_seq.
  destruct (Nat.ltb_spec t n); [reflexivity | lia].
Qed.

(** Arrays built by mapping over the same positions combine position-wise. *)
Lemma zip_with_map {A B C D : Type} (f : B -> C -> D) (g : A -> B) (h : A -> C)
    (l : list A) :
  zip_with f (map g l) (map h l) = map (fun i => f (g i) (h i)) l.
Proof.
  induction l as [|i l IH]; simpl; [reflexivity | now rewrite IH].
Qed.

Lemma broadcast2_scalar_arr (f : R -> R -> R) (x : R) (g : nat -> R) (l : list nat) :
  broadcast2 f (Scalar x) (Arr (map g l)) = Arr (map (fun i => f x (g i)) l).
Proof. cbn [broadcast2]. now rewrite map_map. Qed.

Lemma broadcast2_arr_scalar (f : R -> R -> R) (g : nat -> R) (y : R) (l : list nat) :
  broadcast2 f (Arr (map g l)) (Scalar y) = Arr (map (fun i => f (g i) y) l).
Proof. cbn [broadcast2]. now rewrite map_map. Qed.

Lemma broadcast2_arr_arr (f : R -> R -> R) (g h : nat -> R) (l : list nat) :
  broadcast2 f (Arr (map g l)) (Arr (map h l))
  = Arr (map (fun i => f (g i) (h i)) l).
Proof. cbn [broadcast2]. now rewrite zip_with_map. Qed.

Lemma broadcast2_scalar_scalar (f : R -> R -> R) (x y : R) :
  broadcast2 f (Scalar x) (Scalar y) = Scalar (f x y).
Proof. reflexivity. Qed.

Lemma np_sin_arr (g : nat -> R) (l : list nat) :
  np_sin (Arr (map g l)) = Arr (map (fun i => sin (g i)) l).
Proof. cbn [np_sin]. now rewrite map_map. Qed.

Lemma column_of_arr_nth (n : nat) (g : nat -> R) (t : nat) :
  t < n ->
  nth_error (column_of n (Arr (map g (seq 0 n)))) t = Some (Some (g t)).
Proof.
  intros Ht. cbn [column_of]. rewrite !nth_error_map, nth_error_seq.
  destruct (Nat.ltb_spec t n); [reflexivity | lia].
Qed.

Lemma column_of_arr_length (n : nat) (g : nat -> R) :
  length (column_of n (Arr (map g (seq 0 n)))) = n.
Proof. cbn [column_of]. now rewrite !length_map, length_seq. Qed.

Ltac np_normalize :=
  unfold np_maximum, np_add, np_mul, np_div, np_arange;
  repeat first
    [ rewrite broadcast2_scalar_scalar
    | rewrite broadcast2_arr_arr
    | rewrite broadcast2_scalar_arr
    | rewrite broadcast2_arr_scalar
    | rewrite np_sin_arr ].

Lemma date_range_ok (n : nat) :
  (Z.of_nat n <= 88124)%Z ->
  date_range (days_from_civil 2021 1 1) n
  = Ok (map (fun i => (days_from_civil 2021 1 1 + Z.of_nat i)%Z) (seq 0 n)).
Proof.
  intros Hn. unfold date_range. destruct n as [|k]; [reflexivity|].
  change (days_from_civil 2021 1 1) with 18628%Z.
  destruct (Z.leb_spec ((18628 + Z.of_nat k) * ns_per_day) int64_max) as [_|H];
    [reflexivity|].
  exfalso. unfold ns_per_day, int64_max in H. lia.
Qed.

(** ** Synthetic demand *)

Section GenerationProperties.

Variable normal_sample : R -> R -> nat -> R.

(** The demand column of the generated frame, position by position, in the
    order in which the code adds the components. *)
Lemma generate_demand_data_ok (n_periods : nat) (seasonality trend : bool)
    (noise_level : R) :
  ~ (noise_level * 100 < 0)%R ->
  (Z.of_nat n_periods <= 88124)%Z ->
  exists (df : DataFrame) (demand : Series),
    generate_demand_data normal_sample n_periods seasonality trend noise_level
    = Ok df /\
    getitem df "demand" = Ok demand /\
    length (svalues demand) = n_periods /\
    forall t, t < n_periods ->
      nth_error (svalues demand) t
      = Some (Some (Rmax
          (100
           + (if trend then INR t * 0.1 else 0)
           + (if seasonality
              then 10 * sin (2 * PI * INR t / 7)
                   + 20 * sin (2 * PI * INR t / 30)
                   + 50 * sin (2 * PI * INR t / 365)
              else 0)
           + normal_sample 0 (noise_level * 100) t) 0))%R.
Proof.
  intros Hscale Hn. unfold generate_demand_data, np_random_normal.
  destruct (Rlt_dec (noise_level * 100) 0) as [Hneg|_]; [contradiction|].
  cbn [rbind]. rewrite date_range_ok by exact Hn. cbn [rbind].
  eexists. eexists. split; [reflexivity|]. split; [reflexivity|].
  cbn [svalues].
  destruct trend, seasonality; np_normalize;
    (split; [apply column_of_arr_length|]);
    intros t Ht; rewrite column_of_arr_nth by exact Ht; reflexivity.
Qed.

(** Why [generate_demand_data] can raise: numpy refuses a negative scale and
    pandas a date range that overflows. *)
Lemma generate_demand_data_raises (n_periods : nat) (seasonality trend : bool)
    (noise_level : R) (e : exn) :
  generate_demand_data normal_sample n_periods seasonality trend noise_level
  = Err e ->
  (noise_level * 100 < 0)%R \/ (88124 < Z.of_nat n_periods)%Z.
Proof.
  intros Hgen.
  destruct (Rlt_dec (noise_level * 100) 0) as [Hneg|Hpos]; [now left|].
  destruct (Z_le_gt_dec (Z.of_nat n_periods) 88124) as [Hn|Hn]; [|right; lia].
  destruct (generate_demand_data_ok n_periods seasonality trend noise_level
              Hpos Hn) as [df [_ [Hok _]]].
  congruence.
Qed.

Lemma generate_demand_data_returns (n_periods : nat) (seasonality trend : bool)
    (noise_level : R) (df : DataFrame) :
  generate_demand_data normal_sample n_periods seasonality trend noise_level
  = Ok df ->
  ~ (noise_level * 100 < 0)%R /\ (Z.of_nat n_periods <= 88124)%Z.
Proof.
  unfold generate_demand_data, np_random_normal.
  destruct (Rlt_dec (noise_level * 100) 0) as [Hneg|Hpos]; [discriminate|].
  cbn [rbind]. intros Hgen. split; [exact Hpos|].
  destruct (date_range (days_from_civil 2021 1 1) n_periods) as [l|e] eqn:E;
    [|discriminate].
  unfold date_range in E. destruct n_periods as [|k]; [lia|].
  change (days_from_civil 2021 1 1) with 18628%Z in E.
  destruct (Z.leb_spec ((18628 + Z.of_nat k) * ns_per_day) int64_max)
    as [H|H]; [|discriminate].
  unfold ns_per_day, int64_max in H. lia.
Qed.

(** C6.  Whenever [generate_demand_data] returns a frame, its demand column
    has [n_periods] cells and the cell at time index t is
    max(0, 100 + 0.1 t + 10 sin(2 pi t / 7) + 20 sin(2 pi t / 30)
    + 50 sin(2 pi t / 365) + noise t) when trend and seasonality are both on;
    without seasonality the three sines are absent and without trend the
    term 0.1 t is absent.  It raises only for a negative noise scale or a
    date range that does not fit. *)
Theorem generate_demand_data_synthesis (n_periods : nat) (seasonality trend : bool)
    (noise_level : R) :
  match generate_demand_data normal_sample n_periods seasonality trend noise_level
  with
  | Ok df =>
      exists demand : Series,
        getitem df "demand" = Ok demand /\
        length (svalues demand) = n_periods /\
        forall t, t < n_periods ->
          let x := INR t in
          let noise_t := normal_sample 0 (noise_level * 100) t in
          nth_error (svalues demand) t
          = Some (Some
              match trend, seasonality with
              | true, true =>
                  Rmax 0 (100 + 0.1 * x + 10 * sin (2 * PI * x / 7)
                          + 20 * sin (2 * PI * x / 30)
                          + 50 * sin (2 * PI * x / 365) + noise_t)
              | true, false => Rmax 0 (100 + 0.1 * x + noise_t)
              | false, true =>
                  Rmax 0 (100 + 10 * sin (2 * PI * x / 7)
                          + 20 * sin (2 * PI * x / 30)
                          + 50 * sin (2 * PI * x / 365) + noise_t)
              | false, false => Rmax 0 (100 + noise_t)
              end)%R
  | Err _ => (noise_level * 100 < 0)%R \/ (88124 < Z.of_nat n_periods)%Z
  end.
Proof.
  destruct (generate_demand_data normal_sample n_periods seasonality trend
              noise_level) as [df|e] eqn:Hgen;
    [|now apply generate_demand_data_raises in Hgen].
  destruct (generate_demand_data_returns _ _ _ _ _ Hgen) as [Hpos Hn].
  destruct (generate_demand_data_ok n_periods seasonality trend noise_level
              Hpos Hn) as [df' [demand [Hok [Hget [Hlen Hnth]]]]].
  assert (df' = df) as -> by congruence.
  exists demand. split; [exact Hget|]. split; [exact Hlen|].
  intros t Ht. cbv zeta. rewrite (Hnth t Ht). do 2 f_equal.
  rewrite Rmax_comm.
  destruct trend, seasonality; f_equal; lra.
Qed.

(** For a noise level that is a number: whenever [generate_demand_data]
    returns a frame, its demand column has [n_periods] cells, none missing
    and none negative. *)
Lemma generate_demand_data_number_nonnegative (n_periods : nat)
    (seasonality trend : bool) (noise_level : R) :
  match generate_demand_data normal_sample n_periods seasonality trend noise_level
  with
  | Ok df =>
      exists demand : Series,
        getitem df "demand" = Ok demand /\
        length (svalues demand) = n_periods /\
        forall c, In c (svalues demand) -> exists x : R, c = Some x /\ (0 <= x)%R
  | Err _ => (noise_level * 100 < 0)%R \/ (88124 < Z.of_nat n_periods)%Z
  end.
Proof.
  destruct (generate_demand_data normal_sample n_periods seasonality trend
              noise_level) as [df|e] eqn:Hgen;
    [|now apply generate_demand_data_raises in Hgen].
  destruct (generate_demand_data_returns _ _ _ _ _ Hgen) as [Hpos Hn].
  destruct (generate_demand_data_ok n_periods seasonality trend noise_level
              Hpos Hn) as [df' [demand [Hok [Hget [Hlen Hnth]]]]].
  assert (df' = df) as -> by congruence.
  exists demand. split; [exact Hget|]. split; [exact Hlen|].
  intros c Hc. apply In_nth_error in Hc. destruct Hc as [t Ht].
  assert (t < n_periods) as Hlt
    by (rewrite <- Hlen; apply nth_error_Some; congruence).
  rewrite (Hnth t Hlt) in Ht. injection Ht as <-.
  eexists. split; [reflexivity|]. apply Rmax_r.
Qed.

End GenerationProperties.

(** ** The cells that talk to the outside world *)

Section WorldProperties.

Variable W : Type.
Variable exec : forall T : Type, call T -> W -> outcome T * W.

(** C7.  [train_model] first builds the XGBoost estimator with the
    hyperparameters objective reg:squarederror, num_round 100, max_depth 6
    and eta 0.2; when the constructor returns an estimator it prints and then
    calls fit on it with exactly the channels train and validation bound to
    the two given S3 paths, and returns the estimator when fit returns.  An
    exception of either call ends [train_model] with that exception. *)
Theorem train_model_configuration (train_s3_path val_s3_path role bucket
    instance_type : string) (w : W) :
  let cfg := mkEstimatorConfig "training_script.py" "utils" "1.5-1"
               xgb_hyperparameters role 1 instance_type
               ("s3://" ++ bucket ++ "/demand-forecast/output")%string 3600 in
  dict_get (hyperparameters cfg) "objective" = Some (PyStr "reg:squarederror") /\
  dict_get (hyperparameters cfg) "num_round" = Some (PyInt 100) /\
  dict_get (hyperparameters cfg) "max_depth" = Some (PyInt 6) /\
  dict_get (hyperparameters cfg) "eta" = Some (PyFloat 0.2%R) /\
  match exec _ (XGBoostNew cfg) w with
  | (Raised e, w1) =>
      train_model exec train_s3_path val_s3_path role bucket instance_type w
      = (w1, [Called (XGBoostNew cfg) (Raised e)], Err e)
  | (Returned est, w1) =>
      let fit := Fit est [("train", train_s3_path); ("validation", val_s3_path)] in
      match exec _ fit w1 with
      | (o, w2) =>
          train_model exec train_s3_path val_s3_path role bucket instance_type w
          = (w2,
             [Called (XGBoostNew cfg) (Returned est);
              Printed [Text "Training XGBoost model..."];
              Called fit o],
             match o with
             | Returned _ => Ok est
             | Raised e => Err e
             end)
      end
  end.
Proof.
  cbv zeta. repeat (split; [reflexivity|]).
  unfold train_model, bind, do_call, print, ret.
  destruct (exec handle _ w) as [[est|e] w1]; [|reflexivity].
  cbn [app].
  destruct (exec unit _ w1) as [[u|e] w2]; reflexivity.
Qed.

(** C4.  [deploy_model] first runs the guarded block: it asks for a
    SageMaker client and, when it gets one, asks it to delete the endpoint
    configuration ml-models-as-tools.  Whatever these two calls do, the
    block's exception is discarded, the deployment of the global estimator is
    attempted next, and the result of [deploy_model] is the result of that
    deployment alone: it fails only with an exception raised by the [deploy]
    call itself. *)
Theorem deploy_model_best_effort_delete (xgb_estimator predictor : handle)
    (instance_type : string) (w : W) :
  let deploy := Deploy xgb_estimator "ml-models-as-tools" 1 instance_type
                  JSONSerializer JSONDeserializer in
  let run := deploy_model exec xgb_estimator predictor instance_type w in
  exists (t_del : list event) (w1 : W),
    (t_del, w1)
    = match exec _ (Boto3Client "sagemaker") w with
      | (Raised e, w') => ([Called (Boto3Client "sagemaker") (Raised e)], w')
      | (Returned client, w') =>
          match exec _ (DeleteEndpointConfig client "ml-models-as-tools") w' with
          | (o, w'') =>
              ([Called (Boto3Client "sagemaker") (Returned client);
                Called (DeleteEndpointConfig client "ml-models-as-tools") o], w'')
          end
      end /\
    match exec _ deploy w1 with
    | (Returned p, w2) =>
        run = (w2,
               t_del ++ [Printed [Text "Deploying model to SageMaker endpoint..."];
                         Called deploy (Returned p);
                         Printed [Text ("Model deployed to endpoint: "
                                        ++ endpoint_name p)%string]],
               Ok p)
    | (Raised e, w2) =>
        run = (w2,
               t_del ++ [Printed [Text "Deploying model to SageMaker endpoint..."];
                         Called deploy (Raised e)],
               Err e)
    end /\
    (exists o, In (Called deploy o) (trace_of run)) /\
    (forall e, result_of run = Err e ->
               In (Called deploy (Raised e)) (trace_of run)).
Proof.
  cbv zeta. unfold deploy_model, bind, try_except, do_call, print, ret.
  destruct (exec handle (Boto3Client "sagemaker") w) as [[client|e0] w'].
  - destruct (exec unit (DeleteEndpointConfig client "ml-models-as-tools") w')
      as [[u|e1] w''];
      (do 2 eexists; split; [reflexivity|]);
      destruct (exec Predictor _ w'') as [[p|e] w2];
      (split; [reflexivity|]); cbn [trace_of result_of fst snd app];
      (split; [eexists; simpl; eauto 10 | intros e' He'; inversion He'; subst;
                                          simpl; eauto 10]).
  - do 2 eexists. split; [reflexivity|].
    destruct (exec Predictor _ w') as [[p|e] w2];
      (split; [reflexivity|]); cbn [trace_of result_of fst snd app];
      (split; [eexists; simpl; eauto 10 | intros e' He'; inversion He'; subst;
                                          simpl; eauto 10]).
Qed.

(** *** Which exceptions are intercepted *)

Lemma propagates_ret {A : Type} (caught : forall T : Type, call T -> bool) (a : A) :
  propagates_outside caught (ret (W := W) a).
Proof. intros w ev e []. Qed.

Lemma propagates_lift {A : Type} (caught : forall T : Type, call T -> bool)
    (r : result A) :
  propagates_outside caught (lift (W := W) r).
Proof.
  intros w ev e. unfold lift. destruct r as [a|e0];
    cbn [trace_of result_of fst snd].
  - intros [].
  - intros [<-|[]]. cbn. now intros [= ->].
Qed.

Lemma propagates_print (caught : forall T : Type, call T -> bool)
    (line : list piece) :
  propagates_outside caught (print (W := W) line).
Proof.
  intros w ev e [<-|[]]. discriminate.
Qed.

Lemma propagates_call {T : Type} (caught : forall T : Type, call T -> bool)
    (c : call T) :
  propagates_outside caught (do_call exec c).
Proof.
  intros w ev e. unfold do_call.
  destruct (exec T c w) as [[v|e0] w']; cbn [trace_of result_of fst snd];
    intros [<-|[]]; cbn; [discriminate | now intros [= ->]].
Qed.

Lemma propagates_bind {A B : Type} (caught : forall T : Type, call T -> bool)
    (m : M W A) (k : A -> M W B) :
  propagates_outside caught m ->
  (forall a, propagates_outside caught (k a)) ->
  propagates_outside caught (bind m k).
Proof.
  intros Hm Hk w ev e. specialize (Hm w ev e). unfold bind.
  destruct (m w) as [[w1 t1] [a|e0]]; cbn [trace_of result_of fst snd] in *.
  - specialize (Hk a w1 ev e).
    destruct (k a w1) as [[w2 t2] r]; cbn [trace_of result_of fst snd] in *.
    intros Hin Hev Hout. apply in_app_or in Hin. destruct Hin as [Hin|Hin].
    + specialize (Hm Hin Hev Hout). discriminate.
    + now apply Hk.
  - intros Hin Hev Hout. specialize (Hm Hin Hev Hout). now injection Hm as ->.
Qed.

Lemma propagates_for_range {A : Type} (caught : forall T : Type, call T -> bool)
    (l : list A) (body : A -> M W unit) :
  (forall a, propagates_outside caught (body a)) ->
  propagates_outside caught (for_range l body).
Proof.
  intros Hbody. induction l as [|a l IH]; cbn [for_range].
  - apply propagates_ret.
  - apply propagates_bind; [apply Hbody | intros _; exact IH].
Qed.

Lemma within_ret {A : Type} (caught : forall T : Type, call T -> bool) (a : A) :
  calls_within caught (ret (W := W) a).
Proof. intros w ev []. Qed.

Lemma within_call {T : Type} (caught : forall T : Type, call T -> bool)
    (c : call T) :
  caught T c = true -> calls_within caught (do_call exec c).
Proof.
  intros Hc w ev. unfold do_call.
  destruct (exec T c w) as [[v|e0] w']; cbn [trace_of fst snd];
    intros [<-|[]]; exact Hc.
Qed.

Lemma within_bind {A B : Type} (caught : forall T : Type, call T -> bool)
    (m : M W A) (k : A -> M W B) :
  calls_within caught m ->
  (forall a, calls_within caught (k a)) ->
  calls_within caught (bind m k).
Proof.
  intros Hm Hk w ev. specialize (Hm w ev). unfold bind.
  destruct (m w) as [[w1 t1] [a|e0]]; cbn [trace_of fst snd] in *.
  - specialize (Hk a w1 ev).
    destruct (k a w1) as [[w2 t2] r]; cbn [trace_of fst snd] in *.
    intros Hin. apply in_app_or in Hin. destruct Hin; auto.
  - exact Hm.
Qed.

(** A [try] whose body raises only through calls of [caught], with a handler
    that intercepts nothing more. *)
Lemma propagates_try {A : Type} (caught : forall T : Type, call T -> bool)
    (body : M W A) (handler : exn -> M W A) :
  calls_within caught body ->
  (forall e, propagates_outside caught (handler e)) ->
  propagates_outside caught (try_except body handler).
Proof.
  intros Hbody Hh w ev e. unfold try_except.
  specialize (Hbody w ev).
  destruct (body w) as [[w1 t1] [a|e0]]; cbn [trace_of result_of fst snd] in *.
  - intros Hin _ Hout. specialize (Hbody Hin). congruence.
  - specialize (Hh e0 w1 ev e).
    destruct (handler e0 w1) as [[w2 t2] r]; cbn [trace_of result_of fst snd] in *.
    intros Hin Hev Hout. apply in_app_or in Hin. destruct Hin as [Hin|Hin].
    + specialize (Hbody Hin). congruence.
    + now apply Hh.
Qed.

Ltac propagation :=
  repeat first
    [ apply propagates_bind; [|intros ?]
    | apply propagates_call
    | apply propagates_print
    | apply propagates_ret
    | apply propagates_lift
    | apply propagates_for_range; intros ? ].


End WorldProperties.


(** C10, as stated, fails on a repeated label.  From the columns a, a,
    demand the list of features is a, a, and each of the two keys selects
    both columns: the feature matrices have four columns, each input column
    twice, where the input has two columns other than date and demand. *)
Lemma split_data_repeats_twin_columns :
  frame_wf twin_frame = true /\
  filter (fun c => negb (mem_string (fst c) ["date"; "demand"])) (columns twin_frame)
  = [("a", [Some 1; Some 2; Some 3; Some 4]%R);
     ("a", [Some 5; Some 6; Some 7; Some 8]%R)] /\
  exists (X_train : DataFrame) (y_train : Series) (X_val : DataFrame)
         (y_val : Series) (X_test : DataFrame) (y_test : Series),
    split_data twin_frame = Ok (X_train, y_train, X_val, y_val, X_test, y_test) /\
    columns X_train
    = [("a", [Some 1; Some 2]%R); ("a", [Some 5; Some 6]%R);
       ("a", [Some 1; Some 2]%R); ("a", [Some 5; Some 6]%R)] /\
    columns X_val
    = [("a", [Some 3]%R); ("a", [Some 7]%R); ("a", [Some 3]%R); ("a", [Some 7]%R)] /\
    columns X_test
    = [("a", [Some 4]%R); ("a", [Some 8]%R); ("a", [Some 4]%R); ("a", [Some 8]%R)] /\
    length (columns X_train)
    <> length (filter (fun c => negb (mem_string (fst c) ["date"; "demand"]))
                 (columns twin_frame)).
Proof.
  split; [reflexivity|]. split; [reflexivity|].
  do 6 eexists. split; [reflexivity|].
  split; [reflexivity|]. split; [reflexivity|]. split; [reflexivity|].
  cbn. discriminate.
Qed.

(** ** The theorems at sample inputs *)

Lemma prepare_features_lag_sample :
  getitem sample_frame "demand" = Ok sample_series /\
  exists (aug ret : DataFrame) (lag7 : Series),
    prepare_features sample_frame = Ok (aug, ret) /\
    getitem aug "lag_7" = Ok lag7 /\
    nth_error (svalues lag7) 6 = Some None /\
    nth_error (svalues lag7) 10 = Some (Some (100 + INR 3)%R).
Proof.
  split; [reflexivity|].
  destruct (prepare_features_lag sample_frame sample_series eq_refl)
    as [aug [ret [Hrun [_ [_ [_ Hlag]]]]]].
  destruct (Hlag 7 (or_intror (or_introl eq_refl))) as [lag7 [Hget [_ [_ Hnth]]]].
  exists aug, ret, lag7. split; [exact Hrun|]. split; [exact Hget|].
  split.
  - apply (Hnth 6); cbn; lia.
  - rewrite (proj2 (Hnth 10 ltac:(cbn; lia))) by lia. reflexivity.
Defined.


Lemma prepare_features_dropna_sample :
  frame_wf sample_frame = true /\
  has_no_nulls sample_frame = true /\
  getitem sample_frame "demand" = Ok sample_series /\
  exists aug ret : DataFrame,
    prepare_features sample_frame = Ok (aug, ret) /\
    rows ret = skipn 30 (rows aug) /\
    nrows ret = 10 /\
    has_no_nulls ret = true.
Proof.
  split; [reflexivity|]. split; [reflexivity|]. split; [reflexivity|].
  destruct (prepare_features_dropna sample_frame sample_series
              eq_refl eq_refl eq_refl)
    as [aug [ret [Hrun [_ [_ [_ [_ [Hrows [Hn Hnn]]]]]]]]].
  exists aug, ret. split; [exact Hrun|]. split; [exact Hrows|].
  split; [exact Hn | exact Hnn].
Defined.

Lemma split_data_chronological_sample :
  frame_wf engineered_frame = true /\
  getitem engineered_frame "demand" = Ok engineered_demand /\
  4 <= nrows engineered_frame /\
  exists (X X_train : DataFrame) (y_train : Series) (X_val : DataFrame)
         (y_val : Series) (X_test : DataFrame) (y_test : Series),
    split_data engineered_frame
    = Ok (X_train, y_train, X_val, y_val, X_test, y_test) /\
    rows X_train ++ rows X_val ++ rows X_test = rows X /\
    svalues y_train ++ svalues y_val ++ svalues y_test
    = svalues engineered_demand /\
    nrows X_train = 7 /\ nrows X_val = 1 /\ nrows X_test = 2.
Proof.
  split; [reflexivity|]. split; [reflexivity|].
  split; [cbn; lia|].
  destruct (split_data_chronological engineered_frame engineered_demand
              eq_refl eq_refl ltac:(cbn; lia))
    as [X [X_train [y_train [X_val [y_val [X_test [y_test
         [_ [Hrun [Hrows [Hvals [_ [Htr [Hva [Hte _]]]]]]]]]]]]]]].
  exists X, X_train, y_train, X_val, y_val, X_test, y_test.
  split; [exact Hrun|]. split; [exact Hrows|]. split; [exact Hvals|].
  split; [exact Htr|]. split; [exact Hva | exact Hte].
Defined.

Lemma split_data_feature_columns_sample :
  frame_wf engineered_frame = true /\
  getitem engineered_frame "demand" = Ok engineered_demand /\
  4 <= nrows engineered_frame /\
  exists (X_train : DataFrame) (y_train : Series) (X_val : DataFrame)
         (y_val : Series) (X_test : DataFrame) (y_test : Series),
    split_data engineered_frame
    = Ok (X_train, y_train, X_val, y_val, X_test, y_test) /\
    column_names X_train = ["dayofweek"; "lag_1"] /\
    column_names X_val = ["dayofweek"; "lag_1"] /\
    column_names X_test = ["dayofweek"; "lag_1"] /\
    lookup_col (columns X_val) "lag_1" = Some [Some (129 + INR 7)%R].
Proof.
  split; [reflexivity|]. split; [reflexivity|].
  split; [cbn; lia|].
  destruct (split_data_feature_columns engineered_frame engineered_demand
              eq_refl eq_refl ltac:(cbn; lia))
    as [X [X_train [y_train [X_val [y_val [X_test [y_test
         [_ [Hrun [HX [_ [_ [[Htr [Hva Hte]] _]]]]]]]]]]]]].
  exists X_train, y_train, X_val, y_val, X_test, y_test.
  split; [exact Hrun|].
  unfold column_names. rewrite Htr, Hva, Hte, HX.
  repeat split; reflexivity.
Defined.

Lemma generate_demand_data_synthesis_sample :
  exists (df : DataFrame) (demand : Series),
    generate_demand_data (fun _ _ _ => 0%R) 730 true true 0.2 = Ok df /\
    getitem df "demand" = Ok demand /\
    length (svalues demand) = 730 /\
    nth_error (svalues demand) 0 = Some (Some 100%R).
Proof.
  pose proof (generate_demand_data_synthesis (fun _ _ _ => 0%R) 730 true true 0.2)
    as Hspec.
  destruct (generate_demand_data (fun _ _ _ => 0%R) 730 true true 0.2)
    as [df|e].
  - destruct Hspec as [demand [Hget [Hlen Hnth]]].
    exists df, demand. split; [reflexivity|]. split; [exact Hget|].
    split; [exact Hlen|].
    rewrite (Hnth 0 ltac:(lia)). do 2 f_equal. cbv zeta. cbn [INR].
    replace (2 * PI * 0 / 7)%R with 0%R by lra.
    replace (2 * PI * 0 / 30)%R with 0%R by lra.
    replace (2 * PI * 0 / 365)%R with 0%R by lra.
    rewrite sin_0.
    replace (100 + 0.1 * 0 + 10 * 0 + 20 * 0 + 50 * 0 + 0)%R with 100%R by lra.
    apply Rmax_right. lra.
  - exfalso. destruct Hspec as [H|H]; [lra | lia].
Defined.

(** * Further properties of the notebook's functions *)

(** ** [prepare_features] on arbitrary frames *)

Lemma feature_columns_length (d : Series) (c : string * list cell) :
  In c (map (fun kv => (fst kv, svalues (snd kv))) (feature_columns d)) ->
  length (snd c) = length (svalues d).
Proof.
  intros Hc. unfold feature_columns in Hc. cbn [map fst snd In] in Hc.
  repeat (destruct Hc as [<-|Hc]); try contradiction; cbn [snd];
    first [ apply shift_length
          | unfold rolling_mean, rolling_std; apply rolling_apply_length ].
Qed.

Lemma demand_length (df : DataFrame) (d : Series) :
  frame_wf df = true -> getitem df "demand" = Ok d ->
  length (svalues d) = nrows df.
Proof.
  intros Hwf Hd. destruct (getitem_values _ _ _ Hd) as [Hlook _].
  apply lookup_col_In in Hlook.
  unfold frame_wf in Hwf. rewrite forallb_forall in Hwf.
  specialize (Hwf _ Hlook). now apply Nat.eqb_eq in Hwf.
Qed.

(** The assignments keep the frame rectangular, whatever the cells hold. *)
Lemma augment_wf (df : DataFrame) (d : Series) :
  frame_wf df = true -> getitem df "demand" = Ok d ->
  frame_wf (augment df d) = true.
Proof.
  intros Hwf Hd. pose proof (demand_length df d Hwf Hd) as Hlen.
  unfold frame_wf. apply forallb_forall. intros c Hc. apply Nat.eqb_eq.
  change (nrows (augment df d)) with (nrows df).
  apply fold_setitem_In in Hc. destruct Hc as [Hc|Hc].
  - unfold frame_wf in Hwf. rewrite forallb_forall in Hwf.
    specialize (Hwf c Hc). now apply Nat.eqb_eq in Hwf.
  - rewrite (feature_columns_length d c Hc). exact Hlen.
Qed.

Lemma select_In {A : Type} (mask : list bool) (l : list A) (x : A) :
  In x (select mask l) ->
  exists i, nth_error mask i = Some true /\ nth_error l i = Some x.
Proof.
  revert l. induction mask as [|b mask IH]; intros [|y l]; simpl;
    try contradiction.
  destruct b; simpl.
  - intros [<-|H]; [now exists 0|].
    destruct (IH l H) as [i Hi]. now exists (S i).
  - intros H. destruct (IH l H) as [i Hi]. now exists (S i).
Qed.

Lemma select_length {A : Type} (mask : list bool) (l : list A) :
  length l = length mask ->
  length (select mask l) = length (filter (fun b => b) mask).
Proof.
  revert l. induction mask as [|b mask IH]; intros [|y l]; simpl;
    try discriminate; try reflexivity.
  intros [= Hlen]. destruct b; simpl; now rewrite IH.
Qed.

Lemma select_map_mask {A B : Type} (m : A -> bool) (f : A -> B) (l : list A) :
  select (map m l) (map f l) = map f (filter m l).
Proof.
  induction l as [|a l IH]; simpl; [reflexivity|].
  destruct (m a); simpl; now rewrite IH.
Qed.

(** Reading a selection: its [j]-th entry is the entry of [l] at the [j]-th
    selected position. *)
Lemma select_nth_error {A : Type} (mask : list bool) (l : list A) (s j : nat) :
  length l = length mask ->
  nth_error (select mask l) j
  = match nth_error (select mask (seq s (length mask))) j with
    | Some p => nth_error l (p - s)
    | None => None
    end.
Proof.
  revert l s j. induction mask as [|b mask IH]; intros [|y l] s j; simpl;
    try discriminate.
  - intros _. now destruct j.
  - intros [= Hlen]. destruct b.
    + destruct j as [|j]; simpl.
      * now rewrite Nat.sub_diag.
      * rewrite (IH l (S s) j Hlen).
        destruct (nth_error (select mask (seq (S s) (length mask))) j) as [p|] eqn:E;
          [|reflexivity].
        assert (S s <= p) as Hp.
        { apply nth_error_In in E. apply select_In in E.
          destruct E as [i [_ Hi]]. apply nth_error_In in Hi.
          apply in_seq in Hi. lia. }
        replace (p - s) with (S (p - S s)) by lia. reflexivity.
    + rewrite (IH l (S s) j Hlen).
      destruct (nth_error (select mask (seq (S s) (length mask))) j) as [p|] eqn:E;
        [|reflexivity].
      assert (S s <= p) as Hp.
      { apply nth_error_In in E. apply select_In in E.
        destruct E as [i [_ Hi]]. apply nth_error_In in Hi.
        apply in_seq in Hi. lia. }
      replace (p - s) with (S (p - S s)) by lia. reflexivity.
Qed.

Lemma select_map {A B : Type} (f : A -> B) (mask : list bool) (l : list A) :
  select mask (map f l) = map f (select mask l).
Proof.
  revert l. induction mask as [|b mask IH]; intros [|a l]; simpl;
    try reflexivity.
  destruct b; simpl; now rewrite IH.
Qed.

Lemma nth_of_nth_error {A : Type} (l : list A) (i : nat) (d x : A) :
  nth_error l i = Some x -> nth i l d = x.
Proof.
  revert i. induction l as [|y l IH]; intros [|i]; simpl; try discriminate.
  - now intros [= ->].
  - apply IH.
Qed.

Lemma rows_select (df : DataFrame) (mask : list bool) :
  frame_wf df = true ->
  length mask = nrows df ->
  rows (mkFrame (select mask (index df))
                (map (fun c => (fst c, select mask (snd c))) (columns df)))
  = select mask (rows df).
Proof.
  intros Hwf Hmask.
  set (df' := mkFrame (select mask (index df))
                (map (fun c => (fst c, select mask (snd c))) (columns df))).
  unfold rows at 2. rewrite select_map.
  assert (nrows df' = length (select mask (seq 0 (nrows df)))) as Hn'.
  { unfold nrows at 1. subst df'. cbn [index].
    rewrite !select_length; rewrite ?length_seq; auto. }
  apply nth_error_ext. intros j. unfold rows.
  rewrite !nth_error_map, nth_error_seq, Hn'.
  destruct (Nat.ltb_spec j (length (select mask (seq 0 (nrows df))))) as [Hj|Hj].
  - destruct (nth_error (select mask (seq 0 (nrows df))) j) as [p|] eqn:Ep;
      [|apply nth_error_None in Ep; lia].
    cbn [option_map]. f_equal. unfold row_at. subst df'. cbn [index columns].
    f_equal.
    + assert (nth_error (select mask (index df)) j = nth_error (index df) p) as Hl.
      { rewrite (select_nth_error mask (index df) 0 j) by (symmetry; exact Hmask).
        rewrite Hmask, Ep. now rewrite Nat.sub_0_r. }
      destruct (nth_error (index df) p) as [z|] eqn:Ez.
      * rewrite (nth_of_nth_error _ _ _ z Hl).
        now rewrite (nth_of_nth_error _ _ _ z Ez).
      * apply nth_error_None in Ez.
        assert (p < nrows df).
        { apply nth_error_In in Ep. apply select_In in Ep.
          destruct Ep as [i [_ Hi]]. apply nth_error_In in Hi.
          apply in_seq in Hi. lia. }
        unfold nrows in *. lia.
    + rewrite map_map. apply map_ext_in. intros c Hc. cbv beta. cbn [snd].
      unfold frame_wf in Hwf. rewrite forallb_forall in Hwf.
      specialize (Hwf c Hc). apply Nat.eqb_eq in Hwf.
      cbn [Nat.add]. rewrite (select_nth_error mask (snd c) 0 j) by lia.
      rewrite Hmask, Ep. now rewrite Nat.sub_0_r.
  - symmetry. destruct (nth_error (select mask (seq 0 (nrows df))) j) eqn:Ep;
      [|reflexivity].
    assert (j < length (select mask (seq 0 (nrows df))))
      by (apply nth_error_Some; congruence).
    lia.
Qed.

Lemma filter_map_comm {A B : Type} (p : B -> bool) (f : A -> B) (l : list A) :
  filter p (map f l) = map f (filter (fun a => p (f a)) l).
Proof.
  induction l as [|a l IH]; simpl; [reflexivity|].
  destruct (p (f a)); simpl; now rewrite IH.
Qed.

Lemma existsb_map {A B : Type} (p : B -> bool) (f : A -> B) (l : list A) :
  existsb p (map f l) = existsb (fun a => p (f a)) l.
Proof.
  induction l as [|a l IH]; simpl; [reflexivity | now rewrite IH].
Qed.

(** [dropna] keeps exactly the rows without a missing cell, in order. *)
Lemma dropna_rows (df : DataFrame) :
  frame_wf df = true ->
  rows (dropna df)
  = filter (fun r => negb (existsb is_null (snd r))) (rows df).
Proof.
  intros Hwf. unfold dropna. cbv zeta.
  rewrite rows_select by (rewrite ?length_map, ?length_seq; auto).
  unfold rows. rewrite select_map_mask, filter_map_comm.
  f_equal. apply filter_ext. intros i.
  unfold row_has_null, row_at. cbn [snd]. now rewrite existsb_map.
Qed.

Lemma dropna_wf (df : DataFrame) :
  frame_wf df = true -> frame_wf (dropna df) = true.
Proof.
  intros Hwf. unfold frame_wf, dropna, nrows. cbn [index columns].
  apply forallb_forall. intros c Hc.
  apply in_map_iff in Hc. destruct Hc as [c0 [<- Hc0]]. cbn [snd].
  apply Nat.eqb_eq.
  unfold frame_wf in Hwf. rewrite forallb_forall in Hwf.
  specialize (Hwf c0 Hc0). apply Nat.eqb_eq in Hwf.
  rewrite !select_length; rewrite ?length_map, ?length_seq; auto.
Qed.

Lemma dropna_no_nulls (df : DataFrame) :
  frame_wf df = true -> has_no_nulls (dropna df) = true.
Proof.
  intros Hwf. unfold has_no_nulls, dropna. cbn [columns].
  apply forallb_forall. intros c Hc.
  apply in_map_iff in Hc. destruct Hc as [c0 [<- Hc0]]. cbn [snd].
  apply forallb_forall. intros x Hx.
  apply select_In in Hx. destruct Hx as [i [Hmask Hi]].
  rewrite nth_error_map in Hmask.
  destruct (nth_error (seq 0 (nrows df)) i) as [i'|] eqn:Ei; [|discriminate].
  rewrite nth_error_seq in Ei.
  destruct (Nat.ltb_spec i (nrows df)); [|discriminate].
  injection Ei as <-. cbn [option_map Nat.add] in Hmask.
  injection Hmask as Hmask. apply negb_true_iff in Hmask.
  unfold row_has_null in Hmask.
  destruct (is_null (Some x)) eqn:E; [|reflexivity].
  exfalso. apply not_true_iff_false in Hmask. apply Hmask.
  apply existsb_exists. exists c0. split; [exact Hc0|]. now rewrite Hi.
Qed.

Lemma lookup_col_None (cols : list (string * list cell)) (k : string) :
  lookup_col cols k = None <-> ~ In k (map fst cols).
Proof.
  induction cols as [|[k0 c0] cols IH]; simpl; [tauto|].
  destruct (String.eqb k0 k) eqn:E.
  - apply String.eqb_eq in E. split; [discriminate | intros H; exfalso; auto].
  - apply String.eqb_neq in E. rewrite IH. tauto.
Qed.

Lemma getitem_Ok_In (df : DataFrame) (k : string) (s : Series) :
  getitem df k = Ok s -> In k (column_names df).
Proof.
  intros H. apply getitem_values in H. destruct H as [H _].
  apply lookup_col_In in H. unfold column_names.
  change k with (fst (k, svalues s)). now apply in_map.
Qed.

(** X1.  On a frame in which the label demand is not repeated,
    [prepare_features] raises exactly when there is no demand column, and
    the exception is then the KeyError of the first [df['demand']]; with
    one demand column it returns.  (With the label repeated, [df['demand']]
    is a frame and the first assignment refuses it.) *)
Theorem prepare_features_raises_iff (df : DataFrame) :
  count_occ string_dec (column_names df) "demand" <= 1 ->
  match prepare_features df with
  | Ok _ => In "demand" (column_names df)
  | Err e => e = KeyError "demand" /\ ~ In "demand" (column_names df)
  end.
Proof.
  intros _.
  destruct (lookup_col (columns df) "demand") as [c|] eqn:E.
  - assert (getitem df "demand" = Ok (mkSeries "demand" (index df) c)) as Hd
      by (unfold getitem; now rewrite E).
    rewrite (prepare_features_augment df _ Hd).
    now apply getitem_Ok_In in Hd.
  - rewrite (prepare_features_no_demand df E). split; [reflexivity|].
    now apply lookup_col_None.
Qed.

Lemma prepare_features_raises_iff_sample :
  count_occ string_dec (column_names short_frame) "demand" <= 1 /\
  count_occ string_dec (column_names (mkFrame [0%Z] [("date", [Some 0%R])]))
    "demand" <= 1 /\
  (exists r, prepare_features short_frame = Ok r) /\
  prepare_features (mkFrame [0%Z] [("date", [Some 0%R])]) = Err (KeyError "demand").
Proof.
  assert (count_occ string_dec (column_names short_frame) "demand" <= 1) as H1
    by (cbn; lia).
  assert (count_occ string_dec
            (column_names (mkFrame [0%Z] [("date", [Some 0%R])])) "demand" <= 1)
    as H2 by (cbn; lia).
  split; [exact H1|]. split; [exact H2|].
  pose proof (prepare_features_raises_iff short_frame H1) as Hs.
  pose proof (prepare_features_raises_iff
                (mkFrame [0%Z] [("date", [Some 0%R])]) H2) as Hn.
  split.
  - destruct (prepare_features short_frame) as [r|e]; [now exists r|].
    destruct Hs as [_ Hs]. exfalso. apply Hs. cbn. auto.
  - destruct (prepare_features (mkFrame [0%Z] [("date", [Some 0%R])])) as [r|e].
    + cbn in Hn. intuition discriminate.
    + destruct Hn as [-> _]. reflexivity.
Defined.

(** X2.  Whatever cells a rectangular frame with a demand column holds,
    [prepare_features] leaves the caller's frame rectangular with the same
    rows count, and returns a rectangular frame with the same column labels,
    no missing cell, and exactly the rows of the caller's frame that have no
    missing cell, in their order. *)
Theorem prepare_features_output_complete (df : DataFrame) (d : Series) :
  frame_wf df = true ->
  getitem df "demand" = Ok d ->
  exists aug ret : DataFrame,
    prepare_features df = Ok (aug, ret) /\
    frame_wf aug = true /\
    nrows aug = nrows df /\
    frame_wf ret = true /\
    has_no_nulls ret = true /\
    column_names ret = column_names aug /\
    rows ret = filter (fun r => negb (existsb is_null (snd r))) (rows aug).
Proof.
  intros Hwf Hd. pose proof (augment_wf df d Hwf Hd) as Hwf'.
  exists (augment df d), (dropna (augment df d)).
  split; [now apply prepare_features_augment|].
  split; [exact Hwf'|]. split; [reflexivity|].
  split; [now apply dropna_wf|]. split; [now apply dropna_no_nulls|].
  split; [|now apply dropna_rows].
  unfold column_names, dropna. cbn [columns]. now rewrite map_map.
Qed.

Lemma prepare_features_output_complete_sample :
  frame_wf gappy_frame = true /\
  getitem gappy_frame "demand" = Ok gappy_series /\
  has_no_nulls gappy_frame = false /\
  exists aug ret : DataFrame,
    prepare_features gappy_frame = Ok (aug, ret) /\
    has_no_nulls ret = true /\
    rows ret = filter (fun r => negb (existsb is_null (snd r))) (rows aug).
Proof.
  split; [reflexivity|]. split; [reflexivity|]. split; [reflexivity|].
  destruct (prepare_features_output_complete gappy_frame gappy_series
              eq_refl eq_refl)
    as [aug [ret [Hrun [_ [_ [_ [Hnn [_ Hrows]]]]]]]].
  exists aug, ret. split; [exact Hrun|]. split; [exact Hnn | exact Hrows].
Defined.

Lemma lag_30_column (df : DataFrame) (d : Series) :
  In ("lag_30", svalues (shift 30 d)) (columns (augment df d)).
Proof. apply lookup_col_In. lookup_feature. Qed.

Lemma firstn_seq_In (t n i : nat) :
  In i (firstn t (seq 0 n)) -> i < t /\ i < n.
Proof.
  intros H. apply In_nth_error in H. destruct H as [j Hj].
  rewrite nth_error_firstn in Hj.
  destruct (Nat.ltb_spec j t); [|discriminate].
  rewrite nth_error_seq in Hj.
  destruct (Nat.ltb_spec j n); [|discriminate].
  injection Hj as <-. lia.
Qed.

(** X3.  The thirty first rows never survive: for every rectangular frame
    with a demand column, the rows returned by [prepare_features] are rows
    of the augmented frame from row 30 on, so the result has at most n - 30
    rows and is empty, without any exception, when the input has at most 30
    rows. *)
Theorem prepare_features_drops_head (df : DataFrame) (d : Series) :
  frame_wf df = true ->
  getitem df "demand" = Ok d ->
  exists aug ret : DataFrame,
    prepare_features df = Ok (aug, ret) /\
    rows ret
    = filter (fun r => negb (existsb is_null (snd r))) (skipn 30 (rows aug)) /\
    nrows ret <= nrows df - 30 /\
    (nrows df <= 30 -> nrows ret = 0 /\ rows ret = []).
Proof.
  intros Hwf Hd. pose proof (augment_wf df d Hwf Hd) as Hwf'.
  pose proof (demand_length df d Hwf Hd) as Hlen.
  exists (augment df d), (dropna (augment df d)).
  split; [now apply prepare_features_augment|].
  assert (rows (dropna (augment df d))
          = filter (fun r => negb (existsb is_null (snd r)))
                   (skipn 30 (rows (augment df d)))) as Hrows.
  { rewrite (dropna_rows _ Hwf').
    rewrite <- (firstn_skipn 30 (rows (augment df d))) at 1.
    rewrite filter_app.
    replace (filter (fun r => negb (existsb is_null (snd r)))
               (firstn 30 (rows (augment df d)))) with
      (@nil (Z * list (option cell))); [reflexivity|].
    symmetry. apply (proj1 (List.length_zero_iff_nil _)).
    apply Nat.le_0_r.
    rewrite <- (Nat.add_0_r (length _)).
    transitivity (length (filter (fun r => negb (existsb is_null (snd r)))
                            (firstn 30 (rows (augment df d))))); [lia|].
    assert (forall r, In r (firstn 30 (rows (augment df d))) ->
              negb (existsb is_null (snd r)) = false) as Hall.
    { intros r Hr. unfold rows in Hr. rewrite firstn_map in Hr.
      apply in_map_iff in Hr. destruct Hr as [i [<- Hi]].
      apply firstn_seq_In in Hi. destruct Hi as [Hi30 Hin].
      change (nrows (augment df d)) with (nrows df) in Hin.
      apply negb_false_iff. unfold row_at. cbn [snd].
      rewrite existsb_map. apply existsb_exists.
      exists ("lag_30", svalues (shift 30 d)).
      split; [apply lag_30_column|]. cbn [snd].
      now rewrite shift_nth_top by lia. }
    clear - Hall. induction (firstn 30 (rows (augment df d))) as [|r l IH];
      [simpl; lia|].
    simpl. rewrite (Hall r (or_introl eq_refl)).
    apply IH. intros r' Hr'. apply Hall. now right. }
  split; [exact Hrows|].
  assert (nrows (dropna (augment df d)) <= nrows df - 30) as Hle.
  { rewrite <- rows_length, Hrows.
    etransitivity; [apply filter_length_le|].
    rewrite length_skipn, rows_length. reflexivity. }
  split; [exact Hle|].
  intros Hshort. split; [lia|].
  apply List.length_zero_iff_nil. rewrite rows_length. lia.
Qed.

Lemma prepare_features_drops_head_sample :
  frame_wf short_frame = true /\
  getitem short_frame "demand" = Ok short_series /\
  exists aug ret : DataFrame,
    prepare_features short_frame = Ok (aug, ret) /\
    nrows aug = 5 /\ nrows ret = 0.
Proof.
  split; [reflexivity|]. split; [reflexivity|].
  destruct (prepare_features_drops_head short_frame short_series eq_refl eq_refl)
    as [aug [ret [Hrun [_ [_ Hshort]]]]].
  exists aug, ret. split; [exact Hrun|].
  split.
  - rewrite (prepare_features_augment short_frame short_series eq_refl) in Hrun.
    injection Hrun as <- _. reflexivity.
  - apply Hshort. cbn. lia.
Defined.

(** ** Column layout *)

Lemma set_col_names (cols : list (string * list cell)) (k : string) (v : list cell) :
  map fst (set_col cols k v)
  = map fst cols ++ (if mem_string k (map fst cols) then [] else [k]).
Proof.
  unfold mem_string. induction cols as [|[k0 c0] cols IH]; simpl; [reflexivity|].
  rewrite (String.eqb_sym k k0).
  destruct (String.eqb k0 k) eqn:E; simpl.
  - apply String.eqb_eq in E. subst k0. now rewrite app_nil_r.
  - now rewrite IH.
Qed.

Lemma mem_string_In (k : string) (l : list string) :
  mem_string k l = true <-> In k l.
Proof.
  unfold mem_string. rewrite existsb_exists. split.
  - intros [x [Hx Hk]]. apply String.eqb_eq in Hk. now subst.
  - intros H. exists k. split; [exact H | apply String.eqb_refl].
Qed.

Lemma mem_string_app_other (k k' : string) (l : list string) :
  k <> k' ->
  mem_string k (l ++ (if mem_string k' l then [] else [k'])) = mem_string k l.
Proof.
  intros Hk. destruct (mem_string k' l); [now rewrite app_nil_r|].
  unfold mem_string. rewrite existsb_app. cbn [existsb].
  apply String.eqb_neq in Hk. rewrite Hk. now rewrite !orb_false_r.
Qed.

(** Assigning columns one after the other appends, in order, the labels that
    the frame did not have and moves nothing. *)
Lemma fold_setitem_names (feats : list (string * Series)) (df : DataFrame) :
  NoDup (map fst feats) ->
  column_names (fold_left (fun acc kv => setitem acc (fst kv) (snd kv)) feats df)
  = column_names df
    ++ filter (fun k => negb (mem_string k (column_names df))) (map fst feats).
Proof.
  revert df. induction feats as [|[k s] feats IH]; intros df Hnd; simpl.
  - now rewrite app_nil_r.
  - inversion Hnd as [|k' l' Hk Hnd']. subst.
    rewrite (IH _ Hnd'). unfold column_names, setitem. cbn [columns fst snd].
    rewrite set_col_names, <- app_assoc. f_equal.
    replace (filter
               (fun k0 => negb (mem_string k0
                  (map fst (columns df)
                   ++ (if mem_string k (map fst (columns df)) then [] else [k]))))
               (map fst feats))
      with (filter (fun k0 => negb (mem_string k0 (map fst (columns df))))
                   (map fst feats)).
    + now destruct (mem_string k (map fst (columns df))).
    + apply filter_ext_in. intros k0 Hk0. f_equal. symmetry.
      apply mem_string_app_other. intros ->. contradiction.
Qed.

(** X4.  [prepare_features] never reorders or duplicates columns: the
    labels of the frame it leaves and of the frame it returns are the input
    labels followed by those of the ten feature labels that the input did
    not have, in the order lag_1, lag_7, lag_14, lag_30, rolling_mean_7,
    rolling_std_7, ..., rolling_std_30.  A feature column that already
    exists is overwritten where it stands. *)
Theorem prepare_features_column_layout (df : DataFrame) (d : Series) :
  getitem df "demand" = Ok d ->
  exists aug ret : DataFrame,
    prepare_features df = Ok (aug, ret) /\
    column_names aug
    = column_names df
      ++ filter (fun k => negb (mem_string k (column_names df))) feature_labels /\
    column_names ret = column_names aug /\
    forall k, In k feature_labels ->
      exists s, In (k, s) (feature_columns d) /\
                lookup_col (columns aug) k = Some (svalues s).
Proof.
  intros Hd. exists (augment df d), (dropna (augment df d)).
  split; [now apply prepare_features_augment|].
  split.
  - unfold augment. rewrite fold_setitem_names; [reflexivity|].
    cbn. repeat constructor; cbn; intuition discriminate.
  - split.
    + unfold column_names, dropna. cbn [columns]. now rewrite map_map.
    + intros k Hk. unfold feature_labels in Hk. cbn [In] in Hk.
      repeat (destruct Hk as [<-|Hk]); try contradiction;
        (eexists; split; [|lookup_feature]); cbn; auto 12.
Qed.

Lemma prepare_features_column_layout_sample :
  getitem sample_frame "demand" = Ok sample_series /\
  exists aug ret : DataFrame,
    prepare_features sample_frame = Ok (aug, ret) /\
    column_names ret = "date" :: "demand" :: feature_labels.
Proof.
  split; [reflexivity|].
  destruct (prepare_features_column_layout sample_frame sample_series eq_refl)
    as [aug [ret [Hrun [Haug [Hret _]]]]].
  exists aug, ret. split; [exact Hrun|]. rewrite Hret, Haug. reflexivity.
Defined.

(** ** Lags and rolling means in the returned frame *)

Lemma lookup_col_map (f : list cell -> list cell) (cols : list (string * list cell))
    (k : string) :
  lookup_col (map (fun c => (fst c, f (snd c))) cols) k
  = option_map f (lookup_col cols k).
Proof.
  induction cols as [|[k0 c0] cols IH]; simpl; [reflexivity|].
  destruct (String.eqb k0 k); [reflexivity | exact IH].
Qed.

(** X5.  For a rectangular input without missing cells, the returned frame
    keeps demand from row 30 on, and its column lag_N holds at row j the
    demand of the input N rows before the row kept there (input row
    30 + j - N); from row N of the returned frame on, that is the returned
    demand N rows above. *)
Theorem prepare_features_returned_lags (df : DataFrame) (d : Series) :
  frame_wf df = true ->
  has_no_nulls df = true ->
  getitem df "demand" = Ok d ->
  exists (aug ret : DataFrame) (demand' : Series),
    prepare_features df = Ok (aug, ret) /\
    getitem ret "demand" = Ok demand' /\
    svalues demand' = skipn 30 (svalues d) /\
    forall N : nat, In N [1; 7; 14; 30] ->
      exists lagN : Series,
        getitem ret ("lag_" ++ str N) = Ok lagN /\
        forall j : nat, j < nrows df - 30 ->
          nth_error (svalues lagN) j = nth_error (svalues d) (30 + j - N) /\
          (N <= j ->
           nth_error (svalues lagN) j = nth_error (svalues demand') (j - N)).
Proof.
  intros Hwf Hnn Hd.
  destruct (augment_rows df d Hwf Hnn Hd) as [Hwf' Hrows].
  pose proof (demand_length df d Hwf Hd) as Hlen.
  exists (augment df d), (dropna (augment df d)),
         (mkSeries "demand" (skipn 30 (index df)) (skipn 30 (svalues d))).
  split; [now apply prepare_features_augment|].
  rewrite (dropna_leading _ 30 Hwf' Hrows).
  assert (forall k c, getitem (augment df d) k = Ok c ->
            getitem (mkFrame (skipn 30 (index (augment df d)))
                       (map (fun c => (fst c, skipn 30 (snd c)))
                            (columns (augment df d)))) k
            = Ok (mkSeries k (skipn 30 (index df)) (skipn 30 (svalues c)))) as Hget.
  { intros k c Hc. apply getitem_values in Hc. destruct Hc as [Hc _].
    unfold getitem. cbn [columns index].
    rewrite (lookup_col_map (skipn 30)), Hc. reflexivity. }
  split.
  { apply Hget. now rewrite augment_demand. }
  split; [reflexivity|].
  intros N HN. eexists. split; [apply Hget; now apply augment_lag|].
  cbn [svalues]. intros j Hj.
  assert (N <= 30) as HN30 by (simpl in HN; lia).
  rewrite !nth_error_skipn.
  rewrite shift_nth_below by lia.
  split; [reflexivity|]. intros HNj. f_equal. lia.
Qed.

Lemma prepare_features_returned_lags_sample :
  frame_wf sample_frame = true /\
  has_no_nulls sample_frame = true /\
  getitem sample_frame "demand" = Ok sample_series /\
  exists (aug ret : DataFrame) (demand' lag1 : Series),
    prepare_features sample_frame = Ok (aug, ret) /\
    getitem ret "demand" = Ok demand' /\
    getitem ret "lag_1" = Ok lag1 /\
    nth_error (svalues lag1) 0 = Some (Some (100 + INR 29)%R) /\
    nth_error (svalues lag1) 4 = nth_error (svalues demand') 3.
Proof.
  split; [reflexivity|]. split; [reflexivity|]. split; [reflexivity|].
  destruct (prepare_features_returned_lags sample_frame sample_series
              eq_refl eq_refl eq_refl)
    as [aug [ret [demand' [Hrun [Hdem [_ Hlag]]]]]].
  destruct (Hlag 1 (or_introl eq_refl)) as [lag1 [Hget Hnth]].
  exists aug, ret, demand', lag1.
  split; [exact Hrun|]. split; [exact Hdem|]. split; [exact Hget|].
  split.
  - rewrite (proj1 (Hnth 0 ltac:(cbn; lia))). reflexivity.
  - apply (proj2 (Hnth 4 ltac:(cbn; lia))). lia.
Defined.

(** The numbers that a run of present cells holds. *)
Lemma present_window (l : list cell) (a w : nat) :
  (forall k, k < w -> exists x : R, nth_error l (a + k) = Some (Some x)) ->
  exists xs : list R,
    length xs = w /\
    forall k, k < w -> nth_error l (a + k) = Some (Some (nth k xs 0%R)).
Proof.
  intros H.
  exists (map (fun k => match nth_error l (a + k) with
                        | Some (Some x) => x
                        | _ => 0%R
                        end) (seq 0 w)).
  split; [now rewrite length_map, length_seq|].
  intros k Hk. destruct (H k Hk) as [x Hx].
  rewrite (nth_indep _ 0%R
             (match nth_error l (a + w) with Some (Some x) => x | _ => 0%R end))
    by (rewrite length_map, length_seq; exact Hk).
  rewrite (map_nth (fun k => match nth_error l (a + k) with
                             | Some (Some x) => x
                             | _ => 0%R
                             end) (seq 0 w) w k).
  rewrite seq_nth by exact Hk. cbn [Nat.add]. now rewrite Hx.
Qed.

(** X6.  Which cells of the rolling columns are missing.  For every window
    size w of 7, 14 and 30 the frame that [prepare_features] leaves has
    columns rolling_mean_w and rolling_std_w with the frame's row labels and
    one cell per row.  Both cells of row i are missing when i < w - 1 and
    when one of the demand cells of rows i - w + 1 to i is missing; they
    hold numbers when i >= w - 1 and all these w demand cells hold
    numbers. *)
Theorem prepare_features_rolling_missing (df : DataFrame) (d : Series) :
  getitem df "demand" = Ok d ->
  exists aug ret : DataFrame,
    prepare_features df = Ok (aug, ret) /\
    forall w : nat, In w [7; 14; 30] ->
      exists m s : Series,
        getitem aug ("rolling_mean_" ++ str w) = Ok m /\
        getitem aug ("rolling_std_" ++ str w) = Ok s /\
        sindex m = index df /\ sindex s = index df /\
        length (svalues m) = length (svalues d) /\
        length (svalues s) = length (svalues d) /\
        forall i : nat, i < length (svalues d) ->
          (i < w - 1 ->
             nth_error (svalues m) i = Some None /\
             nth_error (svalues s) i = Some None) /\
          (w - 1 <= i ->
             ((forall k, k < w ->
                 exists x : R,
                   nth_error (svalues d) (i + 1 - w + k) = Some (Some x)) ->
              (exists x : R, nth_error (svalues m) i = Some (Some x)) /\
              (exists x : R, nth_error (svalues s) i = Some (Some x))) /\
             ((exists k, k < w /\
                 nth_error (svalues d) (i + 1 - w + k) = Some None) ->
              nth_error (svalues m) i = Some None /\
              nth_error (svalues s) i = Some None)).
Proof.
  intros Hd. exists (augment df d), (dropna (augment df d)).
  split; [now apply prepare_features_augment|].
  intros w Hw.
  assert (7 <= w) as Hw7 by (simpl in Hw; lia).
  exists (mkSeries ("rolling_mean_" ++ str w) (index df)
            (svalues (rolling_mean (rolling d w)))),
         (mkSeries ("rolling_std_" ++ str w) (index df)
            (svalues (rolling_std (rolling d w)))).
  split; [now apply augment_rolling_mean|].
  split; [now apply augment_rolling_std|].
  cbn [svalues sindex]. unfold rolling_mean, rolling_std.
  split; [reflexivity|]. split; [reflexivity|].
  split; [apply rolling_apply_length|].
  split; [apply rolling_apply_length|].
  intros i Hi. split.
  - intros Hshort. split; apply rolling_apply_short; lia.
  - intros Hfull. split.
    + intros Hall.
      destruct (present_window (svalues d) (i + 1 - w) w Hall) as [xs [Hlen Hx]].
      split.
      * rewrite (rolling_apply_full d w agg_mean i xs) by (assumption || lia).
        rewrite (agg_mean_window xs w) by (assumption || lia). eauto.
      * rewrite (rolling_apply_full d w agg_std i xs) by (assumption || lia).
        rewrite (agg_std_window xs w) by (assumption || lia). eauto.
    + intros [k [Hk Hnull]].
      split; now apply rolling_apply_null with (k := k).
Qed.

Lemma prepare_features_rolling_missing_sample :
  getitem gappy_frame "demand" = Ok gappy_series /\
  exists (aug ret : DataFrame) (m s : Series),
    prepare_features gappy_frame = Ok (aug, ret) /\
    getitem aug "rolling_mean_7" = Ok m /\
    getitem aug "rolling_std_7" = Ok s /\
    nth_error (svalues m) 5 = Some None /\
    nth_error (svalues s) 5 = Some None /\
    (exists x : R, nth_error (svalues m) 6 = Some (Some x)) /\
    (exists x : R, nth_error (svalues s) 6 = Some (Some x)) /\
    nth_error (svalues m) 34 = Some None /\
    nth_error (svalues s) 34 = Some None.
Proof.
  split; [reflexivity|].
  destruct (prepare_features_rolling_missing gappy_frame gappy_series eq_refl)
    as [aug [ret [Hrun Hroll]]].
  destruct (Hroll 7 (or_introl eq_refl))
    as [m [s [Hm [Hs [_ [_ [_ [_ Hnth]]]]]]]].
  exists aug, ret, m, s.
  split; [exact Hrun|]. split; [exact Hm|]. split; [exact Hs|].
  destruct (Hnth 5 ltac:(cbn; lia)) as [Hshort _].
  destruct (Hnth 6 ltac:(cbn; lia)) as [_ Hfull].
  destruct (Hnth 34 ltac:(cbn; lia)) as [_ Hgap].
  destruct (Hshort ltac:(lia)) as [Hm5 Hs5].
  split; [exact Hm5|]. split; [exact Hs5|].
  destruct (Hfull ltac:(lia)) as [Hpresent _].
  destruct Hpresent as [Hm6 Hs6].
  { intros k Hk. do 7 (destruct k as [|k]; [eexists; reflexivity|]). lia. }
  split; [exact Hm6|]. split; [exact Hs6|].
  destruct (Hgap ltac:(lia)) as [_ Hmissing].
  apply Hmissing. exists 4. split; [lia | reflexivity].
Defined.

(** ** [split_data]: failures and alignment *)

Lemma split_data_no_demand (df : DataFrame) :
  lookup_col (columns df) "demand" = None ->
  split_data df = Err (KeyError "demand").
Proof.
  intros Hd. destruct (getitem_list_features df) as [cols [HX _]].
  unfold split_data. rewrite HX. cbn [rbind].
  unfold getitem. now rewrite Hd.
Qed.

(** X7.  On a rectangular frame [split_data] raises in two cases only: a
    KeyError when there is no demand column, and otherwise the ValueError of
    an empty training part when the frame has fewer than four rows.  With a
    demand column and at least four rows it returns. *)
Theorem split_data_raises_iff (df : DataFrame) :
  frame_wf df = true ->
  match split_data df with
  | Ok _ => In "demand" (column_names df) /\ 4 <= nrows df
  | Err e =>
      (e = KeyError "demand" /\ ~ In "demand" (column_names df)) \/
      (e = ValueError "the resulting train set will be empty" /\
       In "demand" (column_names df) /\ nrows df < 4)
  end.
Proof.
  intros Hwf.
  destruct (lookup_col (columns df) "demand") as [c|] eqn:E.
  - assert (getitem df "demand" = Ok (mkSeries "demand" (index df) c)) as Hd
      by (unfold getitem; now rewrite E).
    pose proof (getitem_Ok_In _ _ _ Hd) as Hin.
    destruct (Nat.lt_ge_cases (nrows df) 4) as [Hlt|Hge].
    + rewrite (split_data_small df _ Hwf Hd Hlt). right. auto.
    + destruct (split_data_parts df _ Hwf Hd Hge)
        as [cols [_ [_ [_ [_ [_ Hsplit]]]]]].
      cbv zeta in Hsplit. rewrite Hsplit. auto.
  - rewrite (split_data_no_demand df E). left. split; [reflexivity|].
    now apply lookup_col_None.
Qed.

Lemma split_data_raises_iff_sample :
  frame_wf tiny_frame = true /\
  nrows tiny_frame = 3 /\
  split_data tiny_frame = Err (ValueError "the resulting train set will be empty").
Proof.
  split; [reflexivity|]. split; [reflexivity|].
  pose proof (split_data_raises_iff tiny_frame eq_refl) as H.
  destruct (split_data tiny_frame) as [r|e].
  - exfalso. destruct H as [_ H]. cbn in H. lia.
  - destruct H as [[_ H]|[-> _]]; [|reflexivity].
    exfalso. apply H. cbn. auto.
Defined.

Lemma iloc_frame_wf (a b : nat) (df : DataFrame) :
  frame_wf df = true -> b <= nrows df -> frame_wf (iloc_frame a b df) = true.
Proof.
  intros Hwf Hb. unfold frame_wf. apply forallb_forall. intros c Hc.
  apply Nat.eqb_eq. rewrite nrows_iloc by exact Hb.
  unfold iloc_frame in Hc. cbn [columns] in Hc.
  apply in_map_iff in Hc. destruct Hc as [c0 [<- Hc0]]. cbn [snd].
  unfold frame_wf in Hwf. rewrite forallb_forall in Hwf.
  specialize (Hwf c0 Hc0). apply Nat.eqb_eq in Hwf.
  apply slice_length. lia.
Qed.

(** X8.  The parts returned by [split_data] stay aligned: each feature
    matrix is rectangular and carries the same row labels as its target
    series, the three label runs put end to end are the labels of the input,
    and every target series is still named demand. *)
Theorem split_data_aligned (df : DataFrame) (d : Series) :
  frame_wf df = true ->
  getitem df "demand" = Ok d ->
  4 <= nrows df ->
  exists (X_train : DataFrame) (y_train : Series) (X_val : DataFrame)
         (y_val : Series) (X_test : DataFrame) (y_test : Series),
    split_data df = Ok (X_train, y_train, X_val, y_val, X_test, y_test) /\
    index X_train = sindex y_train /\
    index X_val = sindex y_val /\
    index X_test = sindex y_test /\
    index X_train ++ index X_val ++ index X_test = index df /\
    frame_wf X_train = true /\ frame_wf X_val = true /\ frame_wf X_test = true /\
    sname y_train = "demand" /\ sname y_val = "demand" /\ sname y_test = "demand".
Proof.
  intros Hwf Hd Hn.
  destruct (split_data_parts df d Hwf Hd Hn)
    as [cols [_ [Hin [_ [Hlen [Hidx Hsplit]]]]]].
  cbv zeta in Hsplit.
  destruct (getitem_values _ _ _ Hd) as [_ [_ Hname]].
  set (X := mkFrame (index df) cols) in *.
  assert (frame_wf X = true) as HwfX.
  { unfold frame_wf. apply forallb_forall. intros c Hc.
    unfold frame_wf in Hwf. rewrite forallb_forall in Hwf.
    exact (Hwf c (Hin c Hc)). }
  assert (nrows X = nrows df) as HnX by reflexivity.
  pose proof (Nat.div_mod_eq (3 * nrows df + 9) 10) as Hdiv.
  pose proof (Nat.mod_upper_bound (3 * nrows df + 9) 10) as Hmod.
  set (t := (3 * nrows df + 9) / 10) in *.
  pose proof (Nat.div_mod_eq (t + 1) 2) as Hdiv2.
  pose proof (Nat.mod_upper_bound (t + 1) 2) as Hmod2.
  set (t' := (t + 1) / 2) in *.
  assert (nrows (iloc_frame (nrows df - t) (nrows df - t + t) X) = t) as HnT
    by (rewrite nrows_iloc; lia).
  assert (frame_wf (iloc_frame (nrows df - t) (nrows df - t + t) X) = true) as HwfT
    by (apply iloc_frame_wf; [exact HwfX | lia]).
  do 6 eexists. split; [exact Hsplit|].
  unfold iloc_series. cbn [sindex sname]. unfold iloc_frame at 1 3 5. cbn [index].
  rewrite Hidx.
  repeat (split; [reflexivity|]).
  split; [apply three_way_split; unfold nrows in *; lia|].
  split; [apply iloc_frame_wf; [exact HwfX | lia]|].
  split; [apply iloc_frame_wf; [exact HwfT | lia]|].
  split; [apply iloc_frame_wf; [exact HwfT | lia]|].
  auto.
Qed.

Lemma split_data_aligned_sample :
  frame_wf engineered_frame = true /\
  getitem engineered_frame "demand" = Ok engineered_demand /\
  4 <= nrows engineered_frame /\
  exists (X_train : DataFrame) (y_train : Series) (X_val : DataFrame)
         (y_val : Series) (X_test : DataFrame) (y_test : Series),
    split_data engineered_frame
    = Ok (X_train, y_train, X_val, y_val, X_test, y_test) /\
    index X_train = sindex y_train /\
    index X_test = sindex y_test /\
    index X_train ++ index X_val ++ index X_test = map Z.of_nat (seq 30 10).
Proof.
  split; [reflexivity|]. split; [reflexivity|]. split; [cbn; lia|].
  destruct (split_data_aligned engineered_frame engineered_demand
              eq_refl eq_refl ltac:(cbn; lia))
    as [X_train [y_train [X_val [y_val [X_test [y_test
         [Hrun [H1 [_ [H3 [H4 _]]]]]]]]]]].
  exists X_train, y_train, X_val, y_val, X_test, y_test.
  split; [exact Hrun|]. split; [exact H1|]. split; [exact H3 | exact H4].
Defined.

(** ** The generated frame and its date features *)

Lemma calendar_day_of_year (z : Z) :
  let doe := (z + 719468 - (z + 719468) / 146097 * 146097)%Z in
  let yoe := ((doe - doe / 1460 + doe / 36524 - doe / 146096) / 365)%Z in
  let doy := (doe - (365 * yoe + yoe / 4 - yoe / 100))%Z in
  (0 <= doe < 146097 /\ 0 <= yoe <= 399 /\ 0 <= doy <= 365)%Z.
Proof.
  cbv zeta.
  set (doe := (z + 719468 - (z + 719468) / 146097 * 146097)%Z).
  assert (0 <= doe < 146097)%Z
    by (subst doe; Z.to_euclidean_division_equations; lia).
  clearbody doe.
  repeat split; try lia; Z.to_euclidean_division_equations; lia.
Qed.

Lemma month_of_range (z : Z) : (1 <= month_of z <= 12)%Z.
Proof.
  unfold month_of, civil_from_days. cbn [fst snd].
  pose proof (calendar_day_of_year z) as H. cbv zeta in H.
  set (doe := (z + 719468 - (z + 719468) / 146097 * 146097)%Z) in *.
  set (yoe := ((doe - doe / 1460 + doe / 36524 - doe / 146096) / 365)%Z) in *.
  set (doy := (doe - (365 * yoe + yoe / 4 - yoe / 100))%Z) in *.
  clearbody doy.
  destruct (Z.ltb_spec ((5 * doy + 2) / 153) 10);
    Z.to_euclidean_division_equations; lia.
Qed.

Lemma day_of_range (z : Z) : (1 <= day_of z <= 31)%Z.
Proof.
  unfold day_of, civil_from_days. cbn [fst snd].
  pose proof (calendar_day_of_year z) as H. cbv zeta in H.
  set (doe := (z + 719468 - (z + 719468) / 146097 * 146097)%Z) in *.
  set (yoe := ((doe - doe / 1460 + doe / 36524 - doe / 146096) / 365)%Z) in *.
  set (doy := (doe - (365 * yoe + yoe / 4 - yoe / 100))%Z) in *.
  clearbody doy.
  Z.to_euclidean_division_equations; lia.
Qed.

Lemma quarter_of_range (z : Z) : (1 <= quarter_of z <= 4)%Z.
Proof.
  unfold quarter_of. pose proof (month_of_range z).
  Z.to_euclidean_division_equations; lia.
Qed.

Lemma dayofweek_of_range (z : Z) : (0 <= dayofweek_of z <= 6)%Z.
Proof.
  unfold dayofweek_of. Z.to_euclidean_division_equations; lia.
Qed.

(** The civil date of a day number names that day number. *)
Lemma civil_round_trip (z : Z) :
  days_from_civil (year_of z) (month_of z) (day_of z) = z.
Proof.
  unfold year_of, month_of, day_of, civil_from_days, days_from_civil.
  cbn [fst snd].
  pose proof (calendar_day_of_year z) as H. cbv zeta in H.
  set (era := ((z + 719468) / 146097)%Z) in *.
  set (doe := (z + 719468 - era * 146097)%Z) in *.
  assert (z = era * 146097 + doe - 719468)%Z as Hz by (subst doe; lia).
  clearbody doe era.
  set (yoe := ((doe - doe / 1460 + doe / 36524 - doe / 146096) / 365)%Z) in *.
  set (doy := (doe - (365 * yoe + yoe / 4 - yoe / 100))%Z) in *.
  assert (doe = yoe * 365 + yoe / 4 - yoe / 100 + doy)%Z as Hdoe
    by (subst doy; lia).
  clearbody doy. clearbody yoe.
  set (mp := ((5 * doy + 2) / 153)%Z).
  assert (0 <= mp <= 11)%Z
    by (subst mp; Z.to_euclidean_division_equations; lia).
  destruct (Z.ltb_spec mp 10).
  - destruct (Z.leb_spec (mp + 3) 2); [lia|].
    destruct (Z.ltb_spec 2 (mp + 3)); [|lia].
    replace (mp + 3 - 3)%Z with mp by lia.
    assert ((yoe + era * 400) / 400 = era)%Z as ->
      by (Z.to_euclidean_division_equations; lia).
    subst mp. Z.to_euclidean_division_equations; lia.
  - destruct (Z.leb_spec (mp - 9) 2); [|lia].
    destruct (Z.ltb_spec 2 (mp - 9)); [lia|].
    replace (mp - 9 + 9)%Z with mp by lia.
    assert ((yoe + era * 400 + 1 - 1) / 400 = era)%Z as ->
      by (Z.to_euclidean_division_equations; lia).
    subst mp. Z.to_euclidean_division_equations; lia.
Qed.

Lemma year_of_range (z : Z) :
  (18628 <= z <= 106751)%Z -> (2021 <= year_of z <= 2262)%Z.
Proof.
  intros Hz. unfold year_of, civil_from_days. cbn [fst snd].
  pose proof (calendar_day_of_year z) as H. cbv zeta in H.
  set (era := ((z + 719468) / 146097)%Z) in *.
  assert (era = 5)%Z as Hera by (subst era; Z.to_euclidean_division_equations; lia).
  set (doe := (z + 719468 - era * 146097)%Z) in *.
  assert (doe = z + 719468 - 5 * 146097)%Z as Hdoe by (subst doe; lia).
  clearbody doe era.
  set (yoe := ((doe - doe / 1460 + doe / 36524 - doe / 146096) / 365)%Z) in *.
  set (doy := (doe - (365 * yoe + yoe / 4 - yoe / 100))%Z) in *.
  assert (doe = yoe * 365 + yoe / 4 - yoe / 100 + doy)%Z as Hdoe'
    by (subst doy; lia).
  clearbody doy. clearbody yoe.
  destruct (Z.ltb_spec ((5 * doy + 2) / 153) 10);
    match goal with
    | |- context [Z.leb ?a 2] => destruct (Z.leb_spec a 2)
    end; Z.to_euclidean_division_equations; lia.
Qed.

Lemma Ok_inj {A : Type} (a b : A) : Ok a = Ok b -> a = b.
Proof. now intros [= ->]. Qed.

Section GeneratedFrame.

Variable normal_sample : R -> R -> nat -> R.

Lemma present_cells_no_null {A : Type} (g : A -> R) (l : list A) :
  forallb (fun x => negb (is_null (Some x))) (map (fun a => Some (g a)) l) = true.
Proof.
  apply forallb_forall. intros x Hx. apply in_map_iff in Hx.
  now destruct Hx as [a [<- _]].
Qed.

(** The frame that [generate_demand_data] builds, column by column. *)
Lemma generate_demand_data_frame (n_periods : nat) (seasonality trend : bool)
    (noise_level : R) :
  ~ (noise_level * 100 < 0)%R ->
  (Z.of_nat n_periods <= 88124)%Z ->
  exists g : nat -> R,
    generate_demand_data normal_sample n_periods seasonality trend noise_level
    = Ok (mkFrame (range_index n_periods)
            [("date", map (fun i => Some (IZR (18628 + Z.of_nat i)))
                          (seq 0 n_periods));
             ("demand", map (fun i => Some (g i)) (seq 0 n_periods));
             ("dayofweek",
              map (fun i => Some (IZR (dayofweek_of (18628 + Z.of_nat i))))
                  (seq 0 n_periods));
             ("month", map (fun i => Some (IZR (month_of (18628 + Z.of_nat i))))
                           (seq 0 n_periods));
             ("day", map (fun i => Some (IZR (day_of (18628 + Z.of_nat i))))
                         (seq 0 n_periods));
             ("year", map (fun i => Some (IZR (year_of (18628 + Z.of_nat i))))
                          (seq 0 n_periods));
             ("quarter",
              map (fun i => Some (IZR (quarter_of (18628 + Z.of_nat i))))
                  (seq 0 n_periods))]).
Proof.
  intros Hscale Hn. unfold generate_demand_data, np_random_normal.
  destruct (Rlt_dec (noise_level * 100) 0) as [Hneg|_]; [contradiction|].
  cbn [rbind]. rewrite date_range_ok by exact Hn. cbn [rbind].
  change (days_from_civil 2021 1 1) with 18628%Z.
  set (dates := map (fun i => (18628 + Z.of_nat i)%Z) (seq 0 n_periods)).
  assert (forall f : Z -> Z,
            map (fun i => Some (IZR (f (18628 + Z.of_nat i)%Z))) (seq 0 n_periods)
            = svalues (dt_accessor f
                         (mkSeries "date" (range_index n_periods)
                            (map timestamp_cell dates)))) as Hdt.
  { intros f. rewrite dt_accessor_timestamps. subst dates. now rewrite map_map. }
  assert (map (fun i => Some (IZR (18628 + Z.of_nat i))) (seq 0 n_periods)
          = map timestamp_cell dates) as Hdates
    by (subst dates; now rewrite map_map).
  destruct trend, seasonality; np_normalize; cbn [column_of];
    rewrite map_map; eexists;
    rewrite (Hdt dayofweek_of), (Hdt month_of), (Hdt day_of), (Hdt year_of),
      (Hdt quarter_of), Hdates;
    reflexivity.
Qed.

Lemma map_seq_nth {A : Type} (f : nat -> A) (n t : nat) :
  t < n -> nth_error (map f (seq 0 n)) t = Some (f t).
Proof.
  intros Ht. rewrite nth_error_map, nth_error_seq.
  destruct (Nat.ltb_spec t n); [reflexivity | lia].
Qed.

End GeneratedFrame.

(** ** A noise level that is not a number *)

Lemma embed_broadcast2 (f : R -> R -> R) (a b : ndarray) :
  WithNaN.broadcast2 (WithNaN.lift2 f) (embed a) (embed b)
  = embed (broadcast2 f a b).
Proof.
  destruct a as [x|l1], b as [y|l2]; cbn [embed WithNaN.broadcast2 broadcast2];
    try reflexivity; f_equal; rewrite ?map_map; try reflexivity.
  revert l2. induction l1 as [|x l1 IH]; intros [|y l2]; cbn; try reflexivity.
  now rewrite IH.
Qed.

Lemma embed_sin (a : ndarray) : WithNaN.np_sin (embed a) = embed (np_sin a).
Proof.
  destruct a as [x|l]; cbn [embed WithNaN.np_sin np_sin]; [reflexivity|].
  now rewrite !map_map.
Qed.

Lemma column_of_embed (n : nat) (a : ndarray) :
  WithNaN.column_of n (embed a) = column_of n a.
Proof. now destruct a. Qed.

Ltac embed_leaves :=
  repeat match goal with
         | |- context [WithNaN.Scalar (Some ?c)] =>
             change (WithNaN.Scalar (Some c)) with (embed (Scalar c))
         | |- context [WithNaN.np_arange ?n] =>
             change (WithNaN.np_arange n) with (embed (np_arange n))
         | |- context [WithNaN.Arr (map Some ?l)] =>
             change (WithNaN.Arr (map Some l)) with (embed (Arr l))
         end.

Lemma zip_with_sized {A B C : Type} (f : A -> B -> C) (l1 : list A) (l2 : list B)
    (n : nat) :
  length l1 = n -> length l2 = n -> length (zip_with f l1 l2) = n.
Proof.
  revert l2 n. induction l1 as [|x l1 IH]; intros [|y l2] n H1 H2;
    cbn in *; try congruence.
  destruct n as [|n]; [discriminate|]. f_equal. apply IH; congruence.
Qed.

Lemma sized_broadcast2 (f : cell -> cell -> cell) (n : nat) (a b : WithNaN.ndarray) :
  WithNaN.sized n a -> WithNaN.sized n b ->
  WithNaN.sized n (WithNaN.broadcast2 f a b).
Proof.
  destruct a as [x|l1], b as [y|l2]; cbn [WithNaN.sized WithNaN.broadcast2];
    intros H1 H2; rewrite ?length_map; auto.
  now apply zip_with_sized.
Qed.

Lemma sized_sin (n : nat) (a : WithNaN.ndarray) :
  WithNaN.sized n a -> WithNaN.sized n (WithNaN.np_sin a).
Proof.
  destruct a as [x|l]; cbn [WithNaN.sized WithNaN.np_sin]; [auto|].
  now rewrite length_map.
Qed.

Lemma sized_arange (n : nat) : WithNaN.sized n (WithNaN.np_arange n).
Proof.
  unfold WithNaN.np_arange. cbn [WithNaN.sized].
  now rewrite !length_map, length_seq.
Qed.

Lemma zip_with_nan (f : R -> R -> R) (l : list cell) (n : nat) :
  length l = n -> zip_with (WithNaN.lift2 f) l (repeat None n) = repeat None n.
Proof.
  revert n. induction l as [|x l IH]; intros [|n] H; cbn in *;
    try congruence.
  rewrite IH by congruence. now destruct x.
Qed.

(** Adding an array of NaN leaves NaN everywhere, and the clipping at 0 keeps
    it. *)
Lemma nan_column (n : nat) (a : WithNaN.ndarray) :
  WithNaN.sized n a ->
  WithNaN.column_of n
    (WithNaN.np_maximum (WithNaN.np_add a (WithNaN.Arr (repeat None n)))
       (WithNaN.Scalar (Some 0%R)))
  = repeat None n.
Proof.
  intros Ha. unfold WithNaN.np_maximum, WithNaN.np_add.
  destruct a as [x|l]; cbn [WithNaN.broadcast2 WithNaN.column_of WithNaN.sized] in *.
  - rewrite !map_repeat. now destruct x.
  - rewrite zip_with_nan by exact Ha. now rewrite map_repeat.
Qed.

Lemma date_range_fits (n : nat) (l : list Z) :
  date_range (days_from_civil 2021 1 1) n = Ok l -> (Z.of_nat n <= 88124)%Z.
Proof.
  unfold date_range. destruct n as [|k]; [lia|].
  change (days_from_civil 2021 1 1) with 18628%Z.
  destruct (Z.leb_spec ((18628 + Z.of_nat k) * ns_per_day) int64_max)
    as [H|H]; [|discriminate].
  intros _. unfold ns_per_day, int64_max in H. lia.
Qed.

Section FloatNoiseLevel.

Variable normal_sample : R -> R -> nat -> R.

Lemma generate_demand_data_number (n_periods : nat) (seasonality trend : bool)
    (x : R) :
  WithNaN.generate_demand_data normal_sample n_periods seasonality trend
    (WithNaN.Num x)
  = generate_demand_data normal_sample n_periods seasonality trend x.
Proof.
  unfold WithNaN.generate_demand_data, generate_demand_data,
    WithNaN.np_random_normal, np_random_normal, WithNaN.times.
  destruct (Rlt_dec (x * 100) 0); [reflexivity|]. cbn [rbind].
  destruct trend, seasonality; embed_leaves;
    unfold WithNaN.np_add, WithNaN.np_mul, WithNaN.np_div, WithNaN.np_maximum,
      np_add, np_mul, np_div, np_maximum;
    rewrite ?embed_broadcast2, ?embed_sin, ?embed_broadcast2, ?embed_sin,
      ?embed_broadcast2, ?embed_sin, ?embed_broadcast2, column_of_embed;
    reflexivity.
Qed.


(** With a NaN noise level the frame is built as usual and its demand column
    is NaN throughout. *)
Lemma generate_demand_data_nan (n_periods : nat) (seasonality trend : bool) :
  (Z.of_nat n_periods <= 88124)%Z ->
  WithNaN.generate_demand_data normal_sample n_periods seasonality trend WithNaN.NaN
  = Ok (mkFrame (range_index n_periods)
          [("date", map (fun i => Some (IZR (18628 + Z.of_nat i)))
                        (seq 0 n_periods));
           ("demand", repeat None n_periods);
           ("dayofweek",
            map (fun i => Some (IZR (dayofweek_of (18628 + Z.of_nat i))))
                (seq 0 n_periods));
           ("month", map (fun i => Some (IZR (month_of (18628 + Z.of_nat i))))
                         (seq 0 n_periods));
           ("day", map (fun i => Some (IZR (day_of (18628 + Z.of_nat i))))
                       (seq 0 n_periods));
           ("year", map (fun i => Some (IZR (year_of (18628 + Z.of_nat i))))
                        (seq 0 n_periods));
           ("quarter",
            map (fun i => Some (IZR (quarter_of (18628 + Z.of_nat i))))
                (seq 0 n_periods))]).
Proof.
  intros Hn. unfold WithNaN.generate_demand_data, WithNaN.np_random_normal,
    WithNaN.times.
  cbn [rbind]. rewrite date_range_ok by exact Hn. cbn [rbind].
  change (days_from_civil 2021 1 1) with 18628%Z.
  set (dates := map (fun i => (18628 + Z.of_nat i)%Z) (seq 0 n_periods)).
  assert (forall f : Z -> Z,
            map (fun i => Some (IZR (f (18628 + Z.of_nat i)%Z))) (seq 0 n_periods)
            = svalues (dt_accessor f
                         (mkSeries "date" (range_index n_periods)
                            (map timestamp_cell dates)))) as Hdt.
  { intros f. rewrite dt_accessor_timestamps. subst dates. now rewrite map_map. }
  assert (map (fun i => Some (IZR (18628 + Z.of_nat i))) (seq 0 n_periods)
          = map timestamp_cell dates) as Hdates
    by (subst dates; now rewrite map_map).
  rewrite nan_column.
  - rewrite (Hdt dayofweek_of), (Hdt month_of), (Hdt day_of), (Hdt year_of),
      (Hdt quarter_of), Hdates.
    reflexivity.
  - destruct trend, seasonality;
      repeat first [ apply sized_broadcast2 | apply sized_sin
                   | apply sized_arange | exact I ].
Qed.

Lemma generate_demand_data_refused (n_periods : nat) (seasonality trend : bool)
    (noise_level : WithNaN.pyfloat) :
  WithNaN.negative (WithNaN.times noise_level 100) ->
  WithNaN.generate_demand_data normal_sample n_periods seasonality trend noise_level
  = Err (ValueError "scale < 0").
Proof.
  intros Hneg. unfold WithNaN.generate_demand_data, WithNaN.np_random_normal.
  destruct noise_level as [x| |]; cbn [WithNaN.times WithNaN.negative] in *.
  - destruct (Rlt_dec (x * 100) 0); [reflexivity | contradiction].
  - reflexivity.
  - destruct Hneg.
Qed.

(** The frame that [generate_demand_data] builds for any float that numpy
    accepts as a noise level: the demand column is NaN throughout for NaN
    and holds non-negative numbers otherwise. *)
Lemma generate_demand_data_float_frame (n_periods : nat)
    (seasonality trend : bool) (noise_level : WithNaN.pyfloat) :
  ~ WithNaN.negative (WithNaN.times noise_level 100) ->
  (Z.of_nat n_periods <= 88124)%Z ->
  exists demand : list cell,
    WithNaN.generate_demand_data normal_sample n_periods seasonality trend
      noise_level
    = Ok (mkFrame (range_index n_periods)
            [("date", map (fun i => Some (IZR (18628 + Z.of_nat i)))
                          (seq 0 n_periods));
             ("demand", demand);
             ("dayofweek",
              map (fun i => Some (IZR (dayofweek_of (18628 + Z.of_nat i))))
                  (seq 0 n_periods));
             ("month", map (fun i => Some (IZR (month_of (18628 + Z.of_nat i))))
                           (seq 0 n_periods));
             ("day", map (fun i => Some (IZR (day_of (18628 + Z.of_nat i))))
                         (seq 0 n_periods));
             ("year", map (fun i => Some (IZR (year_of (18628 + Z.of_nat i))))
                          (seq 0 n_periods));
             ("quarter",
              map (fun i => Some (IZR (quarter_of (18628 + Z.of_nat i))))
                  (seq 0 n_periods))]) /\
    length demand = n_periods /\
    match noise_level with
    | WithNaN.NaN => demand = repeat None n_periods
    | _ => exists g : nat -> R, demand = map (fun i => Some (g i)) (seq 0 n_periods)
    end.
Proof.
  intros Hscale Hn. destruct noise_level as [x| |].
  - rewrite generate_demand_data_number.
    destruct (generate_demand_data_frame normal_sample n_periods seasonality trend
                x Hscale Hn) as [g Hframe].
    eexists. split; [exact Hframe|].
    split; [now rewrite length_map, length_seq|]. now exists g.
  - exfalso. apply Hscale. exact I.
  - eexists. split; [now apply generate_demand_data_nan|].
    split; [apply repeat_length | reflexivity].
Qed.

(** C8, as the code has it.  Whenever [generate_demand_data] returns a
    frame, its demand column has [n_periods] cells; for every noise level
    other than NaN none is missing and none is negative, and for NaN every
    one is NaN.  It raises only when numpy refuses the noise scale or the
    date range does not fit. *)
Theorem generate_demand_data_nonnegative (n_periods : nat)
    (seasonality trend : bool) (noise_level : WithNaN.pyfloat) :
  match WithNaN.generate_demand_data normal_sample n_periods seasonality trend
          noise_level
  with
  | Ok df =>
      exists demand : Series,
        getitem df "demand" = Ok demand /\
        length (svalues demand) = n_periods /\
        match noise_level with
        | WithNaN.NaN => forall c, In c (svalues demand) -> c = None
        | _ => forall c, In c (svalues demand) ->
                         exists x : R, c = Some x /\ (0 <= x)%R
        end
  | Err _ =>
      WithNaN.negative (WithNaN.times noise_level 100) \/
      (88124 < Z.of_nat n_periods)%Z
  end.
Proof.
  destruct noise_level as [x| |].
  - rewrite generate_demand_data_number.
    exact (generate_demand_data_number_nonnegative normal_sample n_periods
             seasonality trend x).
  - rewrite generate_demand_data_refused by exact I. now left.
  - destruct (Z_le_gt_dec (Z.of_nat n_periods) 88124) as [Hn|Hn].
    + rewrite generate_demand_data_nan by exact Hn.
      eexists. split; [reflexivity|]. cbn [svalues].
      split; [apply repeat_length|].
      intros c Hc. now apply repeat_spec in Hc.
    + unfold WithNaN.generate_demand_data, WithNaN.np_random_normal.
      cbn [WithNaN.times rbind].
      destruct (date_range (days_from_civil 2021 1 1) n_periods) as [l|e] eqn:E.
      * apply date_range_fits in E. lia.
      * cbn [rbind]. right. lia.
Qed.

(** X9.  For at most 88124 periods [generate_demand_data] raises exactly
    when numpy refuses the noise scale, that is for a negative noise level
    and for the negative zero, and then with its ValueError.  Otherwise the
    frame has one row per period labelled 0 .. n_periods - 1 and the seven
    columns date, demand, dayofweek, month, day, year, quarter in this
    order, is rectangular, and has no missing cell outside the demand
    column; the demand column has none either unless the noise level is NaN,
    and then it is NaN throughout. *)
Theorem generate_demand_data_layout (n_periods : nat) (seasonality trend : bool)
    (noise_level : WithNaN.pyfloat) :
  (Z.of_nat n_periods <= 88124)%Z ->
  match WithNaN.generate_demand_data normal_sample n_periods seasonality trend
          noise_level
  with
  | Ok df =>
      ~ WithNaN.negative (WithNaN.times noise_level 100) /\
      index df = range_index n_periods /\
      nrows df = n_periods /\
      column_names df
      = ["date"; "demand"; "dayofweek"; "month"; "day"; "year"; "quarter"] /\
      frame_wf df = true /\
      has_no_nulls
        (mkFrame (index df)
           (filter (fun c => negb (String.eqb (fst c) "demand")) (columns df)))
      = true /\
      match noise_level with
      | WithNaN.NaN => lookup_col (columns df) "demand" = Some (repeat None n_periods)
      | _ => has_no_nulls df = true
      end
  | Err e =>
      e = ValueError "scale < 0" /\
      WithNaN.negative (WithNaN.times noise_level 100)
  end.
Proof.
  intros Hn.
  assert (WithNaN.negative (WithNaN.times noise_level 100) \/
          ~ WithNaN.negative (WithNaN.times noise_level 100)) as [Hneg|Hpos].
  { destruct noise_level as [x| |]; cbn [WithNaN.times WithNaN.negative];
      [destruct (Rlt_dec (x * 100) 0) | |]; tauto. }
  - rewrite generate_demand_data_refused by exact Hneg. auto.
  - destruct (generate_demand_data_float_frame n_periods seasonality trend
                noise_level Hpos Hn) as [demand [Hframe [Hlen Hdem]]].
    rewrite Hframe.
    split; [exact Hpos|]. split; [reflexivity|].
    split; [unfold nrows, range_index; cbn [index];
            now rewrite length_map, length_seq|].
    split; [reflexivity|].
    split.
    { unfold frame_wf, nrows, range_index. cbn [index columns forallb snd].
      rewrite !length_map, !length_seq, Hlen, Nat.eqb_refl. reflexivity. }
    split.
    { unfold has_no_nulls.
      cbn [columns filter fst negb String.eqb Ascii.eqb Bool.eqb forallb snd].
      rewrite !present_cells_no_null. reflexivity. }
    destruct noise_level as [x| |].
    + destruct Hdem as [g ->]. unfold has_no_nulls. cbn [columns forallb snd].
      rewrite !present_cells_no_null. reflexivity.
    + exfalso. apply Hpos. exact I.
    + rewrite Hdem. reflexivity.
Qed.


End FloatNoiseLevel.

(** C8, as stated, fails for a noise level that is NaN: the call returns a
    frame in which every demand value is NaN, and NaN is not a non-negative
    number. *)
Lemma nan_noise_level_gives_nan_demand :
  exists (df : DataFrame) (demand : Series),
    WithNaN.generate_demand_data (fun _ _ _ => 0%R) (365 * 2) true true WithNaN.NaN
    = Ok df /\
    getitem df "demand" = Ok demand /\
    svalues demand = repeat None 730 /\
    ~ (forall c, In c (svalues demand) -> exists x : R, c = Some x /\ (0 <= x)%R).
Proof.
  eexists. eexists.
  split; [apply generate_demand_data_nan; lia|].
  split; [reflexivity|]. split; [reflexivity|].
  intros H. destruct (H None) as [x [Hx _]]; [now left | discriminate].
Qed.

Lemma generate_demand_data_layout_sample :
  (Z.of_nat 730 <= 88124)%Z /\
  match WithNaN.generate_demand_data (fun _ _ _ => 0%R) 730 true true WithNaN.NaN
  with
  | Ok df =>
      nrows df = 730 /\
      lookup_col (columns df) "demand" = Some (repeat None 730)
  | Err _ => False
  end.
Proof.
  split; [lia|].
  pose proof (generate_demand_data_layout (fun _ _ _ => 0%R) 730 true true
                WithNaN.NaN ltac:(lia)) as H.
  destruct (WithNaN.generate_demand_data (fun _ _ _ => 0%R) 730 true true
              WithNaN.NaN) as [df|e].
  - split; apply H.
  - destruct H as [_ []].
Defined.



(** ** From generation to the split *)

(** [prepare_features] on a rectangular frame without missing cells, in
    closed form. *)
Lemma prepare_features_complete_input (df : DataFrame) (d : Series) :
  frame_wf df = true -> has_no_nulls df = true -> getitem df "demand" = Ok d ->
  exists ret : DataFrame,
    prepare_features df = Ok (augment df d, ret) /\
    frame_wf ret = true /\
    has_no_nulls ret = true /\
    nrows ret = nrows df - 30 /\
    column_names ret
    = column_names df
      ++ filter (fun k => negb (mem_string k (column_names df))) feature_labels /\
    getitem ret "demand"
    = Ok (mkSeries "demand" (skipn 30 (index df)) (skipn 30 (svalues d))).
Proof.
  intros Hwf Hnn Hd.
  destruct (augment_rows df d Hwf Hnn Hd) as [Hwf' Hrows].
  exists (dropna (augment df d)).
  split; [now apply prepare_features_augment|].
  split; [now apply dropna_wf|].
  split; [now apply dropna_no_nulls|].
  rewrite (dropna_leading _ 30 Hwf' Hrows).
  split; [unfold nrows; cbn [index]; now rewrite length_skipn|].
  split.
  - transitivity (column_names (augment df d));
      [unfold column_names; cbn [columns]; now rewrite map_map|].
    unfold augment. rewrite fold_setitem_names; [reflexivity|].
    cbn. repeat constructor; cbn; intuition discriminate.
  - unfold getitem. cbn [columns index].
    rewrite (lookup_col_map (skipn 30)).
    replace (lookup_col (columns (augment df d)) "demand")
      with (Some (svalues d)); [reflexivity|].
    symmetry. destruct (getitem_values _ _ _ Hd) as [Hlook _].
    rewrite <- Hlook. lookup_feature. reflexivity.
Qed.

(** The sizes and labels of the parts that [split_data] returns. *)
Lemma split_data_shapes (df : DataFrame) (d : Series) :
  frame_wf df = true -> getitem df "demand" = Ok d -> 4 <= nrows df ->
  NoDup (column_names df) ->
  exists (X_train : DataFrame) (y_train : Series) (X_val : DataFrame)
         (y_val : Series) (X_test : DataFrame) (y_test : Series),
    split_data df = Ok (X_train, y_train, X_val, y_val, X_test, y_test) /\
    column_names X_train = feature_names df /\
    column_names X_val = feature_names df /\
    column_names X_test = feature_names df /\
    nrows X_train = 7 * nrows df / 10 /\
    nrows X_val = (3 * nrows df + 9) / 10 / 2 /\
    nrows X_test = ((3 * nrows df + 9) / 10 + 1) / 2.
Proof.
  intros Hwf Hd Hn Hnd.
  destruct (split_data_parts df d Hwf Hd Hn)
    as [cols [Hnames [_ [_ [_ [_ Hsplit]]]]]].
  cbv zeta in Hsplit.
  set (X := mkFrame (index df) cols) in *.
  assert (column_names X = feature_names df) as Hcn.
  { unfold column_names, X. cbn [columns]. rewrite Hnames. unfold feature_names.
    rewrite take_distinct_labels by exact Hnd.
    symmetry.
    exact (filter_map_comm (fun col => negb (mem_string col ["date"; "demand"]))
             fst (columns df)). }
  assert (nrows X = nrows df) as HnX by reflexivity.
  pose proof (Nat.div_mod_eq (3 * nrows df + 9) 10) as Hdiv.
  pose proof (Nat.mod_upper_bound (3 * nrows df + 9) 10) as Hmod.
  pose proof (Nat.div_mod_eq (7 * nrows df) 10) as Hdiv7.
  pose proof (Nat.mod_upper_bound (7 * nrows df) 10) as Hmod7.
  set (t := (3 * nrows df + 9) / 10) in *.
  pose proof (Nat.div_mod_eq (t + 1) 2) as Hdiv2.
  pose proof (Nat.mod_upper_bound (t + 1) 2) as Hmod2.
  pose proof (Nat.div_mod_eq t 2) as Hdiv2'.
  pose proof (Nat.mod_upper_bound t 2) as Hmod2'.
  set (t' := (t + 1) / 2) in *.
  assert (nrows (iloc_frame (nrows df - t) (nrows df - t + t) X) = t) as HnT
    by (rewrite nrows_iloc; lia).
  do 6 eexists. split; [exact Hsplit|].
  rewrite !column_names_iloc, Hcn.
  do 3 (split; [reflexivity|]).
  rewrite !nrows_iloc by lia.
  repeat split; lia.
Qed.

Lemma prepared_labels_distinct :
  NoDup (["date"; "demand"; "dayofweek"; "month"; "day"; "year"; "quarter"]
         ++ feature_labels).
Proof. repeat constructor; cbn; intuition discriminate. Qed.

Section Pipeline.

Variable normal_sample : R -> R -> nat -> R.

Lemma generated_frame_ready (n_periods : nat) (seasonality trend : bool)
    (noise_level : R) :
  (0 <= noise_level)%R ->
  (Z.of_nat n_periods <= 88124)%Z ->
  exists (df : DataFrame) (d : Series),
    generate_demand_data normal_sample n_periods seasonality trend noise_level
    = Ok df /\
    frame_wf df = true /\ has_no_nulls df = true /\
    getitem df "demand" = Ok d /\
    nrows df = n_periods /\
    column_names df
    = ["date"; "demand"; "dayofweek"; "month"; "day"; "year"; "quarter"].
Proof.
  intros Hlevel Hn.
  destruct (generate_demand_data_frame normal_sample n_periods seasonality trend
              noise_level ltac:(lra) Hn) as [g Hframe].
  eexists. eexists. split; [exact Hframe|].
  split.
  { unfold frame_wf, nrows, range_index. cbn [index columns forallb snd].
    rewrite !length_map, !length_seq, Nat.eqb_refl. reflexivity. }
  split.
  { unfold has_no_nulls. cbn [columns forallb snd].
    rewrite !present_cells_no_null. reflexivity. }
  split; [reflexivity|].
  split; [|reflexivity].
  unfold nrows, range_index. cbn [index]. now rewrite length_map, length_seq.
Qed.

(** X11.  The three data functions compose: for a non-negative noise level
    and between 34 and 88124 periods, whatever the noise draw,
    [generate_demand_data] returns a frame on which [prepare_features]
    returns n - 30 rows of 17 columns, on which [split_data] returns three
    parts with the same 15 predictor columns (the five date features and the
    ten engineered features; neither date nor demand) and floor(7m/10),
    floor(ceil(3m/10)/2) and ceil(ceil(3m/10)/2) rows for m = n - 30. *)
Theorem data_functions_compose (n_periods : nat) (seasonality trend : bool)
    (noise_level : R) :
  (0 <= noise_level)%R ->
  34 <= n_periods ->
  (Z.of_nat n_periods <= 88124)%Z ->
  exists (df aug ret X_train : DataFrame) (y_train : Series) (X_val : DataFrame)
         (y_val : Series) (X_test : DataFrame) (y_test : Series),
    generate_demand_data normal_sample n_periods seasonality trend noise_level
    = Ok df /\
    prepare_features df = Ok (aug, ret) /\
    split_data ret = Ok (X_train, y_train, X_val, y_val, X_test, y_test) /\
    nrows ret = n_periods - 30 /\
    column_names ret
    = ["date"; "demand"; "dayofweek"; "month"; "day"; "year"; "quarter"]
      ++ feature_labels /\
    column_names X_train
    = ["dayofweek"; "month"; "day"; "year"; "quarter"] ++ feature_labels /\
    column_names X_val = column_names X_train /\
    column_names X_test = column_names X_train /\
    nrows X_train = 7 * (n_periods - 30) / 10 /\
    nrows X_val = (3 * (n_periods - 30) + 9) / 10 / 2 /\
    nrows X_test = ((3 * (n_periods - 30) + 9) / 10 + 1) / 2.
Proof.
  intros Hlevel Hmin Hmax.
  destruct (generated_frame_ready n_periods seasonality trend noise_level
              Hlevel Hmax) as [df [d [Hgen [Hwf [Hnn [Hd [Hn Hcols]]]]]]].
  destruct (prepare_features_complete_input df d Hwf Hnn Hd)
    as [ret [Hprep [Hwf' [_ [Hn' [Hcols' Hd']]]]]].
  rewrite Hcols in Hcols'. rewrite Hn in Hn'.
  assert (column_names ret
          = ["date"; "demand"; "dayofweek"; "month"; "day"; "year"; "quarter"]
            ++ feature_labels) as Hnames by exact Hcols'.
  destruct (split_data_shapes ret _ Hwf' Hd' ltac:(lia)
              ltac:(rewrite Hnames; exact prepared_labels_distinct))
    as [X_train [y_train [X_val [y_val [X_test [y_test
         [Hsplit [H1 [H2 [H3 [H4 [H5 H6]]]]]]]]]]]].
  assert (feature_names ret
          = ["dayofweek"; "month"; "day"; "year"; "quarter"] ++ feature_labels)
    as Hfeat by (unfold feature_names; rewrite Hnames; reflexivity).
  exists df, (augment df d), ret, X_train, y_train, X_val, y_val, X_test, y_test.
  rewrite Hn' in H4, H5, H6.
  split; [exact Hgen|]. split; [exact Hprep|]. split; [exact Hsplit|].
  split; [exact Hn'|]. split; [exact Hnames|].
  split; [now rewrite H1|]. split; [now rewrite H1, H2|].
  split; [now rewrite H1, H3|].
  auto.
Qed.

(** X12.  A series of at most 33 periods cannot be split: generation and
    feature engineering succeed, leaving n - 30 rows (none for n <= 30), and
    [split_data] then raises the ValueError of an empty training part. *)
Theorem short_series_cannot_be_split (n_periods : nat) (seasonality trend : bool)
    (noise_level : R) :
  (0 <= noise_level)%R ->
  n_periods <= 33 ->
  exists df aug ret : DataFrame,
    generate_demand_data normal_sample n_periods seasonality trend noise_level
    = Ok df /\
    prepare_features df = Ok (aug, ret) /\
    nrows ret = n_periods - 30 /\
    split_data ret = Err (ValueError "the resulting train set will be empty").
Proof.
  intros Hlevel Hmax.
  destruct (generated_frame_ready n_periods seasonality trend noise_level
              Hlevel ltac:(lia)) as [df [d [Hgen [Hwf [Hnn [Hd [Hn _]]]]]]].
  destruct (prepare_features_complete_input df d Hwf Hnn Hd)
    as [ret [Hprep [Hwf' [_ [Hn' [_ Hd']]]]]].
  exists df, (augment df d), ret.
  split; [exact Hgen|]. split; [exact Hprep|]. split; [lia|].
  apply (split_data_small ret _ Hwf' Hd'). lia.
Qed.

Section DataCellsProperties.

Variable W : Type.

Lemma bind_print {A : Type} (line : list piece) (k : unit -> M W A) (w : W) :
  bind (print line) k w
  = (final_world (k tt w), Printed line :: trace_of (k tt w), result_of (k tt w)).
Proof.
  unfold bind, print. now destruct (k tt w) as [[w2 t2] r].
Qed.

Lemma bind_lift_ok {A B : Type} (a : A) (k : A -> M W B) (w : W) :
  bind (lift (Ok a)) k w = k a w.
Proof.
  unfold bind, lift. now destruct (k a w) as [[w2 t2] r].
Qed.

(** X13.  Whatever the noise draw and the state of the world, the three
    data cells run without an exception, touch nothing outside, and print
    the same six lines: the default 730 periods give a frame of shape
    (730, 7), then (700, 17) after feature engineering, then parts of shapes
    (490, 15), (105, 15) and (105, 15). *)
Theorem data_cells_print_fixed_shapes (w : W) :
  trace_of (data_cells normal_sample w)
  = [Printed [Text "Generating synthetic demand forecasting data..."];
     Printed [Text "Dataset shape: (730, 7)"];
     Printed [Text "Dataset shape after feature engineering: (700, 17)"];
     Printed [Text "Training set: (490, 15)"];
     Printed [Text "Validation set: (105, 15)"];
     Printed [Text "Test set: (105, 15)"]] /\
  final_world (data_cells normal_sample w) = w /\
  exists r, result_of (data_cells normal_sample w) = Ok r.
Proof.
  destruct (generated_frame_ready (365 * 2) true true 0.2
              ltac:(lra) ltac:(lia)) as [df [d [Hgen [Hwf [Hnn [Hd [Hn Hcols]]]]]]].
  destruct (prepare_features_complete_input df d Hwf Hnn Hd)
    as [eng [Hprep [Hwf' [_ [Hn' [Hcols' Hd']]]]]].
  rewrite Hcols in Hcols'. rewrite Hn in Hn'.
  assert (column_names eng
          = ["date"; "demand"; "dayofweek"; "month"; "day"; "year"; "quarter"]
            ++ feature_labels) as Hnames by exact Hcols'.
  destruct (split_data_shapes eng _ Hwf' Hd' ltac:(lia)
              ltac:(rewrite Hnames; exact prepared_labels_distinct))
    as [X_train [y_train [X_val [y_val [X_test [y_test
         [Hsplit [H1 [H2 [H3 [H4 [H5 H6]]]]]]]]]]]].
  assert (feature_names eng
          = ["dayofweek"; "month"; "day"; "year"; "quarter"] ++ feature_labels)
    as Hfeat by (unfold feature_names; rewrite Hnames; reflexivity).
  rewrite Hfeat in H1, H2, H3. rewrite Hn' in H4, H5, H6.
  assert (forall X l, column_names X = l -> length (columns X) = length l) as Hlen
    by (intros X l <-; unfold column_names; now rewrite length_map).
  assert (shape_text df = "(730, 7)") as S0
    by (unfold shape_text; rewrite Hn, (Hlen _ _ Hcols); reflexivity).
  assert (shape_text eng = "(700, 17)") as S1
    by (unfold shape_text; rewrite Hn', (Hlen _ _ Hnames); reflexivity).
  assert (shape_text X_train = "(490, 15)") as S2
    by (unfold shape_text; rewrite H4, (Hlen _ _ H1); reflexivity).
  assert (shape_text X_val = "(105, 15)") as S3
    by (unfold shape_text; rewrite H5, (Hlen _ _ H2); reflexivity).
  assert (shape_text X_test = "(105, 15)") as S4
    by (unfold shape_text; rewrite H6, (Hlen _ _ H3); reflexivity).
  unfold data_cells.
  rewrite bind_print, Hgen, bind_lift_ok, bind_print, Hprep, bind_lift_ok.
  cbn [snd]. rewrite bind_print, Hsplit, bind_lift_ok.
  rewrite !bind_print. rewrite S0, S1, S2, S3, S4.
  unfold ret. cbn [trace_of final_world result_of fst snd].
  split; [reflexivity|]. split; [reflexivity|]. eexists. reflexivity.
Qed.

End DataCellsProperties.

End Pipeline.

Lemma data_functions_compose_default :
  (0 <= 0.2)%R /\ 34 <= 730 /\ (Z.of_nat 730 <= 88124)%Z /\
  exists (df aug ret X_train : DataFrame) (y_train : Series) (X_val : DataFrame)
         (y_val : Series) (X_test : DataFrame) (y_test : Series),
    generate_demand_data (fun _ _ _ => 0%R) 730 true true 0.2 = Ok df /\
    prepare_features df = Ok (aug, ret) /\
    split_data ret = Ok (X_train, y_train, X_val, y_val, X_test, y_test) /\
    nrows ret = 700 /\
    nrows X_train = 490 /\ nrows X_val = 105 /\ nrows X_test = 105.
Proof.
  split; [lra|]. split; [lia|]. split; [lia|].
  destruct (data_functions_compose (fun _ _ _ => 0%R) 730 true true 0.2
              ltac:(lra) ltac:(lia) ltac:(lia))
    as [df [aug [ret [X_train [y_train [X_val [y_val [X_test [y_test
         [H1 [H2 [H3 [H4 [_ [_ [_ [_ [H5 [H6 H7]]]]]]]]]]]]]]]]]]].
  exists df, aug, ret, X_train, y_train, X_val, y_val, X_test, y_test.
  split; [exact H1|]. split; [exact H2|]. split; [exact H3|].
  split; [exact H4|]. split; [exact H5|]. split; [exact H6 | exact H7].
Defined.

Lemma short_series_cannot_be_split_sample :
  (0 <= 0.2)%R /\ 33 <= 33 /\
  exists df aug ret : DataFrame,
    generate_demand_data (fun _ _ _ => 0%R) 33 true true 0.2 = Ok df /\
    prepare_features df = Ok (aug, ret) /\
    nrows ret = 3 /\
    split_data ret = Err (ValueError "the resulting train set will be empty").
Proof.
  split; [lra|]. split; [lia|].
  exact (short_series_cannot_be_split (fun _ _ _ => 0%R) 33 true true 0.2 ltac:(lra) ltac:(lia)).
Defined.

(** ** Saving, deploying and invoking *)

Section CellProperties.

Variable W : Type.
Variable exec : forall T : Type, call T -> W -> outcome T * W.

(** X14.  [save_data_to_s3] uploads nothing before the directory exists and
    the three files are written: a run whose events contain an upload starts
    with the successful [makedirs] and the three successful [to_csv] calls,
    each writing a feature matrix with its target as last column and no
    index.  A run that returns made exactly three uploads after them, of
    train, validation and test in this order to the prefix
    demand-forecast/data of the given bucket, and returns their three
    locations in that order. *)
Theorem save_data_to_s3_writes_then_uploads
    (X_train : DataFrame) (y_train : Series) (X_val : DataFrame) (y_val : Series)
    (X_test : DataFrame) (y_test : Series) (session : handle) (bucket : string)
    (w : W) :
  let run := save_data_to_s3 exec X_train y_train X_val y_val X_test y_test
               session bucket w in
  let written :=
    [Called (Makedirs "data" true) (Returned tt);
     Called (ToCsv (concat_axis1 X_train y_train) "data/train.csv" false)
            (Returned tt);
     Called (ToCsv (concat_axis1 X_val y_val) "data/validation.csv" false)
            (Returned tt);
     Called (ToCsv (concat_axis1 X_test y_test) "data/test.csv" false)
            (Returned tt)] in
  (existsb is_upload (trace_of run) = true -> firstn 4 (trace_of run) = written) /\
  (forall p1 p2 p3 : string,
     result_of run = Ok (p1, p2, p3) ->
     trace_of run
     = written
       ++ [Called (UploadData session "data/train.csv" bucket
                     "demand-forecast/data") (Returned p1);
           Called (UploadData session "data/validation.csv" bucket
                     "demand-forecast/data") (Returned p2);
           Called (UploadData session "data/test.csv" bucket
                     "demand-forecast/data") (Returned p3)]).
Proof.
  cbv zeta. unfold save_data_to_s3, bind, do_call, ret.
  destruct (exec unit (Makedirs "data" true) w) as [[[]|e0] w0];
    [|split; [discriminate | intros; discriminate]].
  destruct (exec unit (ToCsv (concat_axis1 X_train y_train) _ _) w0)
    as [[[]|e1] w1]; [|split; [discriminate | intros; discriminate]].
  destruct (exec unit (ToCsv (concat_axis1 X_val y_val) _ _) w1)
    as [[[]|e2] w2]; [|split; [discriminate | intros; discriminate]].
  destruct (exec unit (ToCsv (concat_axis1 X_test y_test) _ _) w2)
    as [[[]|e3] w3]; [|split; [discriminate | intros; discriminate]].
  destruct (exec string (UploadData session "data/train.csv" _ _) w3)
    as [[q1|e4] w4]; [|split; [reflexivity | intros; discriminate]].
  destruct (exec string (UploadData session "data/validation.csv" _ _) w4)
    as [[q2|e5] w5]; [|split; [reflexivity | intros; discriminate]].
  destruct (exec string (UploadData session "data/test.csv" _ _) w5)
    as [[q3|e6] w6]; [|split; [reflexivity | intros; discriminate]].
  split; [reflexivity|].
  cbn [trace_of result_of fst snd app]. intros p1 p2 p3 H.
  apply Ok_inj in H. now injection H as -> -> ->.
Qed.

(** X15.  [generate_prediction_with_boto3] creates a sagemaker-runtime
    client, serialises the sample, invokes the named endpoint once with
    content type and accept application/json, and decodes the answer, in
    this order; it returns exactly what the decoder returned.  The first call
    that raises ends it with that exception and no later call is made. *)
Theorem generate_prediction_with_boto3_calls (name : string)
    (test_sample : list (list R)) (w : W) :
  let run := generate_prediction_with_boto3 exec name test_sample w in
  match exec _ (Boto3Client "sagemaker-runtime") w with
  | (Raised e, w1) =>
      run = (w1, [Called (Boto3Client "sagemaker-runtime") (Raised e)], Err e)
  | (Returned client, w1) =>
      match exec _ (JsonDumps test_sample) w1 with
      | (Raised e, w2) =>
          run = (w2, [Called (Boto3Client "sagemaker-runtime") (Returned client);
                      Called (JsonDumps test_sample) (Raised e)], Err e)
      | (Returned body, w2) =>
          let invoke := InvokeEndpoint client name body
                          "application/json" "application/json" in
          match exec _ invoke w2 with
          | (Raised e, w3) =>
              run = (w3, [Called (Boto3Client "sagemaker-runtime") (Returned client);
                          Called (JsonDumps test_sample) (Returned body);
                          Called invoke (Raised e)], Err e)
          | (Returned response, w3) =>
              match exec _ (JsonLoads response) w3 with
              | (o, w4) =>
                  run = (w4,
                         [Called (Boto3Client "sagemaker-runtime") (Returned client);
                          Called (JsonDumps test_sample) (Returned body);
                          Called invoke (Returned response);
                          Called (JsonLoads response) o],
                         match o with
                         | Returned predictions => Ok predictions
                         | Raised e => Err e
                         end)
              end
          end
      end
  end.
Proof.
  cbv zeta. unfold generate_prediction_with_boto3, bind, do_call, ret.
  destruct (exec handle _ w) as [[client|e] w1]; [|reflexivity].
  destruct (exec string (JsonDumps test_sample) w1) as [[body|e] w2];
    [|reflexivity].
  destruct (exec string (InvokeEndpoint client name body _ _) w2)
    as [[response|e] w3]; [|reflexivity].
  destruct (exec (list R) (JsonLoads response) w3) as [[predictions|e] w4];
    reflexivity.
Qed.

End CellProperties.

(** ** Error metrics *)

Lemma Rsum_abs_nonneg (a p : list R) :
  (0 <= Rsum (zip_with (fun x y => Rabs (x - y)) a p))%R.
Proof.
  revert p. induction a as [|x a IH]; intros [|y p]; unfold Rsum; simpl;
    try lra.
  pose proof (Rabs_pos (x - y)). specialize (IH p). unfold Rsum in IH. lra.
Qed.

Lemma zip_with_length_same {A B C D : Type} (f : A -> B -> C) (g : A -> B -> D)
    (a : list A) (p : list B) :
  length (zip_with f a p) = length (zip_with g a p).
Proof.
  revert p. induction a as [|x a IH]; intros [|y p]; simpl; auto.
Qed.

Lemma zip_with_length {A B C : Type} (f : A -> B -> C) (a : list A) (p : list B) :
  length a = length p -> length (zip_with f a p) = length a.
Proof.
  revert p. induction a as [|x a IH]; intros [|y p]; simpl; try discriminate;
    auto.
Qed.

Lemma check_targets_Ok (y_true y_pred : list R) :
  check_targets y_true y_pred = Ok tt <->
  length y_true = length y_pred /\ 0 < length y_true.
Proof.
  unfold check_targets.
  destruct (Nat.eqb_spec (length y_true) (length y_pred)) as [He|He]; cbn [negb].
  - destruct (Nat.eqb_spec (length y_true) 0) as [Hz|Hz].
    + split; [discriminate | lia].
    + split; [intros _; lia | reflexivity].
  - split; [discriminate | lia].
Qed.

(** Whenever scikit-learn's two metrics accept the targets, neither the mean
    absolute error nor the root of the mean squared error is negative, and
    both are zero for predictions equal to the targets. *)
Lemma error_metrics_bounds (y_true y_pred : list R) (mae mse : R) :
  mean_absolute_error y_true y_pred = Ok mae ->
  mean_squared_error y_true y_pred = Ok mse ->
  (0 <= mae)%R /\ (0 <= sqrt mse)%R /\
  (y_pred = y_true -> mae = 0%R /\ sqrt mse = 0%R).
Proof.
  unfold mean_absolute_error, mean_squared_error.
  destruct (check_targets y_true y_pred) as [[]|e] eqn:Hc; [|discriminate].
  apply check_targets_Ok in Hc. destruct Hc as [Hlen Hpos].
  cbn [rbind]. intros Hmae Hmse. apply Ok_inj in Hmae. apply Ok_inj in Hmse.
  subst mae mse. unfold mean_of.
  pose proof (Rsum_abs_nonneg y_true y_pred) as Hnn.
  rewrite !(zip_with_length _ _ _ Hlen).
  assert (0 < INR (length y_true))%R as Hn by (apply lt_0_INR; exact Hpos).
  split.
  { apply Rmult_le_pos; [exact Hnn|]. left. now apply Rinv_0_lt_compat. }
  split; [apply sqrt_pos|].
  intros ->. clear Hnn.
  assert (forall l, Rsum (zip_with (fun a p => Rabs (a - p)) l l) = 0%R) as HS.
  { induction l as [|x l IH]; unfold Rsum in *; simpl; [reflexivity|].
    rewrite IH. replace (x - x)%R with 0%R by lra. rewrite Rabs_R0. lra. }
  assert (forall l, Rsum (zip_with (fun a p => ((a - p) * (a - p))%R) l l) = 0%R)
    as HQ.
  { induction l as [|x l IH]; unfold Rsum in *; simpl; [reflexivity|].
    rewrite IH. lra. }
  rewrite HS, HQ. unfold Rdiv. rewrite !Rmult_0_l.
  split; [reflexivity | apply sqrt_0].
Qed.

(** ** Testing the endpoint *)

Lemma zip_with_seq {A B C : Type} (f : A -> B -> C) (l1 : list A) (l2 : list B)
    (d1 : A) (d2 : B) :
  zip_with f l1 l2
  = map (fun i => f (nth i l1 d1) (nth i l2 d2))
        (seq 0 (Nat.min (length l1) (length l2))).
Proof.
  revert l2. induction l1 as [|x l1 IH]; intros [|y l2]; simpl; try reflexivity.
  f_equal. rewrite IH, <- seq_shift, map_map. reflexivity.
Qed.

Section EndpointTest.

Variable W : Type.
Variable exec : forall T : Type, call T -> W -> outcome T * W.

Lemma bind_call {T A : Type} (c : call T) (k : T -> M W A) (w : W) :
  bind (do_call exec c) k w
  = match exec T c w with
    | (Returned v, w') =>
        (final_world (k v w'), Called c (Returned v) :: trace_of (k v w'),
         result_of (k v w'))
    | (Raised e, w') => (w', [Called c (Raised e)], Err e)
    end.
Proof.
  unfold bind, do_call. destruct (exec T c w) as [[v|e] w']; [|reflexivity].
  now destruct (k v w') as [[w2 t2] r].
Qed.

Lemma bind_run_ok {A B : Type} (m : M W A) (k : A -> M W B) (w w1 : W)
    (t1 : list event) (a : A) :
  m w = (w1, t1, Ok a) ->
  bind m k w
  = (final_world (k a w1), t1 ++ trace_of (k a w1), result_of (k a w1)).
Proof.
  intros Hm. unfold bind. rewrite Hm. now destruct (k a w1) as [[w2 t2] r].
Qed.

Lemma bind_run_err {A B : Type} (m : M W A) (k : A -> M W B) (w w1 : W)
    (t1 : list event) (e : exn) :
  m w = (w1, t1, Err e) -> bind m k w = (w1, t1, Err e).
Proof. intros Hm. unfold bind. now rewrite Hm. Qed.

Lemma bind_lift_err {A B : Type} (e : exn) (k : A -> M W B) (w : W) :
  bind (lift (Err e)) k w = (w, [Thrown e], Err e).
Proof. reflexivity. Qed.

Lemma list_index_in_range (l : list R) (i : nat) :
  i < length l -> list_index l i = Ok (nth i l 0%R).
Proof.
  intros Hi. unfold list_index.
  destruct (nth_error l i) as [x|] eqn:E.
  - now rewrite (nth_of_nth_error _ _ _ x E).
  - apply nth_error_None in E. lia.
Qed.

Lemma list_index_out_of_range (l : list R) (i : nat) :
  length l <= i -> list_index l i = Err IndexError.
Proof.
  intros Hi. unfold list_index.
  now rewrite (proj2 (nth_error_None l i) Hi).
Qed.

(** The printing loop when a prediction exists for every index it visits. *)
Lemma sample_loop_ok (actual predicted : list R) (k s : nat) (w : W) :
  s + k <= length actual -> s + k <= length predicted ->
  for_range (seq s k)
    (fun i =>
       a <~ lift (list_index actual i) ;;
       p <~ lift (list_index predicted i) ;;
       print [Text "Actual: "; Fixed2 a; Text ", Predicted: "; Fixed2 p]) w
  = (w, map (fun i => sample_line (nth i actual 0%R) (nth i predicted 0%R))
            (seq s k), Ok tt).
Proof.
  revert s. induction k as [|k IH]; intros s Ha Hp; [reflexivity|].
  cbn [seq for_range].
  rewrite (bind_run_ok _ _ w w
             [sample_line (nth s actual 0%R) (nth s predicted 0%R)] tt).
  - rewrite IH by lia. reflexivity.
  - rewrite list_index_in_range by lia. rewrite bind_lift_ok.
    rewrite list_index_in_range by lia. rewrite bind_lift_ok. reflexivity.
Qed.

(** The printing loop when the predictions run out before the targets. *)
Lemma sample_loop_short (actual predicted : list R) (k s : nat) (w : W) :
  s + k <= length actual -> s <= length predicted -> length predicted < s + k ->
  for_range (seq s k)
    (fun i =>
       a <~ lift (list_index actual i) ;;
       p <~ lift (list_index predicted i) ;;
       print [Text "Actual: "; Fixed2 a; Text ", Predicted: "; Fixed2 p]) w
  = (w, map (fun i => sample_line (nth i actual 0%R) (nth i predicted 0%R))
            (seq s (length predicted - s)) ++ [Thrown IndexError],
     Err IndexError).
Proof.
  revert s. induction k as [|k IH]; intros s Ha Hs Hp; [lia|].
  cbn [seq for_range].
  destruct (Nat.eq_dec s (length predicted)) as [Heq|Hne].
  - rewrite (bind_run_err _ _ w w [Thrown IndexError] IndexError).
    + replace (length predicted - s) with 0 by lia. reflexivity.
    + rewrite list_index_in_range by lia. rewrite bind_lift_ok.
      rewrite list_index_out_of_range by lia. apply bind_lift_err.
  - rewrite (bind_run_ok _ _ w w
               [sample_line (nth s actual 0%R) (nth s predicted 0%R)] tt).
    + rewrite IH by lia.
      replace (length predicted - s) with (S (length predicted - S s)) by lia.
      reflexivity.
    + rewrite list_index_in_range by lia. rewrite bind_lift_ok.
      rewrite list_index_in_range by lia. rewrite bind_lift_ok. reflexivity.
Qed.

(** X16.  [test_endpoint] in every case.  An exception of [predict] ends it
    at once.  Otherwise it prints one line per pair of target and
    prediction and then: with fewer predictions than targets it raises
    IndexError right after the last available pair, before any metric is
    computed; with more predictions than targets, or with no target at all,
    it raises the ValueError of the metric; with as many predictions as
    targets, at least one, it prints and returns the mean absolute error and
    the root of the mean squared error.  The world is only changed by
    [predict]. *)
Theorem test_endpoint_outcomes (predictor : Predictor)
    (test_sample : list (list R)) (actual : list R) (w : W) :
  let run := test_endpoint exec predictor test_sample actual w in
  match exec _ (Predict predictor test_sample) w with
  | (Raised e, w1) =>
      run = (w1,
             [Printed [Text "Testing the endpoint with sample data..."];
              Called (Predict predictor test_sample) (Raised e)],
             Err e)
  | (Returned predicted, w1) =>
      let head :=
        [Printed [Text "Testing the endpoint with sample data..."];
         Called (Predict predictor test_sample) (Returned predicted);
         Printed [Text "Sample predictions:"]] in
      let lines := zip_with sample_line actual predicted in
      if length predicted <? length actual then
        run = (w1, head ++ lines ++ [Thrown IndexError], Err IndexError)
      else if length actual <? length predicted then
        run = (w1,
               head ++ lines
               ++ [Thrown (ValueError
                     "Found input variables with inconsistent numbers of samples")],
               Err (ValueError
                      "Found input variables with inconsistent numbers of samples"))
      else if length actual =? 0 then
        run = (w1, head ++ [Thrown (ValueError "Found array with 0 sample(s)")],
               Err (ValueError "Found array with 0 sample(s)"))
      else
        let mae := mean_of (zip_with (fun a p => Rabs (a - p)) actual predicted) in
        let rmse :=
          sqrt (mean_of (zip_with (fun a p => ((a - p) * (a - p))%R)
                           actual predicted)) in
        run = (w1,
               head ++ lines
               ++ [Printed [Text "Mean Absolute Error: "; Fixed2 mae];
                   Printed [Text "Root Mean Squared Error: "; Fixed2 rmse]],
               Ok (mae, rmse))
  end.
Proof.
  cbv zeta. unfold test_endpoint. rewrite bind_print, bind_call.
  destruct (exec (list R) (Predict predictor test_sample) w)
    as [[predicted|e] w1]; [|reflexivity].
  rewrite bind_print.
  rewrite (zip_with_seq sample_line actual predicted 0%R 0%R).
  destruct (Nat.ltb_spec (length predicted) (length actual)) as [Hshort|Hge].
  - rewrite (bind_run_err _ _ w1 w1 _ IndexError
               (sample_loop_short actual predicted (length actual) 0 w1
                  ltac:(lia) ltac:(lia) ltac:(lia))).
    cbn [final_world trace_of result_of fst snd app].
    rewrite Nat.sub_0_r. now replace (Nat.min (length actual) (length predicted))
      with (length predicted) by lia.
  - rewrite (bind_run_ok _ _ w1 w1 _ tt
               (sample_loop_ok actual predicted (length actual) 0 w1
                  ltac:(lia) ltac:(lia))).
    replace (Nat.min (length actual) (length predicted)) with (length actual)
      by lia.
    unfold mean_absolute_error, mean_squared_error, check_targets.
    destruct (Nat.ltb_spec (length actual) (length predicted)) as [Hlong|Hle].
    + destruct (Nat.eqb_spec (length actual) (length predicted)); [lia|].
      cbn [negb rbind]. rewrite bind_lift_err.
      cbn [final_world trace_of result_of fst snd app]. reflexivity.
    + destruct (Nat.eqb_spec (length actual) (length predicted)); [|lia].
      cbn [negb].
      destruct (Nat.eqb_spec (length actual) 0) as [Hz|Hnz].
      * cbn [rbind]. rewrite bind_lift_err.
        cbn [final_world trace_of result_of fst snd app].
        rewrite Hz. reflexivity.
      * cbn [rbind]. rewrite !bind_lift_ok. rewrite !bind_print.
        unfold ret. cbn [final_world trace_of result_of fst snd app].
        reflexivity.
Qed.

(** X17.  Whenever [test_endpoint] returns, neither of the two errors it
    returns is negative, and both are 0 when the endpoint predicted exactly
    the targets. *)
Theorem test_endpoint_metrics_nonnegative (predictor : Predictor)
    (test_sample : list (list R)) (actual : list R) (w : W) (mae rmse : R) :
  result_of (test_endpoint exec predictor test_sample actual w) = Ok (mae, rmse) ->
  (0 <= mae)%R /\ (0 <= rmse)%R /\
  (fst (exec _ (Predict predictor test_sample) w) = Returned actual ->
   mae = 0%R /\ rmse = 0%R).
Proof.
  unfold test_endpoint. rewrite bind_print, bind_call.
  destruct (exec (list R) (Predict predictor test_sample) w)
    as [[predicted|e] w1]; [|discriminate].
  rewrite bind_print.
  cbn [result_of snd fst].
  match goal with
  | |- context [bind (for_range ?l ?body) _ w1] =>
      destruct (for_range l body w1) as [[w2 t2] [[]|e]] eqn:Hloop
  end.
  - rewrite (bind_run_ok _ _ w1 w2 t2 tt Hloop). cbn [result_of snd].
    destruct (mean_absolute_error actual predicted) as [m|e] eqn:Hm;
      [|rewrite bind_lift_err; discriminate].
    rewrite bind_lift_ok.
    destruct (mean_squared_error actual predicted) as [q|e] eqn:Hq;
      [|rewrite bind_lift_err; discriminate].
    rewrite bind_lift_ok, !bind_print. unfold ret.
    cbn [result_of snd]. intros H. apply Ok_inj in H. injection H as <- <-.
    destruct (error_metrics_bounds actual predicted m q Hm Hq)
      as [Hmae [Hrmse Hzero]].
    split; [exact Hmae|]. split; [exact Hrmse|].
    intros Hsame. apply Hzero. now injection Hsame as ->.
  - rewrite (bind_run_err _ _ w1 w2 t2 e Hloop). discriminate.
Qed.

End EndpointTest.

Lemma test_endpoint_metrics_nonnegative_sample :
  exists mae rmse : R,
    result_of (test_endpoint (answering_world [2; 7]%R)
                 (mkPredictor 3 "ml-models-as-tools") [[1]; [2]]%R [3; 5]%R tt)
    = Ok (mae, rmse) /\
    (0 <= mae)%R /\ (0 <= rmse)%R.
Proof.
  eexists. eexists. split; [reflexivity|].
  pose proof (test_endpoint_metrics_nonnegative unit (answering_world [2; 7]%R)
                (mkPredictor 3 "ml-models-as-tools") [[1]; [2]]%R [3; 5]%R tt
                _ _ eq_refl) as H.
  split; apply H.
Defined.

(** ** The session cell and [str.strip] *)

Lemma lstrip_as_list (s : string) :
  lstrip s = string_of_list_ascii (lstrip_list (list_ascii_of_string s)).
Proof.
  induction s as [|a s IH]; simpl; [reflexivity|].
  destruct (is_space a); [exact IH|].
  simpl. now rewrite string_of_list_ascii_of_string.
Qed.

Lemma strip_as_list (s : string) :
  strip s
  = string_of_list_ascii
      (rev (lstrip_list (rev (lstrip_list (list_ascii_of_string s))))).
Proof.
  unfold strip, reverse_string.
  rewrite !lstrip_as_list, !list_ascii_of_string_of_list_ascii. reflexivity.
Qed.

Lemma lstrip_list_suffix (l : list ascii) :
  exists pre, l = pre ++ lstrip_list l.
Proof.
  induction l as [|a l [pre IH]]; simpl; [now exists []|].
  destruct (is_space a); [|now exists []].
  exists (a :: pre). simpl. now rewrite <- IH.
Qed.

Lemma lstrip_list_head (l : list ascii) (a : ascii) (t : list ascii) :
  lstrip_list l = a :: t -> is_space a = false.
Proof.
  induction l as [|b l IH]; simpl; [discriminate|].
  destruct (is_space b) eqn:E; [exact IH|].
  now intros [= <- _].
Qed.

Lemma lstrip_list_fixed (a : ascii) (t : list ascii) :
  is_space a = false -> lstrip_list (a :: t) = a :: t.
Proof. intros H. simpl. now rewrite H. Qed.

Lemma first_char_list (l : list ascii) :
  first_char (string_of_list_ascii l) = hd_error l.
Proof. now destruct l. Qed.

Lemma last_char_list (l : list ascii) :
  last_char (string_of_list_ascii l) = hd_error (rev l).
Proof.
  unfold last_char, reverse_string.
  now rewrite list_ascii_of_string_of_list_ascii, first_char_list.
Qed.

Lemma strip_is_stripped (s : string) : is_stripped (strip s) = true.
Proof.
  rewrite strip_as_list. unfold is_stripped.
  rewrite first_char_list, last_char_list, rev_involutive.
  set (m := lstrip_list (list_ascii_of_string s)).
  destruct (lstrip_list (rev m)) as [|b t] eqn:Et;
    [now destruct (hd_error (rev [])) |].
  pose proof (lstrip_list_head _ _ _ Et) as Hb.
  destruct (lstrip_list_suffix (rev m)) as [pre Hpre]. rewrite Et in Hpre.
  assert (m = rev (b :: t) ++ rev pre) as Hm
    by (rewrite <- rev_app_distr, <- Hpre; now rewrite rev_involutive).
  cbn [hd_error].
  destruct (rev (b :: t)) as [|a r] eqn:Er.
  - apply (f_equal (@length ascii)) in Er. rewrite length_rev in Er. discriminate.
  - cbn [hd_error]. cbn [app] in Hm.
    assert (is_space a = false) as Ha
      by (apply (lstrip_list_head (list_ascii_of_string s) a (r ++ rev pre));
          fold m; exact Hm).
    now rewrite Ha, Hb.
Qed.

Lemma strip_fixes_stripped (s : string) : is_stripped s = true -> strip s = s.
Proof.
  intros H. rewrite strip_as_list.
  assert (rev (lstrip_list (rev (lstrip_list (list_ascii_of_string s))))
          = list_ascii_of_string s) as Hl.
  { unfold is_stripped, last_char, reverse_string in H.
    rewrite first_char_list in H.
    assert (first_char s = hd_error (list_ascii_of_string s)) as Hf
      by (now destruct s).
    rewrite Hf in H. clear Hf.
    destruct (list_ascii_of_string s) as [|a t]; [reflexivity|].
    cbn [hd_error] in H.
    destruct (rev (a :: t)) as [|b r] eqn:Er.
    - apply (f_equal (@length ascii)) in Er. rewrite length_rev in Er.
      discriminate.
    - cbn [hd_error] in H. apply andb_true_iff in H. destruct H as [Ha Hb].
      apply negb_true_iff in Ha, Hb.
      rewrite (lstrip_list_fixed a t Ha), Er, (lstrip_list_fixed b r Hb), <- Er.
      apply rev_involutive. }
  rewrite Hl. apply string_of_list_ascii_of_string.
Qed.

Section SessionCell.

Variable W : Type.
Variable exec : forall T : Type, call T -> W -> outcome T * W.

(** X18.  In the session cell the user is prompted only when
    [get_execution_role] raised, and then exactly once.  The role obtained
    from [get_execution_role] is used as returned; a role typed at the
    prompt in ASCII characters is used stripped, so it carries no white
    space at either end, and stripping it again changes nothing.  An
    exception of the prompt ends the cell with that exception: the one of
    [get_execution_role] is lost. *)
Theorem init_session_role (session : handle) (bucket : string)
    (region : option string) (w w1 w2 w3 : W) :
  exec _ SagemakerSession w = (Returned session, w1) ->
  exec _ (DefaultBucket session) w1 = (Returned bucket, w2) ->
  exec _ Boto3RegionName w2 = (Returned region, w3) ->
  let run := init_session exec w in
  let opened :=
    [Called SagemakerSession (Returned session);
     Called (DefaultBucket session) (Returned bucket);
     Called Boto3RegionName (Returned region)] in
  let prompt :=
    Input "> Enter the role ARN for your SageMaker execution role: " in
  let report (role : string) :=
    [Printed [Text ("SageMaker session initialized in region: "
                    ++ str_option region)%string];
     Printed [Text ("Using S3 bucket: " ++ bucket)%string];
     Printed [Text ("Using IAM role: " ++ role)%string]] in
  match exec _ GetExecutionRole w3 with
  | (Returned role, w4) =>
      run = (w4, opened ++ [Called GetExecutionRole (Returned role)] ++ report role,
             Ok (session, bucket, region, role))
  | (Raised e, w4) =>
      match exec _ prompt w4 with
      | (Returned answer, w5) =>
          is_ascii answer = true ->
          run = (w5,
                 opened ++ [Called GetExecutionRole (Raised e);
                            Called prompt (Returned answer)]
                 ++ report (strip answer),
                 Ok (session, bucket, region, strip answer)) /\
          is_stripped (strip answer) = true /\
          strip (strip answer) = strip answer
      | (Raised e', w5) =>
          run = (w5,
                 opened ++ [Called GetExecutionRole (Raised e);
                            Called prompt (Raised e')],
                 Err e')
      end
  end.
Proof.
  intros H1 H2 H3. cbv zeta.
  unfold init_session, bind, try_except, do_call, print, ret.
  rewrite H1, H2, H3.
  destruct (exec string GetExecutionRole w3) as [[role|e] w4]; [reflexivity|].
  destruct (exec string (Input _) w4) as [[answer|e'] w5]; [|reflexivity].
  intros _. split; [reflexivity|].
  split; [apply strip_is_stripped|].
  apply strip_fixes_stripped, strip_is_stripped.
Qed.

End SessionCell.

Lemma init_session_role_sample :
  exists e : exn,
    init_session no_role_world tt
    = (tt,
       [Called SagemakerSession (Returned 0);
        Called (DefaultBucket 0) (Returned "sagemaker-demo-bucket");
        Called Boto3RegionName (Returned (Some "us-east-1"));
        Called GetExecutionRole (Raised e);
        Called (Input "> Enter the role ARN for your SageMaker execution role: ")
               (Returned "  arn:aws:iam::123456789012:role/demo ");
        Printed [Text "SageMaker session initialized in region: us-east-1"];
        Printed [Text "Using S3 bucket: sagemaker-demo-bucket"];
        Printed [Text "Using IAM role: arn:aws:iam::123456789012:role/demo"]],
       Ok (0, "sagemaker-demo-bucket", Some "us-east-1",
           "arn:aws:iam::123456789012:role/demo")).
Proof.
  exists (ExternalError "ValueError").
  exact (proj1 (init_session_role unit no_role_world 0 "sagemaker-demo-bucket"
                  (Some "us-east-1") tt tt tt tt eq_refl eq_refl eq_refl
                  eq_refl)).
Defined.

(** ** Running the feature cell twice *)

Lemma filter_none {A : Type} (p : A -> bool) (l : list A) :
  (forall x, In x l -> p x = false) -> filter p l = [].
Proof.
  induction l as [|x l IH]; intros H; simpl; [reflexivity|].
  rewrite (H x (or_introl eq_refl)). apply IH. intros y Hy. apply H. now right.
Qed.

(** X19.  Applying [prepare_features] to its own output (running the cell
    again) adds no column, since the ten feature columns are overwritten in
    place, but recomputes them from the shortened series and so drops thirty
    more rows: from a rectangular input of n rows without missing cells the
    second result has n - 60 rows. *)
Theorem prepare_features_rerun (df : DataFrame) (d : Series) :
  frame_wf df = true ->
  has_no_nulls df = true ->
  getitem df "demand" = Ok d ->
  exists aug1 ret1 aug2 ret2 : DataFrame,
    prepare_features df = Ok (aug1, ret1) /\
    prepare_features ret1 = Ok (aug2, ret2) /\
    column_names aug2 = column_names ret1 /\
    column_names ret2 = column_names ret1 /\
    nrows ret1 = nrows df - 30 /\
    nrows ret2 = nrows df - 60 /\
    has_no_nulls ret2 = true.
Proof.
  intros Hwf Hnn Hd.
  destruct (prepare_features_complete_input df d Hwf Hnn Hd)
    as [ret1 [Hp1 [Hwf1 [Hnn1 [Hn1 [Hc1 Hd1]]]]]].
  destruct (prepare_features_complete_input ret1 _ Hwf1 Hnn1 Hd1)
    as [ret2 [Hp2 [Hwf2 [Hnn2 [Hn2 [Hc2 Hd2]]]]]].
  assert (filter (fun k => negb (mem_string k (column_names ret1))) feature_labels
          = []) as Hnone.
  { apply filter_none. intros k Hk. apply negb_false_iff, mem_string_In.
    rewrite Hc1. apply in_or_app.
    destruct (mem_string k (column_names df)) eqn:E.
    - left. now apply mem_string_In.
    - right. apply filter_In. split; [exact Hk|]. now rewrite E. }
  rewrite Hnone, app_nil_r in Hc2.
  eexists. exists ret1. eexists. exists ret2.
  split; [exact Hp1|]. split; [exact Hp2|].
  split.
  - unfold augment. rewrite fold_setitem_names.
    + change (map fst (feature_columns
                         (mkSeries "demand" (skipn 30 (index df))
                            (skipn 30 (svalues d))))) with feature_labels.
      now rewrite Hnone, app_nil_r.
    + cbn. repeat constructor; cbn; intuition discriminate.
  - split; [exact Hc2|]. split; [exact Hn1|].
    split; [lia | exact Hnn2].
Qed.

Lemma prepare_features_rerun_sample :
  frame_wf sample_frame = true /\
  has_no_nulls sample_frame = true /\
  getitem sample_frame "demand" = Ok sample_series /\
  exists aug1 ret1 aug2 ret2 : DataFrame,
    prepare_features sample_frame = Ok (aug1, ret1) /\
    prepare_features ret1 = Ok (aug2, ret2) /\
    column_names ret2 = column_names ret1 /\
    nrows ret1 = 10 /\ nrows ret2 = 0.
Proof.
  split; [reflexivity|]. split; [reflexivity|]. split; [reflexivity|].
  destruct (prepare_features_rerun sample_frame sample_series
              eq_refl eq_refl eq_refl)
    as [aug1 [ret1 [aug2 [ret2 [H1 [H2 [_ [H3 [H4 [H5 _]]]]]]]]]].
  exists aug1, ret1, aug2, ret2.
  split; [exact H1|]. split; [exact H2|]. split; [exact H3|].
  split; [exact H4 | exact H5].
Defined.
